(** * Foundry MaaS proxy: the chain-of-thought filters and the request path

    A shallow embedding of [src/app.py] (the Entra-only, streaming proxy) and
    of [src/main.py] (the earlier, non-streaming proxy), with the properties
    the specification states about them.

    Conventions.
    - A Python [str] is a [string]; every [ascii] stands for the code point of
      the same number, so the development covers texts over code points
      below 256.
    - A Python [dict] with string keys is a [gmap string _]; a decoded JSON
      document is a [json], with [float] for Python's floats.
    - A function that can raise returns a [result]: [Raise] carries the
      exception.
    - What the program gets from outside (the configuration, the token
      provider, the HTTP client, the [json] module, the clock) is a
      [Variable] of the section that holds the code using it. *)

From Stdlib Require Import Ascii String ZArith Bool Lia Floats.
From stdpp Require Import base option list gmap strings pretty.

Set Warnings "-inexact-float,-register-all".

(** ** Python string primitives *)

Module PyStr.

(** [s.startswith(p)] *)
Fixpoint startswith (s p : string) {struct p} : bool :=
  match p with
  | EmptyString => true
  | String a p' =>
      match s with
      | EmptyString => false
      | String b s' => Ascii.eqb a b && startswith s' p'
      end
  end.

(** [s[n:]] for a non-negative [n] *)
Fixpoint drop (n : nat) (s : string) : string :=
  match n, s with
  | O, _ => s
  | S _, EmptyString => EmptyString
  | S k, String _ s' => drop k s'
  end.

(** [bool(s)]: a string is truthy when it is not empty. *)
Definition nonempty (s : string) : bool :=
  match s with EmptyString => false | String _ _ => true end.

(** [sep.join(parts)] with the empty separator *)
Fixpoint join (parts : list string) : string :=
  match parts with
  | [] => EmptyString
  | p :: rest => p +:+ join rest
  end.

(** Index of the first occurrence of [pat] in [s], as [re] and [str.find]
    locate it: the least offset at which [s] continues with [pat]. *)
Fixpoint find (pat s : string) : option nat :=
  if startswith s pat then Some O
  else match s with
       | EmptyString => None
       | String _ s' => S <$> find pat s'
       end.

(** Code points below 256 for which [str.isspace] holds; [str.strip]
    without arguments removes exactly these. *)
Definition isspace (c : ascii) : bool :=
  match c with
  | "009" | "010" | "011" | "012" | "013"
  | "028" | "029" | "030" | "031" | " " | "133" | "160" => true
  | _ => false
  end%char.

Fixpoint lstrip (s : string) : string :=
  match s with
  | EmptyString => EmptyString
  | String c s' => if isspace c then lstrip s' else s
  end.

Fixpoint rstrip (s : string) : string :=
  match s with
  | EmptyString => EmptyString
  | String c s' =>
      let r := rstrip s' in
      if isspace c && negb (nonempty r) then EmptyString else String c r
  end.

(** [s.strip()] *)
Definition strip (s : string) : string := rstrip (lstrip s).

(** [c.lower()] on code points below 256: the ASCII capitals and the
    Latin-1 capitals (all of 192..222 but the multiplication sign 215). *)
Definition lower_char (c : ascii) : ascii :=
  let n := nat_of_ascii c in
  if ((65 <=? n) && (n <=? 90)) || ((192 <=? n) && (n <=? 222) && negb (n =? 215))
  then ascii_of_nat (n + 32) else c.

Fixpoint lower (s : string) : string :=
  match s with
  | EmptyString => EmptyString
  | String c s' => String (lower_char c) (lower s')
  end.

End PyStr.

(** ** Regular-expression substitution

    [re.sub] replaces the leftmost non-overlapping matches, scanning from left
    to right. A compiled pattern is represented by its anchored matcher:
    [m s] is the length of the match that begins at the head of [s], if any.
    Both patterns of the program only have non-empty matches. *)

Module Re.

(** [skip] counts the characters of the current match still to be consumed. *)
Fixpoint sub_from (m : string → option nat) (repl : string)
         (skip : nat) (s : string) : string :=
  match s with
  | EmptyString => EmptyString
  | String c s' =>
      match skip with
      | S k => sub_from m repl k s'
      | O =>
          match m s with
          | Some (S l) => repl +:+ sub_from m repl l s'
          | _ => String c (sub_from m repl O s')
          end
      end
  end.

Definition sub (m : string → option nat) (repl s : string) : string :=
  sub_from m repl O s.

(** [pattern.search(s)]: is there a match anywhere in [s]? *)
Fixpoint search (m : string → option nat) (s : string) : bool :=
  match s with
  | EmptyString => false
  | String _ s' =>
      match m s with
      | Some (S _) => true
      | _ => search m s'
      end
  end.

End Re.

(** ** CoT filtering ([src/app.py]) *)

Definition OPEN : string := "<think>".
Definition CLOSE : string := "</think>".

(** [THINK_PATTERN = re.compile(r"<think>.*?</think>", re.DOTALL)]: at a
    position that continues with the opening tag, the lazy [.*?] stops at the
    first closing tag that follows. *)
Definition THINK_PATTERN (s : string) : option nat :=
  if PyStr.startswith s OPEN
  then (λ i, String.length OPEN + i + String.length CLOSE)
         <$> PyStr.find CLOSE (PyStr.drop (String.length OPEN) s)
  else None.

(** Number of newlines at the head of [s]. *)
Fixpoint newline_run (s : string) : nat :=
  match s with
  | String "010"%char s' => S (newline_run s')
  | _ => O
  end.

(** The pattern [\n{3,}]: greedy, so the match is the whole run. *)
Definition NEWLINES_PATTERN (s : string) : option nat :=
  let n := newline_run s in
  if 3 <=? n then Some n else None.

(** The replacement ["\n\n"]. *)
Definition two_newlines : string := String "010"%char (String "010"%char "").

Definition strip_think_tags (text : string) : string :=
  let cleaned := Re.sub THINK_PATTERN "" text in
  let cleaned := Re.sub NEWLINES_PATTERN two_newlines cleaned in
  PyStr.strip cleaned.

(** The second substitution of [strip_think_tags] on its own. *)
Definition collapse_newlines (s : string) : string :=
  Re.sub NEWLINES_PATTERN two_newlines s.

(** The state of a [StreamingThinkFilter] object. *)
Record StreamingThinkFilter : Type := mkFilter {
  inside_think : bool;
  buffer : string;
  tag_buffer : string
}.

Module StreamingThinkFilter.

(** [__init__] *)
Definition init : StreamingThinkFilter :=
  {| inside_think := false; buffer := ""; tag_buffer := "" |}.

Definition set_tag_buffer (self : StreamingThinkFilter) (tb : string) :=
  {| inside_think := inside_think self; buffer := buffer self; tag_buffer := tb |}.

Definition set_inside (self : StreamingThinkFilter) (b : bool) (tb : string) :=
  {| inside_think := b; buffer := buffer self; tag_buffer := tb |}.

(** One turn of the [while] loop of [process_text] on the character
    [text[i]]: the new state and what is appended to [output], if anything. *)
Definition step (self : StreamingThinkFilter) (c : ascii)
  : StreamingThinkFilter * option string :=
  if negb (inside_think self) then
    if Ascii.eqb c "<"%char then
      (set_tag_buffer self (tag_buffer self +:+ String c ""), None)
    else if PyStr.nonempty (tag_buffer self) then
      let tb := tag_buffer self +:+ String c "" in
      if String.eqb tb OPEN then (set_inside self true "", None)
      else if negb (PyStr.startswith OPEN tb) then (set_tag_buffer self "", Some tb)
      else (set_tag_buffer self tb, None)
    else (self, Some (String c ""))
  else
    if Ascii.eqb c "<"%char then
      (set_tag_buffer self (tag_buffer self +:+ String c ""), None)
    else if PyStr.nonempty (tag_buffer self) then
      let tb := tag_buffer self +:+ String c "" in
      if String.eqb tb CLOSE then (set_inside self false "", None)
      else if negb (PyStr.startswith CLOSE tb) then (set_tag_buffer self "", None)
      else (set_tag_buffer self tb, None)
    else (self, None).

(** [output.append(x)] when the turn produced an [x]. *)
Definition append (output : list string) (o : option string) : list string :=
  match o with
  | Some x => output ++ [x]
  | None => output
  end.

(** The loop [while i < len(text)], on the part of [text] from [i] on. *)
Fixpoint loop (self : StreamingThinkFilter) (text : string) (output : list string)
  : StreamingThinkFilter * list string :=
  match text with
  | EmptyString => (self, output)
  | String c rest =>
      let '(self', o) := step self c in
      loop self' rest (append output o)
  end.

Definition process_text (self : StreamingThinkFilter) (text : string)
  : StreamingThinkFilter * string :=
  let '(self', output) := loop self text [] in
  (self', PyStr.join output).

Definition flush (self : StreamingThinkFilter) : StreamingThinkFilter * string :=
  if PyStr.nonempty (tag_buffer self) && negb (inside_think self)
  then (set_tag_buffer self "", tag_buffer self)
  else (self, "").

(** A caller that feeds a sequence of fragments to one filter object and
    concatenates what the calls return. *)
Fixpoint feed (self : StreamingThinkFilter) (fragments : list string)
  : StreamingThinkFilter * string :=
  match fragments with
  | [] => (self, "")
  | text :: rest =>
      let '(self1, out1) := process_text self text in
      let '(self2, out2) := feed self1 rest in
      (self2, out1 +:+ out2)
  end.

(** Everything a fresh filter emits for a stream: the outputs of the calls,
    then what [flush] returns at the end of the stream. *)
Definition run (fragments : list string) : string :=
  let '(self, out) := feed init fragments in
  out +:+ snd (flush self).

(** Everything the filter emits from the state [self] for the text [text]
    followed by the end of the stream. *)
Definition emit (self : StreamingThinkFilter) (text : string) : string :=
  let '(self', out) := process_text self text in
  out +:+ snd (flush self').

(** The state outside any region with nothing pending. *)
Definition clean (self : StreamingThinkFilter) : StreamingThinkFilter :=
  set_inside self false "".

(** Outside a region, the pending candidate is what a filter with nothing
    pending would hold after reading that candidate, silently. *)
Definition candidate_replayable (self : StreamingThinkFilter) : Prop :=
  inside_think self = false →
  process_text (clean self) (tag_buffer self) = (self, "").

End StreamingThinkFilter.

(** A text of [n] characters [<]. *)
Fixpoint lt_signs (n : nat) : string :=
  match n with
  | O => ""
  | S k => String "<"%char (lt_signs k)
  end.

(** No character of [s] is [<]. *)
Fixpoint no_lt (s : string) : bool :=
  match s with
  | EmptyString => true
  | String c s' => negb (Ascii.eqb c "<"%char) && no_lt s'
  end.

(** ** Values, exceptions, requests and responses *)

(** Decoded JSON, as [json.loads] and [request.json()] return it. *)
Inductive json : Type :=
| JNull
| JBool (b : bool)
| JInt (n : Z)
| JFloat (x : float)
| JStr (s : string)
| JArr (xs : list json)
| JObj (kv : gmap string json).

(** The exceptions the program raises or lets through. *)
Inductive exception : Type :=
| HTTPException (status_code : Z) (detail : string)
| AttributeError
| IndexError
| KeyError
| TypeError
| JSONDecodeError.

Definition result (A : Type) : Type := exception + A.
Definition Return {A : Type} (a : A) : result A := inr a.
Definition Raise {A : Type} (e : exception) : result A := inl e.

Definition bind {A B : Type} (r : result A) (k : A → result B) : result B :=
  match r with
  | inl e => inl e
  | inr a => k a
  end.

Notation "'let*' x ':=' r 'in' k" := (bind r (λ x, k))
  (at level 10, x name, r at level 100, k at level 200, only parsing).

Module Json.

(** [bool(v)] *)
Definition truthy (v : json) : bool :=
  match v with
  | JNull => false
  | JBool b => b
  | JInt n => negb (n =? 0)%Z
  | JFloat x => negb (PrimFloat.eqb x 0%float)
  | JStr s => PyStr.nonempty s
  | JArr xs => negb (Nat.eqb (length xs) 0)
  | JObj kv => negb (Nat.eqb (size kv) 0)
  end.

(** [d.get(key, default)] on a dict *)
Definition get (d : gmap string json) (key : string) (dflt : json) : json :=
  default dflt (d !! key).

(** [v.get(key, default)] on any value: only a dict has the method. *)
Definition get_attr (v : json) (key : string) (dflt : json) : result json :=
  match v with
  | JObj d => Return (get d key dflt)
  | _ => Raise AttributeError
  end.

(** [v[0]] *)
Definition item0 (v : json) : result json :=
  match v with
  | JArr (x :: _) => Return x
  | JArr [] => Raise IndexError
  | JStr (String c _) => Return (JStr (String c ""))
  | JStr EmptyString => Raise IndexError
  | JObj _ => Raise KeyError
  | _ => Raise TypeError
  end.

End Json.

(** An inbound request: the header list, names in lower case as the server
    hands them over, and the decoded body ([None] when it is not JSON). *)
Record Request : Type := {
  req_headers : list (string * string);
  req_json : option json
}.

(** [request.headers.get(key, default)]: header names are matched without
    regard to case. *)
Definition headers_get (request : Request) (key dflt : string) : string :=
  match List.find (λ kv, String.eqb (fst kv) (PyStr.lower key)) (req_headers request) with
  | Some kv => snd kv
  | None => dflt
  end.

(** One request made to the backend. *)
Record UpstreamCall : Type := {
  call_url : string;
  call_headers : gmap string string;
  call_json : gmap string json
}.

(** What a streaming response body does: the strings it yields, and the
    exception that ends it when it does not end by itself. *)
Record Generated : Type := {
  events : list string;
  raised : option exception
}.

Inductive Response : Type :=
| JSONResponse (status_code : Z) (content : json)
| StreamingResponse (content : Generated) (media_type : string)
                    (headers : gmap string string).

(** The outcome of a route handler: the calls it made to the backend, and
    its response or the exception it raised. *)
Record Handled : Type := {
  upstream_calls : list UpstreamCall;
  response : result Response
}.

Definition raises (e : exception) : Handled :=
  {| upstream_calls := []; response := Raise e |}.

(** What [client.post] does. *)
Inductive PostReply : Type :=
| PostTimeout
| PostRequestError (msg : string)
| PostResponse (status_code : Z) (text : string).

(** How the body of a streamed backend response ends. *)
Inductive LinesEnd : Type :=
| EndOfLines
| ReadTimeout
| ReadError (msg : string).

(** What [client.stream] does: it fails before any response, or it gives a
    status and then the lines of the body until the body ends. *)
Inductive StreamReply : Type :=
| ConnectTimeout
| ConnectError (msg : string)
| StreamResponse (status_code : Z) (lines : list string) (ending : LinesEnd).

(** The terminator line of an event stream. *)
Definition DONE_EVENT : string :=
  "data: [DONE]" +:+ two_newlines.

(** [s.rstrip("/")] *)
Fixpoint rstrip_slash (s : string) : string :=
  match s with
  | EmptyString => EmptyString
  | String c s' =>
      let r := rstrip_slash s' in
      if Ascii.eqb c "/"%char && negb (PyStr.nonempty r) then EmptyString else String c r
  end.

(** [s[:n]] *)
Fixpoint take (n : nat) (s : string) : string :=
  match n, s with
  | S k, String c s' => String c (take k s')
  | _, _ => EmptyString
  end.

(** [sub in s] for strings *)
Definition contains (s sub : string) : bool :=
  match PyStr.find sub s with Some _ => true | None => false end.

(** A line of the backend's stream that carries the terminator: what the
    loop of [generate] tests with [line.startswith("data: ")] and
    [payload.strip() == "[DONE]"]. *)
Definition done_line (line : string) : bool :=
  PyStr.startswith line "data: "
  && String.eqb (PyStr.strip (PyStr.drop 6 line)) "[DONE]".

(** ** The proxy of [src/app.py] *)

Module App.

Section App.

(** Configuration read at start-up. *)
Variable EXPECTED_API_KEY : string.
Variable MODELS : gmap string (gmap string json).

(** [get_entra_token()]: the token, or the message of the exception. *)
Variable get_entra_token : string + string.

(** The HTTP client towards the backend. *)
Variable client_post : string → gmap string string → gmap string json → PostReply.
Variable client_stream : string → gmap string string → gmap string json → StreamReply.

(** The [json] module, [int(time.time())], and the text an f-string puts
    for a value and for the list of model ids. *)
Variable json_loads : string → option json.
Variable json_dumps : json → string.
Variable time_time : Z.
Variable format_value : json → string.
Variable format_keys : list string → string.

(** Auth dependency *)
Definition verify_api_key (request : Request) : result unit :=
  if negb (PyStr.nonempty EXPECTED_API_KEY) then
    Raise (HTTPException 500 "EXPECTED_API_KEY not configured on proxy")
  else
    let auth := headers_get request "Authorization" "" in
    if negb (PyStr.startswith auth "Bearer ") then
      Raise (HTTPException 401 "Missing Bearer token")
    else if negb (String.eqb (PyStr.drop 7 auth) EXPECTED_API_KEY) then
      Raise (HTTPException 403 "Invalid API key")
    else Return tt.

(** [f"data: {json.dumps(x)}\n\n"] *)
Definition sse (x : json) : string :=
  "data: " +:+ json_dumps x +:+ two_newlines.

Definition _make_sse_chunk (content : string) (model_id : json) : json :=
  JObj (<["id" := JStr ("proxy-flush-" +:+ pretty time_time)]>
        (<["object" := JStr "chat.completion.chunk"]>
        (<["model" := model_id]>
        (<["choices" :=
             JArr [JObj (<["index" := JInt 0]>
                        (<["delta" := JObj {["content" := JStr content]}]>
                        {["finish_reason" := JNull]}))]]>
         ∅)))).

(** The event that reports a failure: [{"error": {"message", "type"}}]. *)
Definition error_event (message type : string) : string :=
  sse (JObj {["error" := JObj (<["message" := JStr message]>
                               {["type" := JStr type]})]}).

(** [chunk.get("choices", [{}])[0].get("delta", {}).get("content", "")] *)
Definition delta_content (chunk : json) : result json :=
  let* choices := Json.get_attr chunk "choices" (JArr [JObj ∅]) in
  let* first := Json.item0 choices in
  let* delta := Json.get_attr first "delta" (JObj ∅) in
  Json.get_attr delta "content" (JStr "").

(** [chunk["choices"][0]["delta"]["content"] = filtered], on the chunk
    itself. *)
Definition set_delta_content (chunk : json) (filtered : string) : result json :=
  match chunk with
  | JObj c =>
      match c !! "choices" with
      | Some (JArr (JObj first :: rest)) =>
          match first !! "delta" with
          | Some (JObj delta) =>
              Return (JObj (<["choices" :=
                JArr (JObj (<["delta" := JObj (<["content" := JStr filtered]> delta)]> first)
                      :: rest)]> c))
          | Some _ => Raise TypeError
          | None => Raise KeyError
          end
      | Some (JArr []) => Raise IndexError
      | Some _ => Raise TypeError
      | None => Raise KeyError
      end
  | _ => Raise TypeError
  end.

(** How one turn of [async for line in resp.aiter_lines()] ends. *)
Inductive turn : Type :=
| Continue (think_filter : option StreamingThinkFilter) (yielded : list string)
| Returns (yielded : list string)
| Raises (e : exception).

(** The body of the loop over the lines. A content delta that is truthy is
    a string here; with another value [process_text] does not get a text. *)
Definition on_line (think_filter : option StreamingThinkFilter) (model_id : json)
           (line : string) : turn :=
  if negb (PyStr.startswith line "data: ") then Continue think_filter []
  else
    let payload := PyStr.drop 6 line in
    if String.eqb (PyStr.strip payload) "[DONE]" then
      match think_filter with
      | Some f =>
          let '(_, remaining) := StreamingThinkFilter.flush f in
          if PyStr.nonempty remaining
          then Returns [sse (_make_sse_chunk remaining model_id); DONE_EVENT]
          else Returns [DONE_EVENT]
      | None => Returns [DONE_EVENT]
      end
    else
      match json_loads payload with
      | None => Continue think_filter []
      | Some chunk =>
          match delta_content chunk with
          | inl e => Raises e
          | inr delta =>
              if negb (Json.truthy delta) then Continue think_filter [sse chunk]
              else
                match think_filter with
                | Some f =>
                    match delta with
                    | JStr text =>
                        let '(f', filtered) := StreamingThinkFilter.process_text f text in
                        if PyStr.nonempty filtered then
                          match set_delta_content chunk filtered with
                          | inl e => Raises e
                          | inr chunk' => Continue (Some f') [sse chunk']
                          end
                        else Continue (Some f') []
                    | _ => Raises TypeError
                    end
                | None => Continue think_filter [sse chunk]
                end
          end
      end.

(** How the loop over the lines ends: by the [return] after the terminator,
    by an exception of the loop body, or because the lines are over. *)
Inductive loop_exit : Type :=
| Returned
| Raised (e : exception)
| Exhausted.

Fixpoint lines_loop (think_filter : option StreamingThinkFilter) (model_id : json)
         (lines : list string) : list string * loop_exit :=
  match lines with
  | [] => ([], Exhausted)
  | line :: rest =>
      match on_line think_filter model_id line with
      | Continue think_filter' yielded =>
          let '(more, exit) := lines_loop think_filter' model_id rest in
          (yielded ++ more, exit)
      | Returns yielded => (yielded, Returned)
      | Raises e => ([], Raised e)
      end
  end.

Definition timeout_events : list string :=
  [error_event "Foundry request timed out" "timeout"; DONE_EVENT].

Definition connection_error_events (e : string) : list string :=
  [error_event ("Connection error: " +:+ e) "connection_error"; DONE_EVENT].

(** The generator [generate()] of [_handle_streaming], with the request it
    makes. *)
Definition generate (url : string) (headers : gmap string string)
           (body : gmap string json) (model_id should_filter : json) : Generated :=
  let think_filter :=
    if Json.truthy should_filter then Some StreamingThinkFilter.init else None in
  match client_stream url headers body with
  | ConnectTimeout => {| events := timeout_events; raised := None |}
  | ConnectError e => {| events := connection_error_events e; raised := None |}
  | StreamResponse status_code lines ending =>
      if negb (status_code =? 200)%Z then
        (* [await resp.aread()] reads the body to its end *)
        match ending with
        | EndOfLines =>
            {| events := [error_event ("Foundry returned " +:+ pretty status_code)
                                      "upstream_error"; DONE_EVENT];
               raised := None |}
        | ReadTimeout => {| events := timeout_events; raised := None |}
        | ReadError e => {| events := connection_error_events e; raised := None |}
        end
      else
        let '(yielded, exit) := lines_loop think_filter model_id lines in
        match exit with
        | Returned => {| events := yielded; raised := None |}
        | Raised e => {| events := yielded; raised := Some e |}
        | Exhausted =>
            match ending with
            | EndOfLines => {| events := yielded; raised := None |}
            | ReadTimeout => {| events := yielded ++ timeout_events; raised := None |}
            | ReadError e =>
                {| events := yielded ++ connection_error_events e; raised := None |}
            end
        end
  end.

Definition _handle_streaming (url : string) (headers : gmap string string)
           (body : gmap string json) (model_id should_filter : json) : Handled :=
  {| upstream_calls := [{| call_url := url; call_headers := headers; call_json := body |}];
     response :=
       Return (StreamingResponse
                 (generate url headers body model_id should_filter)
                 "text/event-stream"
                 (<["Cache-Control" := "no-cache"]>
                  (<["Connection" := "keep-alive"]>
                  {["X-Accel-Buffering" := "no"]}))) |}.

(** The body of [for choice in data.get("choices", [])]: the whole-text
    filter on the message content of one choice, in place. *)
Definition filter_choice (choice : json) : result json :=
  match choice with
  | JObj c =>
      match Json.get c "message" (JObj ∅) with
      | JObj msg =>
          match msg !! "content" with
          | Some (JStr text) =>
              if PyStr.nonempty text
              then Return (JObj (<["message" :=
                             JObj (<["content" := JStr (strip_think_tags text)]> msg)]> c))
              else Return choice
          | Some v => if Json.truthy v then Raise TypeError else Return choice
          | None => Return choice
          end
      | JStr s => if contains s "content" then Raise TypeError else Return choice
      | JArr xs =>
          if existsb (λ x, match x with JStr t => String.eqb t "content" | _ => false end) xs
          then Raise TypeError else Return choice
      | _ => Raise TypeError
      end
  | _ => Raise AttributeError
  end.

Fixpoint filter_choices (choices : list json) : result (list json) :=
  match choices with
  | [] => Return []
  | choice :: rest =>
      let* choice' := filter_choice choice in
      let* rest' := filter_choices rest in
      Return (choice' :: rest')
  end.

(** The filtering of [_handle_non_streaming] on the decoded body. *)
Definition filter_data (data : json) : result json :=
  match data with
  | JObj d =>
      match d !! "choices" with
      | None => Return data
      | Some (JArr choices) =>
          let* choices' := filter_choices choices in
          Return (JObj (<["choices" := JArr choices']> d))
      | Some (JStr s) => if PyStr.nonempty s then Raise AttributeError else Return data
      | Some (JObj kv) => if Json.truthy (JObj kv) then Raise AttributeError else Return data
      | Some _ => Raise TypeError
      end
  | _ => Raise AttributeError
  end.

Definition _handle_non_streaming (url : string) (headers : gmap string string)
           (body : gmap string json) (model_id should_filter : json) : Handled :=
  {| upstream_calls := [{| call_url := url; call_headers := headers; call_json := body |}];
     response :=
       match client_post url headers body with
       | PostTimeout => Raise (HTTPException 504 "Foundry request timed out")
       | PostRequestError e => Raise (HTTPException 502 ("Foundry request failed: " +:+ e))
       | PostResponse status_code text =>
           if negb (status_code =? 200)%Z then
             Raise (HTTPException status_code ("Foundry error: " +:+ take 500 text))
           else
             match json_loads text with
             | None => Raise JSONDecodeError
             | Some data =>
                 if Json.truthy should_filter then
                   let* data' := filter_data data in
                   Return (JSONResponse 200 data')
                 else Return (JSONResponse 200 data)
             end
       end |}.

(** The dict [foundry_body]: the six keys that are always there, then the
    optional parameters that the inbound body holds. *)
Definition foundry_body (body : gmap string json)
           (deployment max_tokens_default wants_stream : json) : gmap string json :=
  let foundry_body : gmap string json :=
    <["messages" := Json.get body "messages" (JArr [])]>
    (<["model" := deployment]>
    (<["max_tokens" := Json.get body "max_tokens" max_tokens_default]>
    (<["temperature" := Json.get body "temperature" (JFloat 0.7)]>
    (<["top_p" := Json.get body "top_p" (JFloat 0.95)]>
    (<["stream" := wants_stream]> ∅))))) in
  fold_left
    (λ (foundry_body : gmap string json) key,
       match body !! key with
       | Some v => <[key := v]> foundry_body
       | None => foundry_body
       end)
    ["stop"; "frequency_penalty"; "presence_penalty"]
    foundry_body.

(** [MODELS.get(model_id)]: a list or a dict cannot be a key. *)
Definition models_get (model_id : json) : result (option (gmap string json)) :=
  match model_id with
  | JStr s => Return (MODELS !! s)
  | JArr _ | JObj _ => Raise TypeError
  | _ => Return None
  end.

Definition chat_completions (request : Request) : Handled :=
  match req_json request with
  | None => raises JSONDecodeError
  | Some (JObj body) =>
      let model_id := Json.get body "model" (JStr "") in
      let wants_stream := Json.get body "stream" (JBool false) in
      match models_get model_id with
      | inl e => raises e
      | inr model_cfg =>
          match model_cfg with
          | Some model_cfg =>
              if negb (Json.truthy (JObj model_cfg)) then
                raises (HTTPException 404
                  ("Model '" +:+ format_value model_id +:+ "' not configured. Available: "
                   +:+ format_keys (map fst (map_to_list MODELS))))
              else
                match model_cfg !! "endpoint" with
                | None => raises KeyError
                | Some endpoint =>
                    let deployment := Json.get model_cfg "deployment" model_id in
                    let should_filter := Json.get model_cfg "strip_think_tags" (JBool true) in
                    let max_tokens_default :=
                      Json.get model_cfg "max_tokens_default" (JInt 4096) in
                    let foundry_body :=
                      foundry_body body deployment max_tokens_default wants_stream in
                    match get_entra_token with
                    | inl e =>
                        raises (HTTPException 502 ("Entra token acquisition failed: " +:+ e))
                    | inr token =>
                        let headers : gmap string string :=
                          <["Authorization" := "Bearer " +:+ token]>
                          {["Content-Type" := "application/json"]} in
                        match endpoint with
                        | JStr endpoint =>
                            let foundry_url := rstrip_slash endpoint +:+ "/chat/completions" in
                            if Json.truthy wants_stream
                            then _handle_streaming foundry_url headers foundry_body
                                                   model_id should_filter
                            else _handle_non_streaming foundry_url headers foundry_body
                                                       model_id should_filter
                        | _ => raises AttributeError
                        end
                    end
                end
          | None =>
              raises (HTTPException 404
                ("Model '" +:+ format_value model_id +:+ "' not configured. Available: "
                 +:+ format_keys (map fst (map_to_list MODELS))))
          end
      end
  | Some _ => raises AttributeError
  end.

(** The ids of the configured models, in the order the dict gives them. *)
Definition model_ids : list string := map fst (map_to_list MODELS).

(** [GET /health] *)
Definition health : json :=
  JObj (<["status" := JStr "ok"]> {["models" := JArr (JStr <$> model_ids)]}).

(** [GET /v1/models]: the handler, and the route with its dependency. *)
Definition list_models : json :=
  let model_list :=
    (λ model_id,
       JObj (<["id" := JStr model_id]>
             (<["object" := JStr "model"]>
             (<["created" := JInt 0]>
             {["owned_by" := JStr "azure-foundry"]})))) <$> model_ids in
  JObj (<["object" := JStr "list"]> {["data" := JArr model_list]}).

Definition get_models (request : Request) : result json :=
  let* _ := verify_api_key request in
  Return list_models.

(** The route [POST /v1/chat/completions] with its dependency. *)
Definition post_chat_completions (request : Request) : Handled :=
  match verify_api_key request with
  | inl e => raises e
  | inr _ => chat_completions request
  end.

End App.

End App.

(** ** The proxy of [src/main.py] *)

Module Main.

Section Main.

Variable FOUNDRY_CHAT_URL : string.
Variable DEFAULT_MODEL : string.
Variable EXPECTED_API_KEY : string.

(** [get_aad_token()], and [requests.post] with the serialised body: the
    status and the text of the response, or the exception raised. *)
Variable get_aad_token : result string.
Variable requests_post : string → gmap string string → string → result (Z * string).
Variable json_loads : string → option json.
Variable json_dumps : json → string.

(** [s.split(" ", 1)[1]]: what follows the first space. *)
Fixpoint after_first_space (s : string) : result string :=
  match s with
  | EmptyString => Raise IndexError
  | String c s' => if Ascii.eqb c " "%char then Return s' else after_first_space s'
  end.

Definition check_openwebui_key (req : Request) : result unit :=
  if negb (PyStr.nonempty EXPECTED_API_KEY) then Return tt
  else
    let auth := headers_get req "authorization" "" in
    if negb (PyStr.startswith (PyStr.lower auth) "bearer ") then
      Raise (HTTPException 401 "Missing bearer token")
    else
      let* rest := after_first_space auth in
      let supplied := PyStr.strip rest in
      if negb (String.eqb supplied EXPECTED_API_KEY) then
        Raise (HTTPException 403 "Invalid API key")
      else Return tt.

(** [GET /v1/models] *)
Definition list_models (request : Request) : result json :=
  let* _ := check_openwebui_key request in
  Return (JObj (<["object" := JStr "list"]>
                {["data" := JArr [JObj (<["id" := JStr DEFAULT_MODEL]>
                                        {["object" := JStr "model"]})]]})).

(** [GET /healthz] *)
Definition healthz : json := JObj {["ok" := JBool true]}.

Definition chat_completions (request : Request) : Handled :=
  match check_openwebui_key request with
  | inl e => raises e
  | inr _ =>
      match req_json request with
      | None => raises JSONDecodeError
      | Some (JObj body) =>
          let model := default JNull (body !! "model") in
          let body := <["model" := if Json.truthy model then model else JStr DEFAULT_MODEL]> body in
          let body := <["stream" := JBool false]> body in
          match get_aad_token with
          | inl e => raises e
          | inr aad_token =>
              let headers : gmap string string :=
                <["Authorization" := "Bearer " +:+ aad_token]>
                {["Content-Type" := "application/json"]} in
              {| upstream_calls :=
                   [{| call_url := FOUNDRY_CHAT_URL; call_headers := headers;
                       call_json := body |}];
                 response :=
                   let* r := requests_post FOUNDRY_CHAT_URL headers (json_dumps (JObj body)) in
                   let '(status_code, text) := r in
                   if (400 <=? status_code)%Z then
                     Return (JSONResponse status_code (JObj {["error" := JStr text]}))
                   else
                     match json_loads text with
                     | None => Raise JSONDecodeError
                     | Some content => Return (JSONResponse status_code content)
                     end |}
          end
      | Some _ => raises AttributeError
      end
  end.

End Main.

End Main.

(** ** Well-formed texts *)

(** A text in which every piece is ordinary text followed by one span:
    [plain <think> body </think>], then the ordinary text [rest]. *)
Fixpoint tagged (pieces : list (string * string)) (rest : string) : string :=
  match pieces with
  | [] => rest
  | (plain, body) :: pieces' =>
      plain +:+ OPEN +:+ body +:+ CLOSE +:+ tagged pieces' rest
  end.

(** The same text without its spans. *)
Fixpoint visible (pieces : list (string * string)) (rest : string) : string :=
  match pieces with
  | [] => rest
  | (plain, _) :: pieces' => plain +:+ visible pieces' rest
  end.

(** In a well-formed text [<] only occurs in the delimiters. *)
Definition well_formed (pieces : list (string * string)) (rest : string) : Prop :=
  Forall (λ piece, no_lt (fst piece) = true ∧ no_lt (snd piece) = true) pieces
  ∧ no_lt rest = true.

(** ** Message contents of a completion *)

(** [choice["message"]["content"]] where the choice and its message are
    dicts and the key is there. *)
Definition message_content (choice : json) : option json :=
  match choice with
  | JObj c =>
      match c !! "message" with
      | Some (JObj msg) => msg !! "content"
      | _ => None
      end
  | _ => None
  end.

(** A content after filtering: a string goes through [strip_think_tags]. *)
Definition filtered_content (v : json) : json :=
  match v with
  | JStr text => JStr (strip_think_tags text)
  | _ => v
  end.

(** [choice'] is [choice] with its message content filtered and nothing
    else changed. *)
Definition choice_filtered (choice choice' : json) : Prop :=
  (choice' = choice
   ∨ ∃ c msg text,
       choice = JObj c
       ∧ c !! "message" = Some (JObj msg)
       ∧ msg !! "content" = Some (JStr text)
       ∧ choice' = JObj (<["message" :=
                    JObj (<["content" := JStr (strip_think_tags text)]> msg)]> c))
  ∧ message_content choice' = filtered_content <$> message_content choice.

(** ** Subsequences and trailing slashes *)

(** [a] is [b] with some characters left out. *)
Inductive subseq : string → string → Prop :=
| subseq_nil : subseq "" ""
| subseq_skip c a b : subseq a b → subseq a (String c b)
| subseq_keep c a b : subseq a b → subseq (String c a) (String c b).

(** A text of [n] characters [/]. *)
Fixpoint slashes (n : nat) : string :=
  match n with
  | O => ""
  | S k => String "/"%char (slashes k)
  end.

(** What the filter still owes the caller: the pending candidate when it is
    outside a region, nothing when it is inside. *)
Definition owed (self : StreamingThinkFilter) : string :=
  if inside_think self then "" else tag_buffer self.


(** ** Configuration ([src/app.py]) *)

Module Config.

Section Config.

(** The process environment, and the parsed configuration file when
    [CONFIG_PATH] exists: a dict of sections, [models] being a dict of model
    configurations. *)
Variable environ : gmap string string.
Variable config_file : option (gmap string (gmap string (gmap string json))).

(** [os.getenv(name, default)] *)
Definition getenv (name dflt : string) : string := default dflt (environ !! name).

Definition load_config : gmap string (gmap string (gmap string json)) :=
  match config_file with
  | None =>
      {["models" :=
          {[getenv "MODEL_ID" "DeepSeek-V3.2-Speciale" :=
              <["endpoint" := JStr (getenv "FOUNDRY_ENDPOINT" "")]>
              (<["deployment" := JStr (getenv "MODEL_ID" "DeepSeek-V3.2-Speciale")]>
              (<["strip_think_tags" := JBool true]>
              {["max_tokens_default" := JInt 4096]}))]}]}
  | Some config => config
  end.

(** [MODELS = CONFIG.get("models", {})] *)
Definition MODELS : gmap string (gmap string json) :=
  default ∅ (load_config !! "models").

End Config.

End Config.

(** ** The requests to the backend as an effect *)

(** The handlers again, with the HTTP client as the only thing that touches
    the outside: a computation runs from a state of the world, [World], and
    leaves a new one, and the client is what advances it. The reply of the
    client may depend on the world it is used in, so a second request need
    not be answered like the first. *)
Definition IO (World A : Type) : Type := World → A * World.

Definition io_return {World A : Type} (a : A) : IO World A := λ w, (a, w).

Definition io_bind {World A B : Type} (m : IO World A) (k : A → IO World B)
  : IO World B :=
  λ w, let '(a, w') := m w in k a w'.

Notation "'do*' x ':=' m 'in' k" := (io_bind m (λ x, k))
  (at level 10, x name, m at level 100, k at level 200, only parsing).

(** A client that counts the requests made through it, on top of one whose
    replies are [reply]. *)
Definition counted {A B C R : Type} (reply : A → B → C → R)
  : A → B → C → IO nat R :=
  λ a b c n, (reply a b c, S n).

(** A client that keeps the list of the requests made through it. *)
Definition logged {R : Type}
           (reply : string → gmap string string → gmap string json → R)
  : string → gmap string string → gmap string json → IO (list UpstreamCall) R :=
  λ url headers body log,
    (reply url headers body,
     log ++ [{| call_url := url; call_headers := headers; call_json := body |}]).

Module AppIO.

Section AppIO.

Variable World : Type.

Variable MODELS : gmap string (gmap string json).
Variable get_entra_token : string + string.

(** [client.post] and [client.stream] of [httpx.AsyncClient]. *)
Variable client_post :
  string → gmap string string → gmap string json → IO World PostReply.
Variable client_stream :
  string → gmap string string → gmap string json → IO World StreamReply.

Variable json_loads : string → option json.
Variable json_dumps : json → string.
Variable time_time : Z.
Variable format_value : json → string.
Variable format_keys : list string → string.

Definition _handle_non_streaming (url : string) (headers : gmap string string)
           (body : gmap string json) (model_id should_filter : json)
  : IO World (result Response) :=
  do* resp := client_post url headers body in
  io_return
    match resp with
    | PostTimeout => Raise (HTTPException 504 "Foundry request timed out")
    | PostRequestError e => Raise (HTTPException 502 ("Foundry request failed: " +:+ e))
    | PostResponse status_code text =>
        if negb (status_code =? 200)%Z then
          Raise (HTTPException status_code ("Foundry error: " +:+ take 500 text))
        else
          match json_loads text with
          | None => Raise JSONDecodeError
          | Some data =>
              if Json.truthy should_filter then
                let* data' := App.filter_data data in
                Return (JSONResponse 200 data')
              else Return (JSONResponse 200 data)
          end
    end.

(** The generator [generate()], run to its end. *)
Definition generate (url : string) (headers : gmap string string)
           (body : gmap string json) (model_id should_filter : json)
  : IO World Generated :=
  let think_filter :=
    if Json.truthy should_filter then Some StreamingThinkFilter.init else None in
  do* resp := client_stream url headers body in
  io_return
    match resp with
    | ConnectTimeout => {| events := App.timeout_events json_dumps; raised := None |}
    | ConnectError e =>
        {| events := App.connection_error_events json_dumps e; raised := None |}
    | StreamResponse status_code lines ending =>
        if negb (status_code =? 200)%Z then
          match ending with
          | EndOfLines =>
              {| events := [App.error_event json_dumps
                              ("Foundry returned " +:+ pretty status_code)
                              "upstream_error"; DONE_EVENT];
                 raised := None |}
          | ReadTimeout => {| events := App.timeout_events json_dumps; raised := None |}
          | ReadError e =>
              {| events := App.connection_error_events json_dumps e; raised := None |}
          end
        else
          let '(yielded, exit) :=
            App.lines_loop json_loads json_dumps time_time think_filter model_id lines in
          match exit with
          | App.Returned => {| events := yielded; raised := None |}
          | App.Raised e => {| events := yielded; raised := Some e |}
          | App.Exhausted =>
              match ending with
              | EndOfLines => {| events := yielded; raised := None |}
              | ReadTimeout =>
                  {| events := yielded ++ App.timeout_events json_dumps; raised := None |}
              | ReadError e =>
                  {| events := yielded ++ App.connection_error_events json_dumps e;
                     raised := None |}
              end
          end
    end.

(** The streaming response, whose body the server reads once, to its end. *)
Definition _handle_streaming (url : string) (headers : gmap string string)
           (body : gmap string json) (model_id should_filter : json)
  : IO World (result Response) :=
  do* content := generate url headers body model_id should_filter in
  io_return
    (Return (StreamingResponse content "text/event-stream"
               (<["Cache-Control" := "no-cache"]>
                (<["Connection" := "keep-alive"]>
                {["X-Accel-Buffering" := "no"]})))).

Definition chat_completions (request : Request) : IO World (result Response) :=
  match req_json request with
  | None => io_return (Raise JSONDecodeError)
  | Some (JObj body) =>
      let model_id := Json.get body "model" (JStr "") in
      let wants_stream := Json.get body "stream" (JBool false) in
      match App.models_get MODELS model_id with
      | inl e => io_return (Raise e)
      | inr model_cfg =>
          match model_cfg with
          | Some model_cfg =>
              if negb (Json.truthy (JObj model_cfg)) then
                io_return (Raise (HTTPException 404
                  ("Model '" +:+ format_value model_id +:+ "' not configured. Available: "
                   +:+ format_keys (map fst (map_to_list MODELS)))))
              else
                match model_cfg !! "endpoint" with
                | None => io_return (Raise KeyError)
                | Some endpoint =>
                    let deployment := Json.get model_cfg "deployment" model_id in
                    let should_filter := Json.get model_cfg "strip_think_tags" (JBool true) in
                    let max_tokens_default :=
                      Json.get model_cfg "max_tokens_default" (JInt 4096) in
                    let foundry_body :=
                      App.foundry_body body deployment max_tokens_default wants_stream in
                    match get_entra_token with
                    | inl e =>
                        io_return
                          (Raise (HTTPException 502
                                    ("Entra token acquisition failed: " +:+ e)))
                    | inr token =>
                        let headers : gmap string string :=
                          <["Authorization" := "Bearer " +:+ token]>
                          {["Content-Type" := "application/json"]} in
                        match endpoint with
                        | JStr endpoint =>
                            let foundry_url := rstrip_slash endpoint +:+ "/chat/completions" in
                            if Json.truthy wants_stream
                            then _handle_streaming foundry_url headers foundry_body
                                                   model_id should_filter
                            else _handle_non_streaming foundry_url headers foundry_body
                                                       model_id should_filter
                        | _ => io_return (Raise AttributeError)
                        end
                    end
                end
          | None =>
              io_return (Raise (HTTPException 404
                ("Model '" +:+ format_value model_id +:+ "' not configured. Available: "
                 +:+ format_keys (map fst (map_to_list MODELS)))))
          end
      end
  | Some _ => io_return (Raise AttributeError)
  end.

End AppIO.

End AppIO.

Module MainIO.

Section MainIO.

Variable World : Type.

Variable FOUNDRY_CHAT_URL : string.
Variable DEFAULT_MODEL : string.
Variable EXPECTED_API_KEY : string.

Variable get_aad_token : result string.

(** [requests.post] with the serialised body. *)
Variable requests_post :
  string → gmap string string → string → IO World (result (Z * string)).
Variable json_loads : string → option json.
Variable json_dumps : json → string.

Definition chat_completions (request : Request) : IO World (result Response) :=
  match Main.check_openwebui_key EXPECTED_API_KEY request with
  | inl e => io_return (Raise e)
  | inr _ =>
      match req_json request with
      | None => io_return (Raise JSONDecodeError)
      | Some (JObj body) =>
          let model := default JNull (body !! "model") in
          let body := <["model" := if Json.truthy model then model else JStr DEFAULT_MODEL]> body in
          let body := <["stream" := JBool false]> body in
          match get_aad_token with
          | inl e => io_return (Raise e)
          | inr aad_token =>
              let headers : gmap string string :=
                <["Authorization" := "Bearer " +:+ aad_token]>
                {["Content-Type" := "application/json"]} in
              do* response :=
                requests_post FOUNDRY_CHAT_URL headers (json_dumps (JObj body)) in
              io_return
                (let* r := response in
                 let '(status_code, text) := r in
                 if (400 <=? status_code)%Z then
                   Return (JSONResponse status_code (JObj {["error" := JStr text]}))
                 else
                   match json_loads text with
                   | None => Raise JSONDecodeError
                   | Some content => Return (JSONResponse status_code content)
                   end)
          end
      | Some _ => io_return (Raise AttributeError)
      end
  end.

End MainIO.

End MainIO.
(** * Properties *)

(** ** Strings *)

Section StringFacts.

Lemma sapp_nil_l (s : string) : "" +:+ s = s.
Proof. reflexivity. Qed.

Lemma sapp_cons (c : ascii) (a b : string) : String c a +:+ b = String c (a +:+ b).
Proof. reflexivity. Qed.

Lemma sapp_nil_r (s : string) : s +:+ "" = s.
Proof. induction s as [|c s IH]; [reflexivity|]. by rewrite sapp_cons, IH. Qed.

Lemma sapp_assoc (a b c : string) : (a +:+ b) +:+ c = a +:+ b +:+ c.
Proof. induction a as [|x a IH]; [reflexivity|]. by rewrite !sapp_cons, IH. Qed.

Lemma slength_app (a b : string) :
  String.length (a +:+ b) = String.length a + String.length b.
Proof. induction a as [|x a IH]; [reflexivity|]. rewrite sapp_cons. simpl. by rewrite IH. Qed.

Lemma join_app (xs ys : list string) :
  PyStr.join (xs ++ ys) = PyStr.join xs +:+ PyStr.join ys.
Proof.
  induction xs as [|x xs IH]; [reflexivity|].
  simpl. by rewrite IH, sapp_assoc.
Qed.

End StringFacts.

(** ** The streaming filter: chunk boundaries *)

Section Chunking.

Import StreamingThinkFilter.

(** The list [output] only grows: the loop's result on an initial [output]
    is that list followed by the result on the empty list. *)
Lemma loop_output self text output :
  loop self text output =
    (fst (loop self text []), output ++ snd (loop self text [])).
Proof.
  revert self output. induction text as [|c text IH]; intros self output.
  - simpl. by rewrite (right_id_L [] (++)).
  - simpl. destruct (step self c) as [self' o].
    rewrite (IH self' (append output o)), (IH self' (append [] o)).
    simpl. f_equal. destruct o as [x|]; simpl; [|done].
    by rewrite <- (assoc_L (++)).
Qed.

Lemma loop_cons self c text output :
  loop self (String c text) output =
    loop (fst (step self c)) text (append output (snd (step self c))).
Proof. simpl. by destruct (step self c). Qed.

Lemma loop_app self a b output :
  loop self (a +:+ b) output =
    let '(self1, output1) := loop self a output in loop self1 b output1.
Proof.
  revert self output. induction a as [|c a IH]; intros self output.
  - reflexivity.
  - rewrite sapp_cons. simpl. destruct (step self c) as [self' o]. apply IH.
Qed.

Lemma process_text_app self a b :
  process_text self (a +:+ b) =
    let '(self1, out1) := process_text self a in
    let '(self2, out2) := process_text self1 b in
    (self2, out1 +:+ out2).
Proof.
  unfold process_text. rewrite loop_app.
  destruct (loop self a []) as [self1 output1].
  rewrite (loop_output self1 b output1).
  destruct (loop self1 b []) as [self2 output2]. simpl.
  by rewrite join_app.
Qed.

Lemma process_text_single self c :
  process_text self (String c "")
  = (fst (step self c), default "" (snd (step self c))).
Proof.
  unfold process_text. rewrite loop_cons. simpl.
  destruct (snd (step self c)); simpl; [|done]. by rewrite sapp_nil_r.
Qed.

Lemma process_text_empty self : process_text self "" = (self, "").
Proof. reflexivity. Qed.

(** Feeding fragments one by one is one call on their concatenation. *)
Lemma feed_join self fragments :
  feed self fragments = process_text self (PyStr.join fragments).
Proof.
  revert self. induction fragments as [|text rest IH]; intros self.
  - reflexivity.
  - simpl. rewrite process_text_app.
    destruct (process_text self text) as [self1 out1].
    by rewrite IH.
Qed.

End Chunking.

(** C1. Chunk boundaries are invisible: whichever way a text is split into
    fragments (in the middle of a delimiter too), feeding the fragments one
    by one to a fresh filter, concatenating the outputs and appending the
    result of [flush] gives the same string as processing the whole text as a
    single fragment and flushing. It holds for every text, so in particular
    for those made of well-formed spans and ordinary text. *)
Theorem chunk_invariance (fragments : list string) :
  StreamingThinkFilter.run fragments
  = StreamingThinkFilter.run [PyStr.join fragments].
Proof.
  unfold StreamingThinkFilter.run.
  rewrite !feed_join. simpl PyStr.join. by rewrite sapp_nil_r.
Qed.

(** ** Occurrences of a pattern *)

Section Occurrences.

Lemma startswith_app (p r : string) : PyStr.startswith (p +:+ r) p = true.
Proof.
  induction p as [|c p IH]; [reflexivity|].
  rewrite sapp_cons. simpl. by rewrite Ascii.eqb_refl, IH.
Qed.

Lemma find_unfold (pat s : string) :
  PyStr.find pat s =
    if PyStr.startswith s pat then Some O
    else match s with
         | EmptyString => None
         | String _ s' => S <$> PyStr.find pat s'
         end.
Proof. by destruct s. Qed.

Lemma find_cons_None (pat : string) (c : ascii) (s : string) :
  PyStr.find pat (String c s) = None →
  PyStr.startswith (String c s) pat = false ∧ PyStr.find pat s = None.
Proof.
  rewrite find_unfold.
  destruct (PyStr.startswith (String c s) pat); [done|].
  destruct (PyStr.find pat s); [done|]. by intros _.
Qed.

(** No occurrence in a text: none in any of its suffixes. *)
Lemma find_None_suffix (pat a b : string) :
  PyStr.find pat (a +:+ b) = None → PyStr.find pat b = None.
Proof.
  induction a as [|c a IH]; [done|].
  rewrite sapp_cons. intros H. apply IH. by apply find_cons_None in H as [_ H].
Qed.

Lemma find_None_no_occurrence (pat a b : string) :
  PyStr.find pat (a +:+ pat +:+ b) ≠ None.
Proof.
  intros H. apply find_None_suffix in H.
  rewrite find_unfold, startswith_app in H. done.
Qed.

End Occurrences.

(** ** The streaming filter inside a marked region *)

Section InsideRegion.

Import StreamingThinkFilter.

(** While the filter is inside a region, a turn of the loop appends
    nothing to [output]. *)
Lemma step_inside_silent self c :
  inside_think self = true → snd (step self c) = None.
Proof.
  intros Hin. unfold step. rewrite Hin. simpl.
  repeat case_match; reflexivity.
Qed.

(** On the turn that takes the filter out of a region, the pending
    candidate is dropped: nothing read inside the region is kept. *)
Lemma step_leaves_region_empty self c :
  inside_think self = true →
  inside_think (fst (step self c)) = false → tag_buffer (fst (step self c)) = "".
Proof.
  intros Hin. unfold step. rewrite Hin. simpl negb. cbv iota.
  repeat case_match; simpl; congruence.
Qed.

(** The filter leaves a region only on a turn that makes [tag_buffer] the
    closing tag, and [tag_buffer] is always a piece of the text read since
    the region began. *)
Lemma loop_inside (text : string) : ∀ self pre output,
  inside_think self = true →
  PyStr.find CLOSE (pre +:+ tag_buffer self +:+ text) = None →
  ∃ self', loop self text output = (self', output)
           ∧ inside_think self' = true
           ∧ ∃ pre', pre' +:+ tag_buffer self' = pre +:+ tag_buffer self +:+ text.
Proof.
  induction text as [|c text IH]; intros self pre output Hin Hfind.
  - exists self. simpl. rewrite sapp_nil_r. eauto.
  - rewrite loop_cons. unfold step. rewrite Hin. simpl negb. cbv iota.
    assert (Hshift : ∀ x : string,
               x +:+ String c text = (x +:+ String c "") +:+ text).
    { intros x. by rewrite sapp_assoc. }
    destruct (Ascii.eqb c "<") eqn:Hc; cbn [fst snd append].
    { destruct (IH (set_tag_buffer self (tag_buffer self +:+ String c ""))
                  pre output Hin) as (self' & -> & Hin' & pre' & Hpre').
      - simpl. by rewrite <- Hshift.
      - exists self'. repeat split; [done|]. exists pre'. rewrite Hpre'. simpl.
        by rewrite <- Hshift. }
    destruct (PyStr.nonempty (tag_buffer self)) eqn:Hne; cbn [fst snd append].
    + cbv zeta.
      destruct (String.eqb (tag_buffer self +:+ String c "") CLOSE) eqn:Hclose.
      { apply String.eqb_eq in Hclose. exfalso.
        rewrite Hshift, Hclose in Hfind.
        by apply find_None_no_occurrence in Hfind. }
      destruct (negb (PyStr.startswith CLOSE (tag_buffer self +:+ String c "")));
        cbn [fst snd append].
      * destruct (IH (set_tag_buffer self "")
                    (pre +:+ tag_buffer self +:+ String c "") output Hin)
          as (self' & -> & Hin' & pre' & Hpre').
        { simpl. rewrite sapp_assoc, <- Hshift. done. }
        exists self'. repeat split; [done|]. exists pre'. rewrite Hpre'. simpl.
        by rewrite sapp_assoc, <- Hshift.
      * destruct (IH (set_tag_buffer self (tag_buffer self +:+ String c ""))
                    pre output Hin) as (self' & -> & Hin' & pre' & Hpre').
        { simpl. by rewrite <- Hshift. }
        exists self'. repeat split; [done|]. exists pre'. rewrite Hpre'. simpl.
        by rewrite <- Hshift.
    + destruct (tag_buffer self) eqn:Htb; [|done].
      destruct (IH self (pre +:+ String c "") output Hin)
        as (self' & -> & Hin' & pre' & Hpre').
      { rewrite Htb. rewrite sapp_nil_l in *. by rewrite sapp_assoc. }
      exists self'. repeat split; [done|]. exists pre'. rewrite Hpre', Htb.
      rewrite !sapp_nil_l. by rewrite sapp_assoc.
Qed.

Lemma process_text_inside self text :
  inside_think self = true →
  PyStr.find CLOSE (tag_buffer self +:+ text) = None →
  ∃ self', process_text self text = (self', "") ∧ inside_think self' = true.
Proof.
  intros Hin Hfind. unfold process_text.
  destruct (loop_inside text self "" [] Hin) as (self' & -> & Hin' & _); [done|].
  by exists self'.
Qed.

Lemma flush_inside self :
  inside_think self = true → flush self = (self, "").
Proof.
  intros Hin. unfold flush. rewrite Hin. by rewrite andb_false_r.
Qed.

(** Completing the opening tag from outside, with nothing pending, puts the
    filter inside a region and emits nothing. *)
Lemma process_text_open self :
  inside_think self = false → tag_buffer self = "" →
  process_text self OPEN = (set_inside self true "", "").
Proof.
  destruct self as [i b tb]. simpl. by intros -> ->.
Qed.

End InsideRegion.

(** X22. Inside a region that the filter has recognised, nothing is emitted.
    Once the filter is inside a region (it completed an opening tag), then as
    long as the pending candidate and the text read since do not complete a
    closing tag, every call of [process_text] returns the empty string and
    the filter stays inside; [flush] returns the empty string there and
    leaves the state as it is, so a stream that ends inside a region loses
    the pending candidate and the region content; and the character that
    completes the closing tag is not emitted either. *)
Theorem marked_region_never_emitted
        (self : StreamingThinkFilter) (region : list string) :
  inside_think self = true →
  PyStr.find CLOSE (tag_buffer self +:+ PyStr.join region) = None →
  let '(self', out) := StreamingThinkFilter.feed self region in
  out = ""
  ∧ inside_think self' = true
  ∧ StreamingThinkFilter.flush self' = (self', "")
  ∧ ∀ c, let '(self'', out') :=
           StreamingThinkFilter.process_text self' (String c "") in
         out' = "" ∧ (inside_think self'' = false → tag_buffer self'' = "").
Proof.
  intros Hin Hfind. rewrite feed_join.
  destruct (process_text_inside self _ Hin Hfind) as (self' & -> & Hin').
  repeat split; [done|by apply flush_inside|].
  intros c. rewrite process_text_single.
  rewrite (step_inside_silent self' c Hin'). split; [done|].
  by apply step_leaves_region_empty.
Qed.

Lemma marked_region_never_emitted_witness :
  let self := fst (StreamingThinkFilter.process_text StreamingThinkFilter.init "a<think>") in
  inside_think self = true
  ∧ PyStr.find CLOSE (tag_buffer self +:+ PyStr.join ["sec"; "ret</thi"]) = None
  ∧ snd (StreamingThinkFilter.feed self ["sec"; "ret</thi"]) = "".
Proof.
  split; [reflexivity|]. split; [reflexivity|].
  pose proof (marked_region_never_emitted
                (fst (StreamingThinkFilter.process_text StreamingThinkFilter.init "a<think>"))
                ["sec"; "ret</thi"] eq_refl eq_refl) as H.
  destruct (StreamingThinkFilter.feed _ _) as [self' out].
  by destruct H as [-> _].
Defined.

(** ** The pending tag buffer *)

Section TagBuffer.

Import StreamingThinkFilter.

(** A [<] is always appended to [tag_buffer], pending candidate or not, and
    on that turn the buffer is not compared with the delimiter. *)
Lemma step_lt self :
  step self "<"%char = (set_tag_buffer self (tag_buffer self +:+ "<"), None).
Proof. unfold step. by destruct (inside_think self). Qed.

Lemma loop_lt_signs n : ∀ self output,
  loop self (lt_signs n) output
  = (set_tag_buffer self (tag_buffer self +:+ lt_signs n), output).
Proof.
  induction n as [|n IH]; intros self output.
  - simpl. rewrite sapp_nil_r. by destruct self.
  - cbn [lt_signs]. rewrite loop_cons, step_lt. cbn [fst snd append].
    rewrite IH. unfold set_tag_buffer. simpl. by rewrite sapp_assoc.
Qed.

Lemma length_lt_signs n : String.length (lt_signs n) = n.
Proof. induction n as [|n IH]; simpl; congruence. Qed.

End TagBuffer.

(** C2 (the code departs from the claim). After [process_text] has read [n]
    characters [<], the pending tag buffer holds all [n] of them: its length
    is not bounded by the length of a delimiter, and from two characters on
    it is a prefix of neither delimiter, yet it has not been cleared. *)
Theorem tag_buffer_not_bounded (n : nat) :
  let self := fst (StreamingThinkFilter.process_text StreamingThinkFilter.init (lt_signs n)) in
  tag_buffer self = lt_signs n
  ∧ String.length (tag_buffer self) = n
  ∧ (2 ≤ n →
     PyStr.startswith OPEN (tag_buffer self) = false
     ∧ PyStr.startswith CLOSE (tag_buffer self) = false).
Proof.
  unfold StreamingThinkFilter.process_text. rewrite loop_lt_signs. simpl.
  split; [done|]. split; [apply length_lt_signs|].
  intros Hn. destruct n as [|[|n]]; [lia|lia|]. by simpl.
Qed.

Lemma tag_buffer_not_bounded_witness :
  2 ≤ 9
  ∧ String.length
      (tag_buffer (fst (StreamingThinkFilter.process_text
                          StreamingThinkFilter.init "<<<<<<<<<"))) = 9
  ∧ PyStr.startswith OPEN
      (tag_buffer (fst (StreamingThinkFilter.process_text
                          StreamingThinkFilter.init "<<<<<<<<<"))) = false.
Proof.
  split; [lia|].
  destruct (tag_buffer_not_bounded 9) as (_ & Hlen & Hpre).
  split; [exact Hlen|]. apply Hpre. lia.
Defined.

(** ** Substitution of a pattern *)

Section ReFacts.

Variable m : string → option nat.
Variable repl : string.

Lemma sub_from_nil k : Re.sub_from m repl k "" = "".
Proof. by destruct k. Qed.

(** Consuming the rest of a match is dropping that many characters. *)
Lemma sub_from_drop (s : string) : ∀ k,
  Re.sub_from m repl k s = Re.sub m repl (PyStr.drop k s).
Proof.
  induction s as [|c s IH]; intros [|k]; try reflexivity.
  simpl. apply IH.
Qed.

(** Where the pattern matches nowhere, the text is returned as it is. *)
Lemma sub_no_match (s : string) :
  Re.search m s = false → Re.sub m repl s = s.
Proof.
  unfold Re.sub. induction s as [|c s IH]; [done|].
  simpl. destruct (m (String c s)) as [[|l]|]; try done; intros H; by rewrite IH.
Qed.

Lemma search_suffix (a b : string) :
  Re.search m (a +:+ b) = false → Re.search m b = false.
Proof.
  induction a as [|c a IH]; [done|].
  rewrite sapp_cons. simpl.
  destruct (m (String c (a +:+ b))) as [[|l]|]; try done; apply IH.
Qed.

(** Matches lie within the text and the replacement is no longer than a
    match: the result is no longer than the text. *)
Hypothesis match_fits : ∀ p l, m p = Some l → l ≤ String.length p.
Hypothesis repl_short : ∀ p l, m p = Some (S l) → String.length repl ≤ S l.

Lemma sub_from_length (s : string) : ∀ k,
  String.length (Re.sub_from m repl k s) ≤ String.length s - k.
Proof.
  induction s as [|c s IH]; intros k.
  - rewrite sub_from_nil. simpl. lia.
  - destruct k as [|k]; simpl.
    + destruct (m (String c s)) as [[|l]|] eqn:Hm; simpl.
      * specialize (IH 0). lia.
      * rewrite slength_app. specialize (IH l).
        apply match_fits in Hm as Hfit. apply repl_short in Hm. simpl in Hfit. lia.
      * specialize (IH 0). lia.
    + apply IH.
Qed.

Lemma sub_length (s : string) :
  String.length (Re.sub m repl s) ≤ String.length s.
Proof. unfold Re.sub. pose proof (sub_from_length s 0). lia. Qed.

(** With a replacement shorter than every match, a text in which the
    pattern matches gets strictly shorter. *)
Hypothesis repl_shorter : ∀ p l, m p = Some (S l) → String.length repl < S l.

Lemma sub_length_lt (s : string) :
  Re.search m s = true →
  String.length (Re.sub m repl s) < String.length s.
Proof.
  unfold Re.sub. induction s as [|c s IH]; [done|].
  simpl. destruct (m (String c s)) as [[|l]|] eqn:Hm; simpl.
  - intros H. specialize (IH H). lia.
  - intros _. rewrite slength_app. pose proof (sub_from_length s l).
    apply match_fits in Hm as Hfit. apply repl_shorter in Hm. simpl in Hfit. lia.
  - intros H. specialize (IH H). lia.
Qed.

End ReFacts.

(** ** [str.strip] *)

Section StripFacts.

Lemma lstrip_length s : String.length (PyStr.lstrip s) ≤ String.length s.
Proof. induction s as [|c s IH]; simpl; [lia|]. destruct (PyStr.isspace c); simpl; lia. Qed.

Lemma rstrip_length s : String.length (PyStr.rstrip s) ≤ String.length s.
Proof.
  induction s as [|c s IH]; simpl; [lia|].
  destruct (PyStr.isspace c && negb (PyStr.nonempty (PyStr.rstrip s))); simpl; lia.
Qed.

Lemma strip_length s : String.length (PyStr.strip s) ≤ String.length s.
Proof.
  unfold PyStr.strip. pose proof (rstrip_length (PyStr.lstrip s)).
  pose proof (lstrip_length s). lia.
Qed.

(** What [lstrip] leaves is empty or begins with a character that is not
    white space, and is a suffix of the text. *)
Lemma lstrip_head s :
  PyStr.lstrip s = ""
  ∨ ∃ c r, PyStr.lstrip s = String c r ∧ PyStr.isspace c = false.
Proof.
  induction s as [|c s IH]; simpl; [by left|].
  destruct (PyStr.isspace c) eqn:Hc; [done|]. right. by exists c, s.
Qed.

Lemma lstrip_suffix s : ∃ w, s = w +:+ PyStr.lstrip s.
Proof.
  induction s as [|c s [w IH]]; simpl; [by exists ""|].
  destruct (PyStr.isspace c).
  - exists (String c w). by rewrite sapp_cons, <- IH.
  - by exists "".
Qed.

Lemma rstrip_prefix s : ∃ w, s = PyStr.rstrip s +:+ w.
Proof.
  induction s as [|c s [w IH]]; simpl; [by exists ""|].
  destruct (PyStr.isspace c && negb (PyStr.nonempty (PyStr.rstrip s))).
  - by exists (String c s).
  - exists w. by rewrite sapp_cons, <- IH.
Qed.

Lemma rstrip_cons_nonspace c s :
  PyStr.isspace c = false → PyStr.rstrip (String c s) = String c (PyStr.rstrip s).
Proof. intros H. simpl. by rewrite H. Qed.

Lemma rstrip_idemp s : PyStr.rstrip (PyStr.rstrip s) = PyStr.rstrip s.
Proof.
  induction s as [|c s IH]; [done|]. simpl.
  destruct (PyStr.isspace c && negb (PyStr.nonempty (PyStr.rstrip s))) eqn:H; [done|].
  simpl. by rewrite IH, H.
Qed.

(** A stripped text is left alone by [strip]. *)
Lemma strip_idemp s : PyStr.strip (PyStr.strip s) = PyStr.strip s.
Proof.
  unfold PyStr.strip.
  destruct (lstrip_head s) as [->|(c & r & -> & Hc)]; [done|].
  rewrite rstrip_cons_nonspace by done. simpl. rewrite Hc.
  rewrite <- rstrip_cons_nonspace by done. apply rstrip_idemp.
Qed.

End StripFacts.

(** ** Collapsing runs of newlines *)

Section NewlineFacts.

Lemma newline_run_cons c s :
  newline_run (String c s)
  = if Ascii.eqb c "010"%char then S (newline_run s) else 0.
Proof. by destruct c as [[] [] [] [] [] [] [] []]. Qed.

Lemma newline_run_length s : newline_run s ≤ String.length s.
Proof.
  induction s as [|c s IH]; [done|].
  rewrite newline_run_cons. simpl. destruct (Ascii.eqb c "010"); lia.
Qed.

Lemma newline_run_drop s : newline_run (PyStr.drop (newline_run s) s) = 0.
Proof.
  induction s as [|c s IH]; [done|].
  rewrite newline_run_cons. destruct (Ascii.eqb c "010") eqn:Hc.
  - simpl. apply IH.
  - simpl PyStr.drop. by rewrite newline_run_cons, Hc.
Qed.

Lemma newline_run_app_le a b : newline_run a ≤ newline_run (a +:+ b).
Proof.
  induction a as [|c a IH]; [simpl; lia|].
  rewrite sapp_cons, !newline_run_cons. destruct (Ascii.eqb c "010"); lia.
Qed.

Lemma NEWLINES_PATTERN_Some s l :
  NEWLINES_PATTERN s = Some l → l = newline_run s ∧ 3 ≤ l.
Proof.
  unfold NEWLINES_PATTERN. destruct (3 <=? newline_run s) eqn:H; [|done].
  intros [= <-]. apply Nat.leb_le in H. done.
Qed.

Lemma NEWLINES_PATTERN_None s :
  newline_run s < 3 → NEWLINES_PATTERN s = None.
Proof.
  intros H. unfold NEWLINES_PATTERN.
  destruct (3 <=? newline_run s) eqn:E; [|done]. apply Nat.leb_le in E. lia.
Qed.

Lemma NEWLINES_PATTERN_fits s l :
  NEWLINES_PATTERN s = Some l → l ≤ String.length s.
Proof.
  intros [-> _]%NEWLINES_PATTERN_Some. apply newline_run_length.
Qed.

Lemma collapse_newlines_cons c s :
  collapse_newlines (String c s)
  = if 3 <=? newline_run (String c s)
    then two_newlines +:+ collapse_newlines (PyStr.drop (newline_run s) s)
    else String c (collapse_newlines s).
Proof.
  unfold collapse_newlines, Re.sub. cbn [Re.sub_from].
  unfold NEWLINES_PATTERN at 1.
  destruct (3 <=? newline_run (String c s)) eqn:H; [|done].
  apply Nat.leb_le in H. rewrite newline_run_cons in *.
  destruct (Ascii.eqb c "010"); [|lia].
  by rewrite sub_from_drop.
Qed.

Lemma collapse_newlines_run0 s :
  newline_run s = 0 → newline_run (collapse_newlines s) = 0.
Proof.
  destruct s as [|c s]; [done|]. intros H.
  rewrite collapse_newlines_cons, H. simpl Nat.leb. cbv iota.
  rewrite newline_run_cons in *. by destruct (Ascii.eqb c "010").
Qed.

(** A run of newlines comes out with at most two of them. *)
Lemma collapse_newlines_run s :
  newline_run (collapse_newlines s) = Nat.min 2 (newline_run s).
Proof.
  induction s as [|c s IH]; [done|].
  rewrite collapse_newlines_cons.
  destruct (3 <=? newline_run (String c s)) eqn:H.
  - apply Nat.leb_le in H. unfold two_newlines. rewrite !sapp_cons, sapp_nil_l.
    rewrite (newline_run_cons "010"), (newline_run_cons "010"). simpl Ascii.eqb. cbv iota.
    rewrite collapse_newlines_run0 by apply newline_run_drop. lia.
  - apply Nat.leb_gt in H.
    rewrite (newline_run_cons c (collapse_newlines s)).
    rewrite (newline_run_cons c s) in *.
    destruct (Ascii.eqb c "010"); [|reflexivity]. rewrite IH. lia.
Qed.

Lemma search_two_newlines s :
  newline_run s = 0 →
  Re.search NEWLINES_PATTERN (two_newlines +:+ s) = Re.search NEWLINES_PATTERN s.
Proof.
  intros H. unfold two_newlines. rewrite !sapp_cons, sapp_nil_l.
  cbn [Re.search].
  rewrite !NEWLINES_PATTERN_None; [done| |];
    rewrite !newline_run_cons; simpl; lia.
Qed.

(** After the substitution no run of three newlines is left. *)
Lemma search_collapse_newlines (s : string) : ∀ k,
  Re.search NEWLINES_PATTERN (Re.sub_from NEWLINES_PATTERN two_newlines k s) = false.
Proof.
  induction s as [|c s IH]; intros k.
  - by rewrite sub_from_nil.
  - destruct k as [|k]; [|apply IH].
    fold (Re.sub NEWLINES_PATTERN two_newlines (String c s)).
    fold (collapse_newlines (String c s)).
    rewrite collapse_newlines_cons.
    destruct (3 <=? newline_run (String c s)) eqn:H.
    + rewrite search_two_newlines
        by (apply collapse_newlines_run0, newline_run_drop).
      unfold collapse_newlines. rewrite <- sub_from_drop. apply IH.
    + apply Nat.leb_gt in H. cbn [Re.search].
      rewrite NEWLINES_PATTERN_None; [apply (IH 0)|].
      rewrite (newline_run_cons c (collapse_newlines s)).
      rewrite (newline_run_cons c s) in H.
      destruct (Ascii.eqb c "010"); [|lia].
      rewrite collapse_newlines_run. lia.
Qed.

Lemma search_newlines_prefix (a b : string) :
  Re.search NEWLINES_PATTERN (a +:+ b) = false →
  Re.search NEWLINES_PATTERN a = false.
Proof.
  induction a as [|c a IH]; [done|].
  rewrite sapp_cons. cbn [Re.search].
  destruct (NEWLINES_PATTERN (String c (a +:+ b))) as [[|l]|] eqn:Hm; [| done |].
  - by apply NEWLINES_PATTERN_Some in Hm as [_ ?]; lia.
  - intros H. rewrite NEWLINES_PATTERN_None; [by apply IH|].
    unfold NEWLINES_PATTERN in Hm.
    destruct (3 <=? newline_run (String c (a +:+ b))) eqn:E; [done|].
    apply Nat.leb_gt in E.
    pose proof (newline_run_app_le (String c a) b). rewrite sapp_cons in *. lia.
Qed.

(** [strip] keeps a text free of runs of three newlines that way. *)
Lemma search_newlines_strip s :
  Re.search NEWLINES_PATTERN s = false →
  Re.search NEWLINES_PATTERN (PyStr.strip s) = false.
Proof.
  intros H. unfold PyStr.strip.
  destruct (lstrip_suffix s) as [w Hw]. rewrite Hw in H.
  apply search_suffix in H.
  destruct (rstrip_prefix (PyStr.lstrip s)) as [v Hv]. rewrite Hv in H.
  by apply search_newlines_prefix in H.
Qed.

Lemma collapse_newlines_length s :
  String.length (collapse_newlines s) ≤ String.length s.
Proof.
  apply sub_length.
  - apply NEWLINES_PATTERN_fits.
  - intros p l [_ ?]%NEWLINES_PATTERN_Some. simpl. lia.
Qed.

End NewlineFacts.

(** ** The whole-text filter *)

Section StripThinkTags.

Lemma startswith_length s p :
  PyStr.startswith s p = true → String.length p ≤ String.length s.
Proof.
  revert s. induction p as [|a p IH]; intros s; simpl; [lia|].
  destruct s as [|b s]; [done|]. intros [_ H]%andb_prop. apply IH in H. simpl. lia.
Qed.

Lemma find_Some_length pat s i :
  PyStr.find pat s = Some i → i + String.length pat ≤ String.length s.
Proof.
  revert i. induction s as [|c s IH]; intros i; rewrite find_unfold.
  - destruct (PyStr.startswith "" pat) eqn:H; [|done].
    intros [= <-]. by apply startswith_length in H.
  - destruct (PyStr.startswith (String c s) pat) eqn:H.
    + intros [= <-]. by apply startswith_length in H.
    + destruct (PyStr.find pat s) as [j|]; [|done].
      intros [= <-]. specialize (IH j eq_refl). simpl. lia.
Qed.

Lemma drop_length n s : String.length (PyStr.drop n s) = String.length s - n.
Proof.
  revert s. induction n as [|n IH]; intros [|c s]; simpl; try done; lia.
Qed.

Lemma THINK_PATTERN_fits s l :
  THINK_PATTERN s = Some l → l ≤ String.length s.
Proof.
  unfold THINK_PATTERN. destruct (PyStr.startswith s OPEN) eqn:H; [|done].
  destruct (PyStr.find CLOSE _) as [i|] eqn:Hf; [|done].
  intros [= <-]. apply find_Some_length in Hf. rewrite drop_length in Hf.
  apply startswith_length in H. simpl in *. lia.
Qed.

Lemma remove_spans_length s :
  String.length (Re.sub THINK_PATTERN "" s) ≤ String.length s.
Proof.
  apply sub_length; [apply THINK_PATTERN_fits|]. intros; simpl; lia.
Qed.

Lemma strip_think_tags_length s :
  String.length (strip_think_tags s) ≤ String.length (Re.sub THINK_PATTERN "" s).
Proof.
  unfold strip_think_tags.
  etrans; [apply strip_length|]. apply collapse_newlines_length.
Qed.

(** Filtering a second time changes nothing exactly when the first result
    holds no complete span any more. *)
Lemma strip_think_tags_twice s :
  strip_think_tags (strip_think_tags s) = strip_think_tags s
  ↔ Re.search THINK_PATTERN (strip_think_tags s) = false.
Proof.
  split.
  - intros Heq. destruct (Re.search THINK_PATTERN (strip_think_tags s)) eqn:Hs; [|done].
    exfalso.
    pose proof (sub_length_lt THINK_PATTERN "" THINK_PATTERN_fits
                  (λ _ l _, Nat.le_0_l (S l)) (λ _ l _, Nat.lt_0_succ l) _ Hs) as Hlt.
    pose proof (strip_think_tags_length (strip_think_tags s)) as Hle.
    rewrite Heq in Hle. lia.
  - intros Hs. unfold strip_think_tags at 1.
    rewrite (sub_no_match _ _ _ Hs).
    assert (Hn : Re.search NEWLINES_PATTERN (strip_think_tags s) = false).
    { unfold strip_think_tags. apply search_newlines_strip.
      apply (search_collapse_newlines _ 0). }
    rewrite (sub_no_match _ _ _ Hn).
    unfold strip_think_tags. apply strip_idemp.
Qed.

End StripThinkTags.

(** C6 (amended). The whole-text filter turns
    ["Hello <think>secret</think> world"] into ["Hello  world"], with the two
    spaces that surrounded the span: only runs of newlines are collapsed and
    only the ends are trimmed. *)
Theorem scenario_A_keeps_both_spaces :
  strip_think_tags "Hello <think>secret</think> world" = "Hello  world".
Proof. reflexivity. Qed.

Lemma scenario_A_not_single_space :
  String.eqb (strip_think_tags "Hello <think>secret</think> world") "Hello world" = false.
Proof. reflexivity. Qed.

(** ** The streaming filter on its own output *)

Section StreamIdempotence.

Import StreamingThinkFilter.

Lemma emit_app self a b :
  emit self (a +:+ b)
  = let '(self1, out1) := process_text self a in out1 +:+ emit self1 b.
Proof.
  unfold emit. rewrite process_text_app.
  destruct (process_text self a) as [self1 out1].
  destruct (process_text self1 b) as [self2 out2]. by rewrite sapp_assoc.
Qed.

Lemma emit_cons self c text :
  emit self (String c text)
  = default "" (snd (step self c)) +:+ emit (fst (step self c)) text.
Proof.
  change (String c text) with (String c "" +:+ text).
  by rewrite emit_app, process_text_single.
Qed.

Lemma run_emit fragments : run fragments = emit init (PyStr.join fragments).
Proof. unfold run, emit. by rewrite feed_join. Qed.

Lemma replayable_init : candidate_replayable init.
Proof. by intros _. Qed.

Lemma step_clean self c : clean (fst (step self c)) = clean self.
Proof. unfold step. repeat case_match; reflexivity. Qed.

(** A turn of the loop keeps the candidate replayable, and what the turn
    emits is text that a filter with nothing pending passes on unchanged,
    ending with nothing pending. *)
Lemma step_replayable self c :
  candidate_replayable self →
  candidate_replayable (fst (step self c))
  ∧ process_text (clean self) (default "" (snd (step self c)))
    = (clean self, default "" (snd (step self c))).
Proof.
  intros Hinv.
  assert (Hgrow : inside_think self = false →
            process_text (clean self) (tag_buffer self +:+ String c "")
            = (fst (step self c), default "" (snd (step self c)))).
  { intros Hout. rewrite process_text_app, (Hinv Hout), process_text_single.
    by rewrite sapp_nil_l. }
  destruct self as [inside buf tb]. unfold candidate_replayable, clean in *.
  unfold step in *. simpl in *.
  destruct inside; simpl in *.
  - (* inside a region: nothing is emitted *)
    clear Hgrow Hinv.
    destruct (Ascii.eqb c "<"); simpl; [done|].
    destruct (PyStr.nonempty tb); simpl; [|done].
    destruct (String.eqb (tb +:+ String c "") CLOSE); simpl; [done|].
    destruct (negb (PyStr.startswith CLOSE (tb +:+ String c ""))); simpl; done.
  - specialize (Hgrow eq_refl). specialize (Hinv eq_refl).
    destruct (Ascii.eqb c "<") eqn:Hc; simpl in *; [done|].
    destruct (PyStr.nonempty tb) eqn:Hne; simpl in *.
    + destruct (String.eqb (tb +:+ String c "") OPEN); simpl in *; [done|].
      destruct (negb (PyStr.startswith OPEN (tb +:+ String c ""))); simpl in *; done.
    + destruct tb; [|done]. split; [done|].
      rewrite process_text_single. unfold step. simpl. by rewrite Hc.
Qed.

Lemma emit_replay (text : string) : ∀ self,
  candidate_replayable self →
  emit (clean self) (emit self text) = emit self text.
Proof.
  induction text as [|c text IH]; intros self Hinv.
  - change (emit self "") with (snd (flush self)). unfold flush.
    destruct (PyStr.nonempty (tag_buffer self)) eqn:Hne;
      destruct (inside_think self) eqn:Hin; cbn [andb negb snd]; try done.
    unfold emit. rewrite (Hinv Hin). unfold flush. by rewrite Hne, Hin.
  - rewrite emit_cons.
    destruct (step_replayable self c Hinv) as [Hinv' Hout].
    rewrite emit_app, Hout. rewrite <- (step_clean self c). by rewrite IH.
Qed.

End StreamIdempotence.

(** C5 (amended). The streaming filter is idempotent on every input: its
    flushed output, fed to a fresh filter, comes out unchanged. The whole-text
    filter applied twice gives the same as applied once exactly when no
    complete span is left in its first result. *)
Theorem filtering_idempotent_once_no_span_remains :
  (∀ fragments : list string,
      StreamingThinkFilter.run [StreamingThinkFilter.run fragments]
      = StreamingThinkFilter.run fragments)
  ∧ (∀ s : string,
        strip_think_tags (strip_think_tags s) = strip_think_tags s
        ↔ Re.search THINK_PATTERN (strip_think_tags s) = false).
Proof.
  split.
  - intros fragments. rewrite !run_emit. simpl PyStr.join. rewrite sapp_nil_r.
    apply (emit_replay _ StreamingThinkFilter.init), replayable_init.
  - apply strip_think_tags_twice.
Qed.

Lemma filtering_idempotent_once_no_span_remains_witness :
  Re.search THINK_PATTERN (strip_think_tags "a<think>b</think>c") = false
  ∧ strip_think_tags (strip_think_tags "a<think>b</think>c")
    = strip_think_tags "a<think>b</think>c".
Proof.
  split; [reflexivity|].
  apply (proj2 filtering_idempotent_once_no_span_remains). reflexivity.
Defined.

Lemma strip_think_tags_not_idempotent :
  strip_think_tags "<thi<think>x</think>nk>y</think>" = "<think>y</think>"
  ∧ strip_think_tags (strip_think_tags "<thi<think>x</think>nk>y</think>") = "".
Proof. split; reflexivity. Qed.

(** ** Text in front of an opening tag *)

Section BeforeOpen.

Lemma startswith_app_l s x p :
  PyStr.startswith s p = true → PyStr.startswith (s +:+ x) p = true.
Proof.
  revert s. induction p as [|a p IH]; intros s; [done|].
  destruct s as [|b s]; [done|]. rewrite sapp_cons. simpl.
  intros [-> H]%andb_prop. by rewrite IH.
Qed.

Lemma startswith_no_lt q p z :
  no_lt q = true →
  PyStr.startswith (p +:+ String "<" z) q = true → PyStr.startswith p q = true.
Proof.
  revert p. induction q as [|a q IH]; intros p Hq; [done|].
  simpl in Hq. apply andb_prop in Hq as [Ha Hq].
  destruct p as [|b p].
  - rewrite sapp_nil_l. simpl. by rewrite (negb_true_iff _) in Ha; rewrite Ha.
  - rewrite sapp_cons. simpl. intros [-> H]%andb_prop. simpl. by apply IH.
Qed.

(** Both delimiters hold a single [<], their first character: whether a
    non-empty text begins with one of them is not changed by a [<] put after
    the text. *)
Lemma startswith_before_lt q p z :
  no_lt q = true → p ≠ "" →
  PyStr.startswith (p +:+ String "<" z) (String "<" q)
  = PyStr.startswith p (String "<" q).
Proof.
  intros Hq Hp. destruct p as [|b p]; [done|].
  rewrite sapp_cons. cbn [PyStr.startswith].
  destruct (Ascii.eqb "<" b); [|done]. cbn [andb].
  destruct (PyStr.startswith p q) eqn:H1.
  - by apply startswith_app_l.
  - destruct (PyStr.startswith (p +:+ String "<" z) q) eqn:H2; [|done].
    apply startswith_no_lt in H2; [congruence|done].
Qed.

Lemma drop_app n p x :
  n ≤ String.length p → PyStr.drop n (p +:+ x) = PyStr.drop n p +:+ x.
Proof.
  revert p. induction n as [|n IH]; intros p Hn; [by destruct p|].
  destruct p as [|c p]; simpl in Hn; [lia|].
  rewrite sapp_cons. simpl. apply IH. lia.
Qed.

Lemma find_None_drop pat n s :
  PyStr.find pat s = None → PyStr.find pat (PyStr.drop n s) = None.
Proof.
  revert s. induction n as [|n IH]; intros s H; [by destruct s|].
  destruct s as [|c s]; [done|]. simpl. apply IH. by apply find_cons_None in H as [_ H].
Qed.

Variable post : string.
Hypothesis no_close : PyStr.find CLOSE post = None.

Lemma find_close_open : PyStr.find CLOSE (OPEN +:+ post) = None.
Proof.
  unfold OPEN. rewrite !sapp_cons, sapp_nil_l.
  do 7 (rewrite find_unfold; simpl PyStr.startswith; cbv iota).
  by rewrite no_close.
Qed.

Lemma find_close_before_open q :
  PyStr.find CLOSE (q +:+ OPEN +:+ post) = PyStr.find CLOSE q.
Proof.
  induction q as [|c q IH]; [rewrite sapp_nil_l; apply find_close_open|].
  rewrite (find_unfold _ (String c q)), sapp_cons, find_unfold, IH.
  rewrite <- sapp_cons. unfold OPEN at 1, CLOSE at 1 3.
  rewrite (sapp_cons "<" "think>" post), startswith_before_lt; done.
Qed.

Lemma THINK_PATTERN_before_open p :
  p ≠ "" → THINK_PATTERN (p +:+ OPEN +:+ post) = THINK_PATTERN p.
Proof.
  intros Hp. unfold THINK_PATTERN.
  assert (Hs : PyStr.startswith (p +:+ OPEN +:+ post) OPEN = PyStr.startswith p OPEN).
  { unfold OPEN. rewrite (sapp_cons "<" "think>" post).
    by apply startswith_before_lt. }
  rewrite Hs. destruct (PyStr.startswith p OPEN) eqn:H; [|done].
  apply startswith_length in H.
  by rewrite drop_app, find_close_before_open.
Qed.

Lemma search_THINK_no_close s :
  PyStr.find CLOSE s = None → Re.search THINK_PATTERN s = false.
Proof.
  induction s as [|c s IH]; [done|]. intros H.
  cbn [Re.search]. unfold THINK_PATTERN.
  rewrite (find_None_drop _ _ _ H).
  apply find_cons_None in H as [_ H].
  destruct (PyStr.startswith (String c s) OPEN); simpl; by apply IH.
Qed.

(** From an opening tag that no closing tag follows, the span pattern
    matches nowhere. *)
Lemma remove_spans_open : Re.sub THINK_PATTERN "" (OPEN +:+ post) = OPEN +:+ post.
Proof.
  apply sub_no_match, search_THINK_no_close, find_close_open.
Qed.

End BeforeOpen.

Section SubstitutionBefore.

Variable m : string → option nat.
Variable repl : string.
Variable b : string.
Hypothesis match_fits : ∀ p l, m p = Some l → l ≤ String.length p.
Hypothesis match_local : ∀ p, p ≠ "" → m (p +:+ b) = m p.

(** When the text [b] that follows does not change the matches that begin
    before it, the substitution works on the two parts separately. *)
Lemma sub_from_app (a : string) : ∀ k,
  k ≤ String.length a →
  Re.sub_from m repl k (a +:+ b) = Re.sub_from m repl k a +:+ Re.sub m repl b.
Proof.
  induction a as [|c a IH]; intros k Hk.
  - simpl in Hk. by replace k with 0 by lia.
  - rewrite sapp_cons. destruct k as [|k]; cbn [Re.sub_from].
    + rewrite <- sapp_cons, match_local by done.
      destruct (m (String c a)) as [[|l]|] eqn:Hm.
      * by rewrite sapp_cons, (IH 0) by lia.
      * apply match_fits in Hm. simpl in Hm.
        by rewrite sapp_assoc, (IH l) by lia.
      * by rewrite sapp_cons, (IH 0) by lia.
    + apply IH. simpl in Hk. lia.
Qed.

Lemma sub_app (a : string) :
  Re.sub m repl (a +:+ b) = Re.sub m repl a +:+ Re.sub m repl b.
Proof. apply (sub_from_app a 0). lia. Qed.

End SubstitutionBefore.

Section UnclosedRegion.

Lemma newline_run_before_lt p z :
  newline_run (p +:+ String "<" z) = newline_run p.
Proof.
  induction p as [|c p IH]; [done|].
  rewrite sapp_cons, !newline_run_cons. by rewrite IH.
Qed.

Lemma collapse_newlines_open post :
  collapse_newlines (OPEN +:+ post) = OPEN +:+ collapse_newlines post.
Proof.
  unfold OPEN. rewrite !sapp_cons, sapp_nil_l.
  by do 7 (rewrite collapse_newlines_cons; simpl Nat.leb; cbv iota).
Qed.

Lemma collapse_newlines_before_open a post :
  collapse_newlines (a +:+ OPEN +:+ post)
  = collapse_newlines a +:+ OPEN +:+ collapse_newlines post.
Proof.
  unfold collapse_newlines at 1.
  rewrite sub_app; [by rewrite <- collapse_newlines_open|apply NEWLINES_PATTERN_fits|].
  intros p _. unfold NEWLINES_PATTERN, OPEN.
  by rewrite (sapp_cons "<" "think>" post), newline_run_before_lt.
Qed.

Lemma lstrip_before_nonspace x c z :
  PyStr.isspace c = false →
  PyStr.lstrip (x +:+ String c z) = PyStr.lstrip x +:+ String c z.
Proof.
  intros Hc. induction x as [|d x IH].
  - rewrite sapp_nil_l. simpl. by rewrite Hc.
  - rewrite sapp_cons. simpl. by destruct (PyStr.isspace d).
Qed.

Lemma nonempty_app_r x w :
  PyStr.nonempty w = true → PyStr.nonempty (x +:+ w) = true.
Proof. by destruct x. Qed.

Lemma rstrip_app x w :
  PyStr.nonempty (PyStr.rstrip w) = true →
  PyStr.rstrip (x +:+ w) = x +:+ PyStr.rstrip w.
Proof.
  intros Hw. induction x as [|d x IH]; [done|].
  rewrite sapp_cons. simpl. rewrite IH, nonempty_app_r by done.
  by rewrite andb_false_r.
Qed.

Lemma rstrip_open y : PyStr.rstrip (OPEN +:+ y) = OPEN +:+ PyStr.rstrip y.
Proof. unfold OPEN. by rewrite !sapp_cons, sapp_nil_l. Qed.

Lemma strip_around_open x y :
  PyStr.strip (x +:+ OPEN +:+ y) = PyStr.lstrip x +:+ OPEN +:+ PyStr.rstrip y.
Proof.
  unfold PyStr.strip, OPEN at 1.
  rewrite (sapp_cons "<" "think>" y), lstrip_before_nonspace by done.
  rewrite <- (sapp_cons "<" "think>" y). fold OPEN.
  rewrite rstrip_app; by rewrite rstrip_open.
Qed.

End UnclosedRegion.

(** C10. When the text holds an opening tag that no closing tag follows, the
    whole-text filter takes nothing away from that tag on: the tag and what
    follows it come out as they are, up to the collapsing of newline runs and
    the trimming of the end, after the filtered text that came before. The
    streaming filter does the opposite: having recognised the same opening
    tag, it emits nothing of the tag or of what follows, not even at the end
    of the stream. *)
Theorem unclosed_region_survives_whole_text_filter (pre post : string) :
  PyStr.find CLOSE post = None →
  strip_think_tags (pre +:+ OPEN +:+ post)
  = PyStr.lstrip (collapse_newlines (Re.sub THINK_PATTERN "" pre))
    +:+ OPEN +:+ PyStr.rstrip (collapse_newlines post)
  ∧ ∀ self, inside_think self = false → tag_buffer self = "" →
      StreamingThinkFilter.emit self (OPEN +:+ post) = "".
Proof.
  intros Hpost. split.
  - unfold strip_think_tags.
    rewrite (sub_app THINK_PATTERN "" (OPEN +:+ post) THINK_PATTERN_fits)
      by (intros p Hp; by apply THINK_PATTERN_before_open).
    rewrite remove_spans_open by done.
    fold (collapse_newlines (Re.sub THINK_PATTERN "" pre +:+ OPEN +:+ post)).
    by rewrite collapse_newlines_before_open, strip_around_open.
  - intros self Hout Htb. rewrite emit_app, process_text_open by done.
    unfold StreamingThinkFilter.emit.
    destruct (process_text_inside (StreamingThinkFilter.set_inside self true "") post)
      as (self' & -> & Hin); [done|done|].
    by rewrite flush_inside.
Qed.

Lemma unclosed_region_survives_whole_text_filter_witness :
  PyStr.find CLOSE "step one, step two" = None
  ∧ strip_think_tags ("Sure. <think>a</think>" +:+ OPEN +:+ "step one, step two")
    = "Sure. <think>step one, step two".
Proof.
  split; [reflexivity|].
  by rewrite (proj1 (unclosed_region_survives_whole_text_filter
                       "Sure. <think>a</think>" "step one, step two" eq_refl)).
Defined.

(** ** The API-key checks *)

Section ApiKey.

Lemma nonempty_false s : PyStr.nonempty s = false ↔ s = "".
Proof. by destruct s. Qed.

Lemma nonempty_true s : PyStr.nonempty s = true ↔ s ≠ "".
Proof. by destruct s. Qed.

Lemma drop_app_length a b : PyStr.drop (String.length a) (a +:+ b) = b.
Proof. induction a as [|c a IH]; [by destruct b|]. by rewrite sapp_cons. Qed.

Lemma string_eqb_false a b : a ≠ b → String.eqb a b = false.
Proof. intros H. by apply String.eqb_neq. Qed.

(** Lower-casing never produces a letter out of a space. *)
Lemma lower_char_not_space c x :
  Ascii.eqb x (PyStr.lower_char c) = true → x ≠ " "%char → Ascii.eqb c " " = false.
Proof.
  intros H Hx.
  destruct c as [[] [] [] [] [] [] [] []]; try reflexivity.
  exfalso. apply Hx. by apply Ascii.eqb_eq in H.
Qed.

(** In a header value that begins with [bearer ] in whatever case, the
    first space is the seventh character. *)
Lemma after_first_space_bearer auth :
  PyStr.startswith (PyStr.lower auth) "bearer " = true →
  Main.after_first_space auth = Return (PyStr.drop 7 auth).
Proof.
  intros H.
  do 6 (destruct auth as [|? auth]; [done|];
        cbn [PyStr.startswith PyStr.lower] in H;
        apply andb_prop in H as [?%lower_char_not_space H]; [|done]).
  destruct auth as [|c auth]; [done|].
  cbn [PyStr.startswith PyStr.lower] in H. apply andb_prop in H as [Hc _].
  assert (Ascii.eqb c " " = true) as Hsp.
  { clear -Hc. destruct c as [[] [] [] [] [] [] [] []]; done. }
  cbn [Main.after_first_space PyStr.drop].
  by repeat match goal with H : Ascii.eqb _ " " = _ |- _ => rewrite H; clear H end.
Qed.

End ApiKey.

(** C7 (amended). [verify_api_key] of [app.py] answers 500 when no secret is
    configured; with a secret, 401 when the [Authorization] header is absent
    or does not begin with [Bearer ], 403 when the token that follows differs
    from the secret, and lets the request through when it is the secret.
    [check_openwebui_key] of [main.py] answers 401 and 403 in the same
    situations (it takes [bearer ] in any case and trims the token), but with
    no secret configured it lets every request through. *)
Theorem api_key_status_codes (key : string) (request : Request) :
  let auth := headers_get request "Authorization" "" in
  (List.find (λ kv, String.eqb (fst kv) "authorization") (req_headers request) = None →
   auth = "")
  ∧ (key = "" →
     App.verify_api_key key request
     = Raise (HTTPException 500 "EXPECTED_API_KEY not configured on proxy"))
  ∧ (key ≠ "" → PyStr.startswith auth "Bearer " = false →
     App.verify_api_key key request = Raise (HTTPException 401 "Missing Bearer token"))
  ∧ (key ≠ "" → ∀ token, auth = "Bearer " +:+ token →
     App.verify_api_key key request
     = if String.eqb token key then Return tt
       else Raise (HTTPException 403 "Invalid API key"))
  ∧ (key = "" → Main.check_openwebui_key key request = Return tt)
  ∧ (key ≠ "" → PyStr.startswith (PyStr.lower auth) "bearer " = false →
     Main.check_openwebui_key key request
     = Raise (HTTPException 401 "Missing bearer token"))
  ∧ (key ≠ "" → PyStr.startswith (PyStr.lower auth) "bearer " = true →
     Main.check_openwebui_key key request
     = if String.eqb (PyStr.strip (PyStr.drop 7 auth)) key then Return tt
       else Raise (HTTPException 403 "Invalid API key")).
Proof.
  intros auth. subst auth. unfold App.verify_api_key, Main.check_openwebui_key.
  change (headers_get request "authorization" "")
    with (headers_get request "Authorization" "").
  repeat split.
  - intros H. unfold headers_get.
    change (PyStr.lower "Authorization") with "authorization". by rewrite H.
  - by intros ->.
  - intros Hk%nonempty_true Hs. by rewrite Hk, Hs.
  - intros Hk%nonempty_true token Hauth. rewrite Hk, Hauth.
    change 7 with (String.length "Bearer ").
    rewrite startswith_app, drop_app_length. simpl negb. cbv iota.
    by destruct (String.eqb token key).
  - by intros ->.
  - intros Hk%nonempty_true Hs. by rewrite Hk, Hs.
  - intros Hk%nonempty_true Hs. rewrite Hk, Hs.
    rewrite (after_first_space_bearer _ Hs). simpl.
    by destruct (String.eqb _ key).
Qed.

Lemma api_key_status_codes_witness :
  let request := {| req_headers := [("authorization", "Bearer wrong")];
                    req_json := None |} in
  "s3cret" ≠ ""
  ∧ headers_get request "Authorization" "" = "Bearer " +:+ "wrong"
  ∧ App.verify_api_key "s3cret" request = Raise (HTTPException 403 "Invalid API key")
  ∧ PyStr.startswith (PyStr.lower (headers_get request "Authorization" "")) "bearer " = true
  ∧ Main.check_openwebui_key "s3cret" request = Raise (HTTPException 403 "Invalid API key").
Proof.
  intros request.
  destruct (api_key_status_codes "s3cret" request) as (_ & _ & _ & H403 & _ & _ & M403).
  split; [done|]. split; [reflexivity|]. split.
  - by rewrite (H403 ltac:(done) "wrong" eq_refl).
  - split; [reflexivity|]. by rewrite (M403 ltac:(done) eq_refl).
Defined.

Lemma check_openwebui_key_without_secret_lets_through :
  let request := {| req_headers := []; req_json := None |} in
  Main.check_openwebui_key "" request = Return tt
  ∧ ∀ status detail,
      Main.check_openwebui_key "" request ≠ Raise (HTTPException status detail).
Proof. split; [reflexivity|]. intros status detail. by vm_compute. Qed.

(** ** The request sent to the backend *)

Section Translation.

Variable body : gmap string json.
Variables deployment max_tokens_default wants_stream : json.

Lemma foundry_body_fixed_keys :
  let fb := App.foundry_body body deployment max_tokens_default wants_stream in
  fb !! "messages" = Some (Json.get body "messages" (JArr []))
  ∧ fb !! "model" = Some deployment
  ∧ fb !! "max_tokens" = Some (Json.get body "max_tokens" max_tokens_default)
  ∧ fb !! "temperature" = Some (Json.get body "temperature" (JFloat 0.7))
  ∧ fb !! "top_p" = Some (Json.get body "top_p" (JFloat 0.95))
  ∧ fb !! "stream" = Some wants_stream.
Proof.
  unfold App.foundry_body. cbn [fold_left].
  destruct (body !! "stop"), (body !! "frequency_penalty"), (body !! "presence_penalty");
    by simplify_map_eq.
Qed.

(** An optional parameter is in the translated body exactly as it is in the
    inbound one: with the same value, or absent. *)
Lemma foundry_body_optional_keys key :
  key ∈ ["stop"; "frequency_penalty"; "presence_penalty"] →
  App.foundry_body body deployment max_tokens_default wants_stream !! key = body !! key.
Proof.
  intros Hkey. unfold App.foundry_body. cbn [fold_left].
  repeat (apply elem_of_cons in Hkey as [->|Hkey]); [| | |by apply elem_of_nil in Hkey];
    destruct (body !! "stop") eqn:?, (body !! "frequency_penalty") eqn:?,
             (body !! "presence_penalty") eqn:?;
    by simplify_map_eq.
Qed.

Lemma foundry_body_dom :
  dom (App.foundry_body body deployment max_tokens_default wants_stream)
  = ({["messages"; "model"; "max_tokens"; "temperature"; "top_p"; "stream"]} : gset string)
    ∪ (dom body ∩ {["stop"; "frequency_penalty"; "presence_penalty"]}).
Proof.
  unfold App.foundry_body. cbn [fold_left].
  destruct (body !! "stop") eqn:H1;
    [apply elem_of_dom_2 in H1|apply not_elem_of_dom_2 in H1];
    (destruct (body !! "frequency_penalty") eqn:H2;
       [apply elem_of_dom_2 in H2|apply not_elem_of_dom_2 in H2]);
    (destruct (body !! "presence_penalty") eqn:H3;
       [apply elem_of_dom_2 in H3|apply not_elem_of_dom_2 in H3]);
    rewrite ?dom_insert_L, dom_empty_L;
    apply set_eq; intros key;
    rewrite ?elem_of_union, ?elem_of_intersection, ?elem_of_union,
      ?elem_of_singleton, ?elem_of_empty;
    (split; intros Hkey;
     repeat match goal with
            | H : _ ∧ _ |- _ => destruct H
            | H : _ ∨ _ |- _ => destruct H
            end; subst; tauto).
Qed.

End Translation.

(** ** The chat-completions handlers *)

Section ChatCompletions.

Variable MODELS : gmap string (gmap string json).
Variable get_entra_token : string + string.
Variable client_post : string → gmap string string → gmap string json → PostReply.
Variable client_stream : string → gmap string string → gmap string json → StreamReply.
Variable json_loads : string → option json.
Variable json_dumps : json → string.
Variable time_time : Z.
Variable format_value : json → string.
Variable format_keys : list string → string.

Abbreviation chat_completions :=
  (App.chat_completions MODELS get_entra_token client_post client_stream
     json_loads json_dumps time_time format_value format_keys).

Lemma lookup_Some_truthy (d : gmap string json) key v :
  d !! key = Some v → Json.truthy (JObj d) = true.
Proof.
  intros H. simpl. apply negb_true_iff, Nat.eqb_neq.
  intros Hsize%map_size_empty_iff. by rewrite Hsize in H.
Qed.

(** Every call [chat_completions] makes carries the translated body of a
    configured model, and the response is the one of the handler that the
    [stream] field selects. *)
Lemma chat_completions_calls request body call :
  req_json request = Some (JObj body) →
  call ∈ upstream_calls (chat_completions request) →
  ∃ model model_cfg,
    Json.get body "model" (JStr "") = JStr model
    ∧ MODELS !! model = Some model_cfg
    ∧ call_json call
      = App.foundry_body body
          (Json.get model_cfg "deployment" (JStr model))
          (Json.get model_cfg "max_tokens_default" (JInt 4096))
          (Json.get body "stream" (JBool false)).
Proof.
  intros Hbody. unfold App.chat_completions. rewrite Hbody.
  destruct (Json.get body "model" (JStr "")) as [| | | |model| |] eqn:Hmodel;
    cbn [App.models_get Return Raise raises upstream_calls];
    try (by intros ?%elem_of_nil).
  destruct (MODELS !! model) as [model_cfg|] eqn:Hcfg;
    cbn [raises upstream_calls]; [|by intros ?%elem_of_nil].
  destruct (negb (Json.truthy (JObj model_cfg))); [by intros ?%elem_of_nil|].
  destruct (model_cfg !! "endpoint") as [endpoint|]; [|by intros ?%elem_of_nil].
  destruct get_entra_token as [e|token]; [by intros ?%elem_of_nil|].
  destruct endpoint; try (by intros ?%elem_of_nil).
  destruct (Json.truthy (Json.get body "stream" (JBool false)));
    cbn [App._handle_streaming App._handle_non_streaming upstream_calls];
    intros ->%list_elem_of_singleton; by exists model, model_cfg.
Qed.

Lemma chat_completions_response request body r :
  req_json request = Some (JObj body) →
  response (chat_completions request) = Return r →
  if Json.truthy (Json.get body "stream" (JBool false))
  then ∃ generated headers, r = StreamingResponse generated "text/event-stream" headers
  else ∃ status_code content, r = JSONResponse status_code content.
Proof.
  intros Hbody. unfold App.chat_completions. rewrite Hbody.
  destruct (App.models_get MODELS _) as [e|[model_cfg|]];
    cbn [raises response]; try done.
  destruct (negb (Json.truthy (JObj model_cfg))); [done|].
  destruct (model_cfg !! "endpoint") as [endpoint|]; [|done].
  destruct get_entra_token as [e|token]; [done|].
  destruct endpoint; try done.
  destruct (Json.truthy (Json.get body "stream" (JBool false)));
    cbn [App._handle_streaming App._handle_non_streaming response].
  - intros [= <-]. eauto.
  - destruct (client_post _ _ _) as [|e|status_code text]; try done.
    destruct (negb (status_code =? 200)%Z); [done|].
    destruct (json_loads text) as [data|]; [|done].
    destruct (Json.truthy _).
    + destruct (App.filter_data data) as [e|data']; [done|].
      cbn [bind]. intros [= <-]. eauto.
    + intros [= <-]. eauto.
Qed.

(** With a configured model and a token, a request that asks for a stream
    gets the event stream, after one call to the backend. *)
Lemma chat_completions_streams request body model model_cfg endpoint token :
  req_json request = Some (JObj body) →
  Json.get body "model" (JStr "") = JStr model →
  MODELS !! model = Some model_cfg →
  model_cfg !! "endpoint" = Some (JStr endpoint) →
  get_entra_token = inr token →
  Json.truthy (Json.get body "stream" (JBool false)) = true →
  ∃ generated headers call,
    response (chat_completions request)
    = Return (StreamingResponse generated "text/event-stream" headers)
    ∧ upstream_calls (chat_completions request) = [call].
Proof.
  intros Hbody Hmodel Hcfg Hend Htok Hstream.
  unfold App.chat_completions.
  rewrite Hbody, Hmodel. cbn [App.models_get Return]. rewrite Hcfg.
  rewrite (lookup_Some_truthy _ _ _ Hend), Hend, Htok, Hstream.
  cbn [negb App._handle_streaming response upstream_calls]. eauto.
Qed.

End ChatCompletions.

Section MainChatCompletions.

Variable FOUNDRY_CHAT_URL : string.
Variable DEFAULT_MODEL : string.
Variable EXPECTED_API_KEY : string.
Variable get_aad_token : result string.
Variable requests_post : string → gmap string string → string → result (Z * string).
Variable json_loads : string → option json.
Variable json_dumps : json → string.

Abbreviation chat_completions :=
  (Main.chat_completions FOUNDRY_CHAT_URL DEFAULT_MODEL EXPECTED_API_KEY
     get_aad_token requests_post json_loads json_dumps).

(** [main.py] sets [stream] to [False] in every body it sends and always
    answers with a single JSON response. *)
Lemma main_chat_completions_never_streams request :
  (∀ call, call ∈ upstream_calls (chat_completions request) →
           call_json call !! "stream" = Some (JBool false))
  ∧ (∀ r, response (chat_completions request) = Return r →
          ∃ status_code content, r = JSONResponse status_code content).
Proof.
  unfold Main.chat_completions.
  destruct (Main.check_openwebui_key _ _) as [e|_];
    [split; [by intros ? ?%elem_of_nil|done]|].
  destruct (req_json request) as [[| | | | | |body]|];
    try (split; [by intros ? ?%elem_of_nil|done]).
  destruct get_aad_token as [e|aad_token];
    [split; [by intros ? ?%elem_of_nil|done]|].
  cbn [upstream_calls response]. split.
  - intros call ->%list_elem_of_singleton. cbn [call_json]. by rewrite lookup_insert_eq.
  - intros r. destruct (requests_post _ _ _) as [e|[status_code text]]; [done|].
    cbn [bind]. destruct (400 <=? status_code)%Z; [intros [= <-]; eauto|].
    destruct (json_loads text); [intros [= <-]; eauto|done].
Qed.

End MainChatCompletions.

(** C9. Request translation. Whatever body [chat_completions] sends to the
    backend is the translation of the inbound body for the resolved model
    configuration: [messages] as they came (an empty list when absent),
    [model] the configured deployment (the model id when none is
    configured), [max_tokens] the inbound value or else the configured
    default (4096 when none is configured), [temperature] and [top_p] the
    inbound values or else 0.7 and 0.95, [stream] the inbound value; each of
    [stop], [frequency_penalty], [presence_penalty] is there exactly when the
    inbound body has it, with its value; and there is no other key. *)
Theorem request_translation
        (MODELS : gmap string (gmap string json)) (get_entra_token : string + string)
        (client_post : string → gmap string string → gmap string json → PostReply)
        (client_stream : string → gmap string string → gmap string json → StreamReply)
        (json_loads : string → option json) (json_dumps : json → string)
        (time_time : Z) (format_value : json → string)
        (format_keys : list string → string)
        (request : Request) (body : gmap string json) (call : UpstreamCall) :
  req_json request = Some (JObj body) →
  call ∈ upstream_calls
           (App.chat_completions MODELS get_entra_token client_post client_stream
              json_loads json_dumps time_time format_value format_keys request) →
  ∃ model model_cfg,
    Json.get body "model" (JStr "") = JStr model
    ∧ MODELS !! model = Some model_cfg
    ∧ call_json call !! "messages" = Some (default (JArr []) (body !! "messages"))
    ∧ call_json call !! "model"
      = Some (default (JStr model) (model_cfg !! "deployment"))
    ∧ call_json call !! "max_tokens"
      = Some (default (default (JInt 4096) (model_cfg !! "max_tokens_default"))
                      (body !! "max_tokens"))
    ∧ call_json call !! "temperature" = Some (default (JFloat 0.7) (body !! "temperature"))
    ∧ call_json call !! "top_p" = Some (default (JFloat 0.95) (body !! "top_p"))
    ∧ (∀ key, key ∈ ["stop"; "frequency_penalty"; "presence_penalty"] →
              call_json call !! key = body !! key)
    ∧ dom (call_json call)
      = ({["messages"; "model"; "max_tokens"; "temperature"; "top_p"; "stream"]}
           : gset string)
        ∪ (dom body ∩ {["stop"; "frequency_penalty"; "presence_penalty"]}).
Proof.
  intros Hbody Hcall.
  destruct (chat_completions_calls _ _ _ _ _ _ _ _ _ _ _ _ Hbody Hcall)
    as (model & model_cfg & Hmodel & Hcfg & ->).
  exists model, model_cfg.
  pose proof (foundry_body_fixed_keys body
                (Json.get model_cfg "deployment" (JStr model))
                (Json.get model_cfg "max_tokens_default" (JInt 4096))
                (Json.get body "stream" (JBool false)))
    as (Hmessages & Hdeployment & Hmax & Htemp & Htop & _).
  repeat split; try done.
  - intros key Hkey. by apply foundry_body_optional_keys.
  - apply foundry_body_dom.
Qed.

Lemma request_translation_witness :
  let MODELS : gmap string (gmap string json) :=
    {["chat" := <["endpoint" := JStr "https://foundry/"]>
                {["deployment" := JStr "DeepSeek-V3.2-Speciale"]}]} in
  let body : gmap string json :=
    <["model" := JStr "chat"]> {["stop" := JNull]} in
  let request := {| req_headers := []; req_json := Some (JObj body) |} in
  let handled :=
    App.chat_completions MODELS (inr "token") (λ _ _ _, PostTimeout)
      (λ _ _ _, ConnectTimeout) (λ _, None) (λ _, "") 0 (λ _, "") (λ _, "") request in
  ∃ call,
    upstream_calls handled = [call]
    ∧ call_json call !! "model" = Some (JStr "DeepSeek-V3.2-Speciale")
    ∧ call_json call !! "max_tokens" = Some (JInt 4096)
    ∧ call_json call !! "stop" = Some JNull
    ∧ call_json call !! "presence_penalty" = None.
Proof.
  intros MODELS body request handled.
  assert (Hcalls : ∃ call, upstream_calls handled = [call]) by (eexists; reflexivity).
  destruct Hcalls as [call Hcalls]. exists call. split; [done|].
  assert (Hin : call ∈ upstream_calls handled) by (rewrite Hcalls; apply list_elem_of_here).
  destruct (request_translation MODELS (inr "token") (λ _ _ _, PostTimeout)
              (λ _ _ _, ConnectTimeout) (λ _, None) (λ _, "") 0 (λ _, "") (λ _, "")
              request body call eq_refl Hin)
    as (model & model_cfg & Hmodel & Hcfg & _ & Hdep & Hmax & _ & _ & Hopt & _).
  injection Hmodel as <-.
  apply (lookup_singleton_Some (M := gmap string)) in Hcfg as [_ <-].
  rewrite Hdep, Hmax, !Hopt by (repeat constructor).
  clear. repeat split; reflexivity.
Defined.

(** C8 (amended). In [app.py], every body sent to the backend carries the
    [stream] value of the inbound body ([False] when absent); a response that
    [chat_completions] returns is an event stream when that value is truthy
    and a single JSON response otherwise; and with a configured model and a
    token, a request for a stream does get the event stream. In [main.py],
    every body sent to the backend has [stream] set to [False] and every
    response returned is a single JSON response, whatever the inbound body
    asks for. *)
Theorem streaming_intent
        (MODELS : gmap string (gmap string json)) (get_entra_token : string + string)
        (client_post : string → gmap string string → gmap string json → PostReply)
        (client_stream : string → gmap string string → gmap string json → StreamReply)
        (json_loads : string → option json) (json_dumps : json → string)
        (time_time : Z) (format_value : json → string)
        (format_keys : list string → string)
        (FOUNDRY_CHAT_URL DEFAULT_MODEL EXPECTED_API_KEY : string)
        (get_aad_token : result string)
        (requests_post : string → gmap string string → string → result (Z * string))
        (request : Request) (body : gmap string json) :
  req_json request = Some (JObj body) →
  let wants_stream := Json.get body "stream" (JBool false) in
  let handled :=
    App.chat_completions MODELS get_entra_token client_post client_stream
      json_loads json_dumps time_time format_value format_keys request in
  let handled_main :=
    Main.chat_completions FOUNDRY_CHAT_URL DEFAULT_MODEL EXPECTED_API_KEY
      get_aad_token requests_post json_loads json_dumps request in
  (∀ call, call ∈ upstream_calls handled →
           call_json call !! "stream" = Some wants_stream)
  ∧ (∀ r, response handled = Return r →
          if Json.truthy wants_stream
          then ∃ generated headers,
                 r = StreamingResponse generated "text/event-stream" headers
          else ∃ status_code content, r = JSONResponse status_code content)
  ∧ (∀ model model_cfg endpoint token,
       Json.get body "model" (JStr "") = JStr model →
       MODELS !! model = Some model_cfg →
       model_cfg !! "endpoint" = Some (JStr endpoint) →
       get_entra_token = inr token →
       Json.truthy wants_stream = true →
       ∃ generated headers call,
         response handled
         = Return (StreamingResponse generated "text/event-stream" headers)
         ∧ upstream_calls handled = [call])
  ∧ (∀ call, call ∈ upstream_calls handled_main →
             call_json call !! "stream" = Some (JBool false))
  ∧ (∀ r, response handled_main = Return r →
          ∃ status_code content, r = JSONResponse status_code content).
Proof.
  intros Hbody wants_stream handled handled_main. repeat split.
  - intros call Hcall.
    destruct (chat_completions_calls _ _ _ _ _ _ _ _ _ _ _ _ Hbody Hcall)
      as (model & model_cfg & _ & _ & ->).
    apply foundry_body_fixed_keys.
  - intros r. by apply chat_completions_response.
  - intros model model_cfg endpoint token. by apply chat_completions_streams.
  - apply main_chat_completions_never_streams.
  - apply main_chat_completions_never_streams.
Qed.

Lemma streaming_intent_witness :
  let model_cfg : gmap string json := {["endpoint" := JStr "https://foundry/"]} in
  let MODELS : gmap string (gmap string json) := {["chat" := model_cfg]} in
  let body : gmap string json := <["model" := JStr "chat"]> {["stream" := JBool true]} in
  let request := {| req_headers := []; req_json := Some (JObj body) |} in
  let handled :=
    App.chat_completions MODELS (inr "token") (λ _ _ _, PostTimeout)
      (λ _ _ _, ConnectTimeout) (λ _, None) (λ _, "") 0 (λ _, "") (λ _, "") request in
  ∃ generated headers call,
    response handled = Return (StreamingResponse generated "text/event-stream" headers)
    ∧ upstream_calls handled = [call]
    ∧ call_json call !! "stream" = Some (JBool true).
Proof.
  intros model_cfg MODELS body request handled.
  destruct (streaming_intent MODELS (inr "token") (λ _ _ _, PostTimeout)
              (λ _ _ _, ConnectTimeout) (λ _, None) (λ _, "") 0 (λ _, "") (λ _, "")
              "" "" "" (Return "") (λ _ _ _, Raise KeyError)
              request body eq_refl)
    as (Hsent & _ & Hstream & _).
  destruct (Hstream "chat" model_cfg "https://foundry/" "token"
              eq_refl eq_refl eq_refl eq_refl eq_refl)
    as (generated & headers & call & Hresponse & Hcalls).
  exists generated, headers, call. repeat split; [done|done|].
  apply Hsent. rewrite Hcalls. apply list_elem_of_here.
Defined.

Lemma main_ignores_streaming_intent :
  let body : gmap string json := {["stream" := JBool true]} in
  let request := {| req_headers := []; req_json := Some (JObj body) |} in
  let handled :=
    Main.chat_completions "https://foundry/chat/completions" "DeepSeek-V3.2-Speciale" ""
      (Return "token") (λ _ _ _, Return (200%Z, "{}")) (λ _, Some (JObj ∅)) (λ _, "")
      request in
  Json.truthy (Json.get body "stream" (JBool false)) = true
  ∧ response handled = Return (JSONResponse 200 (JObj ∅))
  ∧ ∃ call, upstream_calls handled = [call]
            ∧ call_json call !! "stream" = Some (JBool false).
Proof.
  intros body request handled. split; [reflexivity|]. split; [reflexivity|].
  eexists. split; reflexivity.
Qed.

(** ** The end of the event stream *)

Section Terminator.

Variable client_stream : string → gmap string string → gmap string json → StreamReply.
Variable json_loads : string → option json.
Variable json_dumps : json → string.
Variable time_time : Z.

Abbreviation sse := (App.sse json_dumps).
Abbreviation on_line := (App.on_line json_loads json_dumps time_time).
Abbreviation lines_loop := (App.lines_loop json_loads json_dumps time_time).
Abbreviation generate := (App.generate client_stream json_loads json_dumps time_time).

Lemma sapp_inj_r (a b c : string) : a +:+ c = b +:+ c → a = b.
Proof.
  revert b. induction a as [|x a IH]; intros [|y b] H; [done| | |].
  - rewrite sapp_nil_l, sapp_cons in H. apply (f_equal String.length) in H.
    cbn [String.length] in H. rewrite slength_app in H. lia.
  - rewrite sapp_nil_l, sapp_cons in H. apply (f_equal String.length) in H.
    cbn [String.length] in H. rewrite slength_app in H. lia.
  - rewrite !sapp_cons in H. injection H as -> H. f_equal. by apply IH.
Qed.

(** [json.dumps] never writes the bare word of the terminator. *)
Hypothesis dumps_not_done : ∀ x, json_dumps x ≠ "[DONE]".

Lemma sse_not_done x : sse x ≠ DONE_EVENT.
Proof.
  unfold App.sse, DONE_EVENT. intros H.
  change ("data: [DONE]" +:+ two_newlines)
    with ("data: " +:+ "[DONE]" +:+ two_newlines) in H.
  apply (inj (String.app "data: ")) in H.
  by apply sapp_inj_r, dumps_not_done in H.
Qed.

Lemma last_not_done (ys : list string) :
  Forall (λ y, y ≠ DONE_EVENT) ys → last ys ≠ Some DONE_EVENT.
Proof.
  intros Hall Hlast. apply last_Some in Hlast as [ys' ->].
  apply Forall_app in Hall as [_ Hall]. by apply Forall_cons in Hall as [Hall _].
Qed.

(** A turn of the loop on a line that is not the terminator line does not
    return, and yields no terminator. *)
Lemma on_line_not_done think_filter model_id line :
  done_line line = false →
  match on_line think_filter model_id line with
  | App.Continue _ yielded => Forall (λ y, y ≠ DONE_EVENT) yielded
  | App.Returns _ => False
  | App.Raises _ => True
  end.
Proof.
  unfold done_line, App.on_line. intros Hline.
  destruct (PyStr.startswith line "data: "); cbn [negb andb] in *; [|done].
  rewrite Hline.
  destruct (json_loads _) as [chunk|]; [|done].
  destruct (App.delta_content chunk) as [e|delta]; [done|].
  destruct (negb (Json.truthy delta)).
  { apply Forall_singleton, sse_not_done. }
  destruct think_filter as [f|]; [|apply Forall_singleton, sse_not_done].
  destruct delta; try done.
  destruct (StreamingThinkFilter.process_text f s) as [f' filtered].
  destruct (PyStr.nonempty filtered); [|done].
  destruct (App.set_delta_content chunk filtered); [done|].
  apply Forall_singleton, sse_not_done.
Qed.

Lemma lines_loop_not_done (lines : list string) : ∀ think_filter model_id,
  Forall (λ line, done_line line = false) lines →
  Forall (λ y, y ≠ DONE_EVENT) (fst (lines_loop think_filter model_id lines))
  ∧ snd (lines_loop think_filter model_id lines) ≠ App.Returned.
Proof.
  induction lines as [|line lines IH]; intros think_filter model_id Hlines.
  - by split.
  - apply Forall_cons in Hlines as [Hline Hlines].
    pose proof (on_line_not_done think_filter model_id line Hline) as Hturn.
    cbn [App.lines_loop].
    destruct (on_line think_filter model_id line) as [think_filter' yielded| |e];
      [|done|by split].
    destruct (IH think_filter' model_id Hlines) as [Hmore Hexit].
    destruct (lines_loop think_filter' model_id lines) as [more exit].
    split; [by apply Forall_app|done].
Qed.

(** The loop returns only after it has yielded the terminator. *)
Lemma lines_loop_returned (lines : list string) : ∀ think_filter model_id,
  snd (lines_loop think_filter model_id lines) = App.Returned →
  last (fst (lines_loop think_filter model_id lines)) = Some DONE_EVENT.
Proof.
  induction lines as [|line lines IH]; intros think_filter model_id; [done|].
  cbn [App.lines_loop].
  destruct (on_line think_filter model_id line)
    as [think_filter' yielded|yielded|e] eqn:Hturn; [| |done].
  - specialize (IH think_filter' model_id).
    destruct (lines_loop think_filter' model_id lines) as [more exit].
    cbn [fst snd] in *. intros Hexit. specialize (IH Hexit).
    apply last_Some in IH as [more' ->]. by rewrite (assoc_L (++)), last_snoc.
  - intros _. cbn [fst]. unfold App.on_line in Hturn.
    repeat case_match; simplify_eq; done.
Qed.

(** Where the generator does end with the terminator: when the request
    fails before a response, on a status other than 200, when the backend
    sends its own terminator line, and when reading the lines fails. *)
Lemma generate_terminated url headers body model_id should_filter :
  match client_stream url headers body with
  | StreamResponse status_code lines ending =>
      status_code ≠ 200%Z
      ∨ (let think_filter :=
           if Json.truthy should_filter then Some StreamingThinkFilter.init else None in
         match snd (lines_loop think_filter model_id lines) with
         | App.Returned => True
         | App.Exhausted => ending ≠ EndOfLines
         | App.Raised _ => False
         end)
  | _ => True
  end →
  last (events (generate url headers body model_id should_filter)) = Some DONE_EVENT.
Proof.
  unfold App.generate.
  destruct (client_stream url headers body) as [|e|status_code lines ending];
    [done|done|].
  destruct (negb (status_code =? 200)%Z) eqn:Hstatus.
  { intros _. by destruct ending. }
  apply negb_false_iff, Z.eqb_eq in Hstatus. intros [?|Hloop]; [done|].
  cbv zeta in Hloop.
  pose proof (lines_loop_returned lines
                (if Json.truthy should_filter then Some StreamingThinkFilter.init else None)
                model_id) as Hret.
  destruct (lines_loop _ model_id lines) as [yielded exit].
  cbn [fst snd] in *. destruct exit; [by apply Hret|done|].
  destruct ending; [done| |]; cbn [events];
    unfold App.timeout_events, App.connection_error_events;
    by rewrite (last_app_cons _ [_]), last_snoc || by rewrite last_app.
Qed.

End Terminator.

(** C4 (the code departs from the claim). When the backend answers 200 and
    its body ends, in the ordinary way, without a terminator line among its
    lines, the event sequence written to the client does not end with the
    terminator: the loop over the lines falls through (or an exception of the
    loop body ends the generator) and nothing more is yielded. *)
Theorem stream_without_upstream_terminator_is_not_terminated
        (client_stream : string → gmap string string → gmap string json → StreamReply)
        (json_loads : string → option json) (json_dumps : json → string)
        (time_time : Z) (url : string) (headers : gmap string string)
        (body : gmap string json) (model_id should_filter : json)
        (lines : list string) :
  (∀ x, json_dumps x ≠ "[DONE]") →
  client_stream url headers body = StreamResponse 200 lines EndOfLines →
  Forall (λ line, done_line line = false) lines →
  last (events (App.generate client_stream json_loads json_dumps time_time
                  url headers body model_id should_filter))
  ≠ Some DONE_EVENT.
Proof.
  intros Hdumps Hreply Hlines. unfold App.generate. rewrite Hreply.
  cbn [Z.eqb Pos.eqb negb].
  destruct (lines_loop_not_done json_loads json_dumps time_time Hdumps lines
              (if Json.truthy should_filter then Some StreamingThinkFilter.init else None)
              model_id Hlines) as [Hyielded Hexit].
  destruct (App.lines_loop _ _ _ _ model_id lines) as [yielded exit].
  cbn [fst snd] in *.
  destruct exit; [done| |]; by apply last_not_done.
Qed.

Lemma stream_without_upstream_terminator_is_not_terminated_witness :
  let chunk : json :=
    JObj {["choices" := JArr [JObj {["delta" := JObj {["content" := JStr "Hi"]}]}]]} in
  let client_stream : string → gmap string string → gmap string json → StreamReply :=
    λ _ _ _, StreamResponse 200 ["data: {}"] EndOfLines in
  let generated :=
    App.generate client_stream (λ _, Some chunk) (λ _, "{}") 0
      "https://foundry/chat/completions" ∅ ∅ (JStr "chat") (JBool true) in
  Forall (λ line, done_line line = false) ["data: {}"]
  ∧ events generated = ["data: {}" +:+ two_newlines]
  ∧ raised generated = None
  ∧ last (events generated) ≠ Some DONE_EVENT.
Proof.
  intros chunk client_stream generated.
  assert (Hlines : Forall (λ line, done_line line = false) ["data: {}"])
    by (by apply Forall_singleton).
  split; [done|]. split; [reflexivity|]. split; [reflexivity|].
  apply (stream_without_upstream_terminator_is_not_terminated
           client_stream (λ _, Some chunk) (λ _, "{}") 0
           "https://foundry/chat/completions" ∅ ∅ (JStr "chat") (JBool true)
           ["data: {}"]); [done|reflexivity|done].
Defined.

(** * Further properties of the code *)

(** ** The streaming filter outside a region *)

Section OutsideRegion.

Import StreamingThinkFilter.

(** Outside a region, as long as the text read does not complete an opening
    tag, everything read is emitted or still pending: with the final flush,
    the pending candidate and the text come out as they are. *)
Lemma emit_outside (text : string) : ∀ self pre,
  inside_think self = false →
  PyStr.find OPEN (pre +:+ tag_buffer self +:+ text) = None →
  emit self text = tag_buffer self +:+ text.
Proof.
  induction text as [|c text IH]; intros self pre Hout Hfind.
  - change (emit self "") with (snd (flush self)). unfold flush. rewrite Hout.
    rewrite sapp_nil_r. by destruct (tag_buffer self).
  - rewrite emit_cons.
    assert (Hshift : ∀ x : string,
               x +:+ String c text = (x +:+ String c "") +:+ text).
    { intros x. by rewrite sapp_assoc. }
    unfold step. rewrite Hout. cbn [negb].
    destruct (Ascii.eqb c "<") eqn:Hc; cbn [fst snd default from_option id].
    { rewrite (IH _ pre); cbn [inside_think tag_buffer set_tag_buffer]; [|done|].
      - by rewrite sapp_nil_l, <- Hshift.
      - by rewrite <- Hshift. }
    destruct (PyStr.nonempty (tag_buffer self)) eqn:Hne; cbn [fst snd default from_option id].
    + cbv zeta.
      destruct (String.eqb (tag_buffer self +:+ String c "") OPEN) eqn:Hopen.
      { apply String.eqb_eq in Hopen. exfalso.
        rewrite Hshift, Hopen in Hfind.
        by apply find_None_no_occurrence in Hfind. }
      destruct (negb (PyStr.startswith OPEN (tag_buffer self +:+ String c "")));
        cbn [fst snd default from_option id].
      * rewrite (IH _ (pre +:+ tag_buffer self +:+ String c ""));
          cbn [inside_think tag_buffer set_tag_buffer]; [|done|].
        -- by rewrite !sapp_nil_l, <- Hshift.
        -- by rewrite sapp_assoc, sapp_nil_l, <- Hshift.
      * rewrite (IH _ pre); cbn [inside_think tag_buffer set_tag_buffer]; [|done|].
        -- by rewrite sapp_nil_l, <- Hshift.
        -- by rewrite <- Hshift.
    + destruct (tag_buffer self) eqn:Htb; [|done].
      rewrite (IH self (pre +:+ String c "")); [|done|].
      * by rewrite Htb.
      * rewrite Htb, sapp_nil_l in *. by rewrite sapp_assoc.
Qed.

End OutsideRegion.

(** X1. No false positive: a stream whose text holds no opening tag comes out
    of the streaming filter unchanged once flushed, however it is split into
    fragments, [<] characters and partial tags included. *)
Theorem stream_without_open_tag_unchanged (fragments : list string) :
  PyStr.find OPEN (PyStr.join fragments) = None →
  StreamingThinkFilter.run fragments = PyStr.join fragments.
Proof.
  intros Hfind. rewrite run_emit.
  by rewrite (emit_outside _ StreamingThinkFilter.init "").
Qed.

Lemma stream_without_open_tag_unchanged_witness :
  PyStr.find OPEN (PyStr.join ["if a <"; " b and b <thi"; "nk c </think>"]) = None
  ∧ StreamingThinkFilter.run ["if a <"; " b and b <thi"; "nk c </think>"]
    = "if a < b and b <think c </think>".
Proof.
  split; [reflexivity|].
  by rewrite (stream_without_open_tag_unchanged
                ["if a <"; " b and b <thi"; "nk c </think>"] eq_refl).
Defined.

(** ** Well-formed texts through both filters *)

Section WellFormed.

Import StreamingThinkFilter.

Lemma no_lt_cons c s :
  no_lt (String c s) = true ↔ Ascii.eqb c "<" = false ∧ no_lt s = true.
Proof. simpl. rewrite andb_true_iff, negb_true_iff. done. Qed.

(** With nothing pending, text without [<] is emitted as it is read. *)
Lemma process_text_plain (p : string) self :
  no_lt p = true → inside_think self = false → tag_buffer self = "" →
  process_text self p = (self, p).
Proof.
  intros Hp Hout Htb. induction p as [|c p IH]; [done|].
  apply no_lt_cons in Hp as [Hc Hp].
  change (String c p) with (String c "" +:+ p).
  rewrite process_text_app, process_text_single.
  unfold step. rewrite Hout, Hc, Htb. cbn [negb PyStr.nonempty fst snd default from_option id].
  by rewrite (IH Hp).
Qed.

(** Inside a region, with nothing pending, text without [<] is dropped. *)
Lemma process_text_body (b : string) self :
  no_lt b = true → inside_think self = true → tag_buffer self = "" →
  process_text self b = (self, "").
Proof.
  intros Hb Hin Htb. induction b as [|c b IH]; [done|].
  apply no_lt_cons in Hb as [Hc Hb].
  change (String c b) with (String c "" +:+ b).
  rewrite process_text_app, process_text_single.
  unfold step. rewrite Hin, Hc, Htb. cbn [negb PyStr.nonempty fst snd default from_option id].
  by rewrite (IH Hb).
Qed.

Lemma process_text_close self :
  inside_think self = true → tag_buffer self = "" →
  process_text self CLOSE = (set_inside self false "", "").
Proof. destruct self as [i b tb]. simpl. by intros -> ->. Qed.

(** One piece: the plain text comes out, the span does not, and the filter
    is left with nothing pending. *)
Lemma process_text_piece self plain body :
  no_lt plain = true → no_lt body = true →
  inside_think self = false → tag_buffer self = "" →
  process_text self (plain +:+ OPEN +:+ body +:+ CLOSE) = (clean self, plain).
Proof.
  intros Hplain Hbody Hout Htb.
  rewrite process_text_app, (process_text_plain _ _ Hplain Hout Htb).
  rewrite process_text_app, (process_text_open _ Hout Htb).
  rewrite process_text_app, (process_text_body _ _ Hbody) by done.
  rewrite process_text_close by done. by rewrite sapp_nil_r.
Qed.

Lemma emit_tagged pieces rest : ∀ self,
  well_formed pieces rest →
  inside_think self = false → tag_buffer self = "" →
  emit self (tagged pieces rest) = visible pieces rest.
Proof.
  induction pieces as [|[plain body] pieces IH]; intros self [Hpieces Hrest] Hout Htb.
  - cbn [tagged visible]. unfold emit.
    rewrite (process_text_plain _ _ Hrest Hout Htb). unfold flush.
    by rewrite Htb, sapp_nil_r.
  - apply Forall_cons in Hpieces as [[Hplain Hbody] Hpieces]. cbn [fst snd] in *.
    cbn [tagged visible].
    replace (plain +:+ OPEN +:+ body +:+ CLOSE +:+ tagged pieces rest)
      with ((plain +:+ OPEN +:+ body +:+ CLOSE) +:+ tagged pieces rest)
      by (by rewrite !sapp_assoc).
    rewrite emit_app, (process_text_piece _ _ _ Hplain Hbody Hout Htb).
    by rewrite IH.
Qed.

Lemma THINK_PATTERN_not_lt c s :
  Ascii.eqb c "<" = false → THINK_PATTERN (String c s) = None.
Proof.
  intros Hc. unfold THINK_PATTERN, OPEN. cbn [PyStr.startswith].
  by rewrite Ascii.eqb_sym, Hc.
Qed.

(** The substitution leaves text without [<] alone and goes on after it. *)
Lemma remove_spans_plain (p x : string) :
  no_lt p = true →
  Re.sub THINK_PATTERN "" (p +:+ x) = p +:+ Re.sub THINK_PATTERN "" x.
Proof.
  intros Hp. induction p as [|c p IH]; [done|].
  apply no_lt_cons in Hp as [Hc Hp].
  rewrite !sapp_cons. unfold Re.sub in *. cbn [Re.sub_from].
  rewrite (THINK_PATTERN_not_lt _ _ Hc). by rewrite IH.
Qed.

Lemma find_close_body (b x : string) :
  no_lt b = true → PyStr.find CLOSE (b +:+ CLOSE +:+ x) = Some (String.length b).
Proof.
  intros Hb. induction b as [|c b IH].
  - by rewrite sapp_nil_l, find_unfold, startswith_app.
  - apply no_lt_cons in Hb as [Hc Hb].
    rewrite sapp_cons, find_unfold.
    assert (Hs : PyStr.startswith (String c (b +:+ CLOSE +:+ x)) CLOSE = false)
      by (unfold CLOSE; cbn [PyStr.startswith]; by rewrite Ascii.eqb_sym, Hc).
    by rewrite Hs, (IH Hb).
Qed.

(** A span whose body holds no [<] is removed whole. *)
Lemma remove_spans_span (b x : string) :
  no_lt b = true →
  Re.sub THINK_PATTERN "" (OPEN +:+ b +:+ CLOSE +:+ x) = Re.sub THINK_PATTERN "" x.
Proof.
  intros Hb.
  assert (Hm : THINK_PATTERN (OPEN +:+ b +:+ CLOSE +:+ x)
               = Some (S (String.length ("think>" +:+ b +:+ CLOSE)))).
  { unfold THINK_PATTERN. rewrite startswith_app, drop_app_length, (find_close_body _ _ Hb).
    cbn [fmap option_fmap option_map]. f_equal.
    rewrite !slength_app. simpl. lia. }
  change (OPEN +:+ b +:+ CLOSE +:+ x)
    with (String "<" ("think>" +:+ b +:+ CLOSE +:+ x)) in Hm |- *.
  unfold Re.sub at 1. cbn [Re.sub_from]. rewrite Hm.
  rewrite sapp_nil_l, sub_from_drop.
  replace ("think>" +:+ b +:+ CLOSE +:+ x) with (("think>" +:+ b +:+ CLOSE) +:+ x)
    by (by rewrite !sapp_assoc).
  by rewrite drop_app_length.
Qed.

Lemma remove_spans_tagged pieces rest :
  well_formed pieces rest →
  Re.sub THINK_PATTERN "" (tagged pieces rest) = visible pieces rest.
Proof.
  intros [Hpieces Hrest].
  induction pieces as [|[plain body] pieces IH]; cbn [tagged visible].
  - rewrite <- (sapp_nil_r rest) at 1. rewrite (remove_spans_plain _ _ Hrest).
    by rewrite sapp_nil_r.
  - apply Forall_cons in Hpieces as [[Hplain Hbody] Hpieces]. cbn [fst snd] in *.
    by rewrite (remove_spans_plain _ _ Hplain), (remove_spans_span _ _ Hbody), IH.
Qed.

End WellFormed.

(** X2. On a well-formed text (ordinary text and spans, with [<] only in
    the delimiters) the streaming filter emits, over all the calls and the
    final flush, exactly the text without its spans, however the text is
    split into fragments. *)
Theorem stream_removes_spans
        (pieces : list (string * string)) (rest : string) (fragments : list string) :
  well_formed pieces rest →
  PyStr.join fragments = tagged pieces rest →
  StreamingThinkFilter.run fragments = visible pieces rest.
Proof.
  intros Hwf Hjoin. rewrite run_emit, Hjoin.
  by apply emit_tagged.
Qed.

Lemma stream_removes_spans_witness :
  well_formed [("Hello ", "secret"); (" big ", "more")] " world"
  ∧ PyStr.join ["Hello <th"; "ink>secret</thi"; "nk> big <think>more</think> world"]
    = tagged [("Hello ", "secret"); (" big ", "more")] " world"
  ∧ StreamingThinkFilter.run
      ["Hello <th"; "ink>secret</thi"; "nk> big <think>more</think> world"]
    = "Hello  big  world".
Proof.
  assert (Hwf : well_formed [("Hello ", "secret"); (" big ", "more")] " world").
  { split; [|reflexivity]. repeat constructor. }
  split; [exact Hwf|]. split; [reflexivity|].
  by rewrite (stream_removes_spans [("Hello ", "secret"); (" big ", "more")] " world"
                ["Hello <th"; "ink>secret</thi"; "nk> big <think>more</think> world"]
                Hwf eq_refl).
Defined.

(** X3. On a well-formed text the two filters agree: the whole-text filter
    gives what the streaming filter emits for the same text, with the
    newline runs collapsed and the ends trimmed. *)
Theorem filters_agree_on_well_formed_text
        (pieces : list (string * string)) (rest : string) (fragments : list string) :
  well_formed pieces rest →
  PyStr.join fragments = tagged pieces rest →
  strip_think_tags (tagged pieces rest)
  = PyStr.strip (collapse_newlines (StreamingThinkFilter.run fragments)).
Proof.
  intros Hwf Hjoin. unfold strip_think_tags.
  rewrite (remove_spans_tagged _ _ Hwf).
  rewrite run_emit, Hjoin, emit_tagged; done.
Qed.

Lemma filters_agree_on_well_formed_text_witness :
  well_formed [("Answer: ", "step 1")] " 42 "
  ∧ strip_think_tags (tagged [("Answer: ", "step 1")] " 42 ")
    = PyStr.strip (collapse_newlines
                     (StreamingThinkFilter.run ["Answer: <think>st"; "ep 1</think> 42 "])).
Proof.
  assert (Hwf : well_formed [("Answer: ", "step 1")] " 42 ").
  { split; [|reflexivity]. repeat constructor. }
  split; [exact Hwf|].
  apply (filters_agree_on_well_formed_text [("Answer: ", "step 1")] " 42 "
           ["Answer: <think>st"; "ep 1</think> 42 "] Hwf eq_refl).
Defined.

(** ** An opening tag right after a [<] *)

(** X4. A [<] put right before the opening tag hides the tag from the
    streaming filter: for every body without [<], the stream
    [< <think> body </think>] is emitted whole, body included, whichever way
    it is split, while the whole-text substitution removes the span from the
    same text and leaves the [<]. *)
Theorem lt_before_open_tag_defeats_streaming_filter
        (body : string) (fragments : list string) :
  no_lt body = true →
  PyStr.join fragments = "<" +:+ OPEN +:+ body +:+ CLOSE →
  StreamingThinkFilter.run fragments = "<" +:+ OPEN +:+ body +:+ CLOSE
  ∧ Re.sub THINK_PATTERN "" ("<" +:+ OPEN +:+ body +:+ CLOSE) = "<".
Proof.
  intros Hbody Hjoin. split.
  - rewrite run_emit, Hjoin.
    change ("<" +:+ OPEN +:+ body +:+ CLOSE)
      with ("<<t" +:+ ("hink>" +:+ body) +:+ "</" +:+ "think>").
    assert (Hplain : no_lt ("hink>" +:+ body) = true) by (by simpl).
    rewrite emit_app. change (StreamingThinkFilter.process_text StreamingThinkFilter.init "<<t")
      with (StreamingThinkFilter.init, "<<t").
    cbv beta iota.
    rewrite emit_app, (process_text_plain _ _ Hplain) by done.
    rewrite emit_app. change (StreamingThinkFilter.process_text StreamingThinkFilter.init "</")
      with (StreamingThinkFilter.init, "</").
    cbv beta iota.
    unfold StreamingThinkFilter.emit.
    rewrite (process_text_plain "think>") by done.
    by rewrite sapp_nil_r.
  - change ("<" +:+ OPEN +:+ body +:+ CLOSE)
      with (String "<" (OPEN +:+ body +:+ CLOSE +:+ "")).
    unfold Re.sub at 1. cbn [Re.sub_from].
    assert (Hm : THINK_PATTERN (String "<" (OPEN +:+ body +:+ CLOSE +:+ "")) = None)
      by reflexivity.
    rewrite Hm. fold (Re.sub THINK_PATTERN "" (OPEN +:+ body +:+ CLOSE +:+ "")).
    by rewrite remove_spans_span.
Qed.

Lemma lt_before_open_tag_defeats_streaming_filter_witness :
  no_lt "secret plan" = true
  ∧ PyStr.join ["<<thi"; "nk>secret plan</think>"] = "<" +:+ OPEN +:+ "secret plan" +:+ CLOSE
  ∧ StreamingThinkFilter.run ["<<thi"; "nk>secret plan</think>"]
    = "<<think>secret plan</think>".
Proof.
  split; [reflexivity|]. split; [reflexivity|].
  apply (lt_before_open_tag_defeats_streaming_filter "secret plan"
           ["<<thi"; "nk>secret plan</think>"] eq_refl eq_refl).
Defined.

Section AfterLt.

Import StreamingThinkFilter.

(** After ordinary text, [<<think>] never puts the filter inside a region:
    the second [<] is appended to the pending [<], the [t] that follows makes
    a candidate that is no prefix of the tag, and the candidate is emitted.
    What follows without [<] is then emitted as ordinary text. *)
Lemma process_text_lt_open (pre body : string) :
  no_lt pre = true → no_lt body = true →
  process_text init (pre +:+ "<" +:+ OPEN +:+ body)
  = (init, pre +:+ "<" +:+ OPEN +:+ body).
Proof.
  intros Hpre Hbody.
  rewrite process_text_app, (process_text_plain _ _ Hpre) by done.
  change ("<" +:+ OPEN +:+ body) with ("<<t" +:+ ("hink>" +:+ body)).
  rewrite process_text_app.
  change (process_text init "<<t") with (init, "<<t").
  cbv beta iota.
  assert (Hplain : no_lt ("hink>" +:+ body) = true) by (by simpl).
  by rewrite (process_text_plain _ _ Hplain).
Qed.

(** The closing tag that follows is then emitted too. *)
Lemma process_text_lt_span (pre body : string) :
  no_lt pre = true → no_lt body = true →
  process_text init (pre +:+ "<" +:+ OPEN +:+ body +:+ CLOSE)
  = (init, pre +:+ "<" +:+ OPEN +:+ body +:+ CLOSE).
Proof.
  intros Hpre Hbody.
  replace (pre +:+ "<" +:+ OPEN +:+ body +:+ CLOSE)
    with ((pre +:+ "<" +:+ OPEN +:+ body) +:+ CLOSE)
    by (by rewrite !sapp_assoc).
  rewrite process_text_app, (process_text_lt_open _ _ Hpre Hbody).
  change (process_text init CLOSE) with (init, CLOSE). cbv beta iota.
  by rewrite !sapp_assoc.
Qed.

End AfterLt.

(** C3 (the code departs from the claim). A [<] right before the opening tag
    keeps the filter from recognising the tag, and the marked region that
    follows is emitted: for every ordinary text [pre] and every region
    content [body] without [<], and for every split into fragments, a fresh
    filter that is fed [pre < <think> body </think>], or the same stream cut
    short before the closing tag, returns from its [process_text] calls the
    whole text, content of the region included, and is left as it started,
    outside any region. *)
Theorem marked_region_emitted_after_lt
        (pre body : string) (fragments : list string) :
  no_lt pre = true → no_lt body = true →
  PyStr.join fragments = pre +:+ "<" +:+ OPEN +:+ body +:+ CLOSE
  ∨ PyStr.join fragments = pre +:+ "<" +:+ OPEN +:+ body →
  StreamingThinkFilter.feed StreamingThinkFilter.init fragments
  = (StreamingThinkFilter.init, PyStr.join fragments)
  ∧ StreamingThinkFilter.run fragments = PyStr.join fragments.
Proof.
  intros Hpre Hbody Hjoin.
  assert (Hfeed : StreamingThinkFilter.feed StreamingThinkFilter.init fragments
                  = (StreamingThinkFilter.init, PyStr.join fragments)).
  { rewrite feed_join. destruct Hjoin as [-> | ->].
    - by apply process_text_lt_span.
    - by apply process_text_lt_open. }
  split; [done|].
  unfold StreamingThinkFilter.run. rewrite Hfeed. cbn. by rewrite sapp_nil_r.
Qed.

Lemma marked_region_emitted_after_lt_witness :
  no_lt "Hi " = true
  ∧ no_lt "secret" = true
  ∧ PyStr.join ["Hi <<thi"; "nk>sec"; "ret</think>"]
    = "Hi " +:+ "<" +:+ OPEN +:+ "secret" +:+ CLOSE
  ∧ snd (StreamingThinkFilter.feed StreamingThinkFilter.init
           ["Hi <<thi"; "nk>sec"; "ret</think>"])
    = "Hi <<think>secret</think>"
  ∧ StreamingThinkFilter.run ["<<think>sec"; "ret"] = "<<think>secret".
Proof.
  split; [reflexivity|]. split; [reflexivity|]. split; [reflexivity|]. split.
  - destruct (marked_region_emitted_after_lt "Hi " "secret"
                ["Hi <<thi"; "nk>sec"; "ret</think>"] eq_refl eq_refl
                (or_introl eq_refl)) as [-> _].
    reflexivity.
  - destruct (marked_region_emitted_after_lt "" "secret"
                ["<<think>sec"; "ret"] eq_refl eq_refl
                (or_intror eq_refl)) as [_ ->].
    reflexivity.
Defined.

(** ** The result of the whole-text filter *)

Section Cleaned.

Lemma lstrip_strip s : PyStr.lstrip (PyStr.strip s) = PyStr.strip s.
Proof.
  unfold PyStr.strip.
  destruct (lstrip_head s) as [->|(c & r & -> & Hc)]; [done|].
  rewrite rstrip_cons_nonspace by done. simpl. by rewrite Hc.
Qed.

Lemma rstrip_strip s : PyStr.rstrip (PyStr.strip s) = PyStr.strip s.
Proof. unfold PyStr.strip. apply rstrip_idemp. Qed.

End Cleaned.

(** X5. What [strip_think_tags] returns is clean and no longer than its
    argument: there is no white space left to trim at either end, and no
    run of three newlines is left in it. *)
Theorem strip_think_tags_result_is_clean (text : string) :
  PyStr.lstrip (strip_think_tags text) = strip_think_tags text
  ∧ PyStr.rstrip (strip_think_tags text) = strip_think_tags text
  ∧ Re.search NEWLINES_PATTERN (strip_think_tags text) = false
  ∧ String.length (strip_think_tags text) ≤ String.length text.
Proof.
  repeat split.
  - apply lstrip_strip.
  - apply rstrip_strip.
  - unfold strip_think_tags. apply search_newlines_strip, (search_collapse_newlines _ 0).
  - etrans; [apply strip_think_tags_length|apply remove_spans_length].
Qed.

(** ** Which requests the API-key checks accept *)

Section Accepted.

Lemma startswith_split s p :
  PyStr.startswith s p = true → s = p +:+ PyStr.drop (String.length p) s.
Proof.
  revert s. induction p as [|a p IH]; intros s; [by destruct s|].
  destruct s as [|b s]; [done|]. cbn [PyStr.startswith].
  intros [->%Ascii.eqb_eq H]%andb_prop. rewrite sapp_cons. cbn [String.length PyStr.drop].
  by rewrite <- IH.
Qed.

End Accepted.

(** X6. [verify_api_key] lets a request through exactly when a secret is
    configured and the [Authorization] header is [Bearer ] followed by that
    secret, character for character; any other request is refused. *)
Theorem verify_api_key_accepts_exactly_the_secret (key : string) (request : Request) :
  App.verify_api_key key request = Return tt
  ↔ key ≠ "" ∧ headers_get request "Authorization" "" = "Bearer " +:+ key.
Proof.
  unfold App.verify_api_key. split.
  - destruct (PyStr.nonempty key) eqn:Hk; [|done]. cbn [negb].
    destruct (PyStr.startswith _ "Bearer ") eqn:Hs; [|done]. cbn [negb].
    destruct (String.eqb _ key) eqn:He; [|done]. intros _.
    apply nonempty_true in Hk. split; [done|].
    apply String.eqb_eq in He. apply startswith_split in Hs.
    rewrite Hs. by rewrite <- He.
  - intros [Hk%nonempty_true Hauth]. rewrite Hk, Hauth.
    change 7 with (String.length "Bearer ").
    by rewrite startswith_app, drop_app_length, String.eqb_refl.
Qed.

(** X7. [check_openwebui_key] lets a request through exactly when no secret
    is configured, or the [Authorization] header begins with [bearer ] in
    any letter case and the rest of it, trimmed, is the secret. *)
Theorem check_openwebui_key_accepts (key : string) (request : Request) :
  let auth := headers_get request "Authorization" "" in
  Main.check_openwebui_key key request = Return tt
  ↔ key = ""
    ∨ (PyStr.startswith (PyStr.lower auth) "bearer " = true
       ∧ PyStr.strip (PyStr.drop 7 auth) = key).
Proof.
  intros auth. subst auth. unfold Main.check_openwebui_key.
  change (headers_get request "authorization" "")
    with (headers_get request "Authorization" "").
  destruct (PyStr.nonempty key) eqn:Hk; cbn [negb].
  - apply nonempty_true in Hk.
    destruct (PyStr.startswith _ "bearer ") eqn:Hs; cbn [negb].
    + rewrite (after_first_space_bearer (headers_get request "Authorization" "") Hs).
      unfold bind, Return at 1.
      destruct (String.eqb _ key) eqn:He; cbn [negb].
      * apply String.eqb_eq in He. split; [intros _; by right|done].
      * apply String.eqb_neq in He. split; [done|]. by intros [?|[_ ?]].
    + split; [done|]. by intros [?|[? _]].
  - apply nonempty_false in Hk. split; [intros _; by left|done].
Qed.

(** ** Model resolution and the calls to the backend *)

(** X8. A chat request for a model id that is not configured (the empty id
    of a body without [model] included) raises 404, with a detail made of the
    requested id and the list of the configured ids, and no request is made
    to the backend. *)
Theorem unknown_model_is_404
        (MODELS : gmap string (gmap string json)) (get_entra_token : string + string)
        (client_post : string → gmap string string → gmap string json → PostReply)
        (client_stream : string → gmap string string → gmap string json → StreamReply)
        (json_loads : string → option json) (json_dumps : json → string)
        (time_time : Z) (format_value : json → string)
        (format_keys : list string → string)
        (request : Request) (body : gmap string json) (model : string) :
  req_json request = Some (JObj body) →
  Json.get body "model" (JStr "") = JStr model →
  MODELS !! model = None →
  App.chat_completions MODELS get_entra_token client_post client_stream
    json_loads json_dumps time_time format_value format_keys request
  = {| upstream_calls := [];
       response :=
         Raise (HTTPException 404
                  ("Model '" +:+ format_value (JStr model)
                   +:+ "' not configured. Available: "
                   +:+ format_keys (map fst (map_to_list MODELS)))) |}.
Proof.
  intros Hbody Hmodel Hcfg. unfold App.chat_completions.
  rewrite Hbody, Hmodel. cbn [App.models_get Return]. by rewrite Hcfg.
Qed.

Lemma unknown_model_is_404_witness :
  let MODELS : gmap string (gmap string json) :=
    {["chat" := {["endpoint" := JStr "https://foundry/"]}]} in
  let body : gmap string json := {["model" := JStr "foo"]} in
  let request := {| req_headers := []; req_json := Some (JObj body) |} in
  upstream_calls
    (App.chat_completions MODELS (inr "token") (λ _ _ _, PostTimeout)
       (λ _ _ _, ConnectTimeout) (λ _, None) (λ _, "") 0 (λ _, "foo") (λ _, "[chat]")
       request) = []
  ∧ response
      (App.chat_completions MODELS (inr "token") (λ _ _ _, PostTimeout)
         (λ _ _ _, ConnectTimeout) (λ _, None) (λ _, "") 0 (λ _, "foo") (λ _, "[chat]")
         request)
    = Raise (HTTPException 404 "Model 'foo' not configured. Available: [chat]").
Proof.
  intros MODELS body request.
  rewrite (unknown_model_is_404 MODELS (inr "token") (λ _ _ _, PostTimeout)
             (λ _ _ _, ConnectTimeout) (λ _, None) (λ _, "") 0 (λ _, "foo") (λ _, "[chat]")
             request body "foo" eq_refl eq_refl eq_refl).
  split; reflexivity.
Defined.

(** ** The requests a handler makes *)

Section Requests.

Variable World : Type.
Variable MODELS : gmap string (gmap string json).
Variable get_entra_token : string + string.
Variable client_post :
  string → gmap string string → gmap string json → IO World PostReply.
Variable client_stream :
  string → gmap string string → gmap string json → IO World StreamReply.
Variable json_loads : string → option json.
Variable json_dumps : json → string.
Variable time_time : Z.
Variable format_value : json → string.
Variable format_keys : list string → string.

(** Each relay uses the client once, on the world it starts from. *)
Lemma handle_non_streaming_world url headers body model_id should_filter w :
  snd (AppIO._handle_non_streaming World client_post json_loads
         url headers body model_id should_filter w)
  = snd (client_post url headers body w).
Proof.
  unfold AppIO._handle_non_streaming, io_bind, io_return.
  by destruct (client_post url headers body w).
Qed.

Lemma handle_streaming_world url headers body model_id should_filter w :
  snd (AppIO._handle_streaming World client_stream json_loads json_dumps time_time
         url headers body model_id should_filter w)
  = snd (client_stream url headers body w).
Proof.
  unfold AppIO._handle_streaming, AppIO.generate, io_bind, io_return.
  by destruct (client_stream url headers body w).
Qed.

(** The world a chat request leaves: the one it found, or the one that a
    single use of the client leaves from there. *)
Lemma chat_completions_world request w :
  let after :=
    snd (AppIO.chat_completions World MODELS get_entra_token client_post client_stream
           json_loads json_dumps time_time format_value format_keys request w) in
  after = w
  ∨ (∃ url headers body, after = snd (client_post url headers body w))
  ∨ (∃ url headers body, after = snd (client_stream url headers body w)).
Proof.
  cbv zeta. unfold AppIO.chat_completions.
  repeat (case_match; try (by left)).
  - right; right. rewrite handle_streaming_world. by eexists _, _, _.
  - right; left. rewrite handle_non_streaming_world. by eexists _, _, _.
Qed.

(** Without a token the client is not used. *)
Lemma chat_completions_world_no_token e request w :
  snd (AppIO.chat_completions World MODELS (inl e) client_post client_stream
         json_loads json_dumps time_time format_value format_keys request w)
  = w.
Proof.
  unfold AppIO.chat_completions. by repeat case_match.
Qed.

(** The response is the one of [App.chat_completions] for the replies the
    client gives in the world the request starts from. *)
Lemma chat_completions_io_response request w :
  fst (AppIO.chat_completions World MODELS get_entra_token client_post client_stream
         json_loads json_dumps time_time format_value format_keys request w)
  = response
      (App.chat_completions MODELS get_entra_token
         (λ url headers body, fst (client_post url headers body w))
         (λ url headers body, fst (client_stream url headers body w))
         json_loads json_dumps time_time format_value format_keys request).
Proof.
  unfold AppIO.chat_completions, App.chat_completions.
  repeat (case_match; try done).
  - unfold AppIO._handle_streaming, AppIO.generate, App._handle_streaming,
      App.generate, io_bind, io_return. cbn [response].
    by destruct (client_stream _ _ _ w).
  - unfold AppIO._handle_non_streaming, App._handle_non_streaming,
      io_bind, io_return. cbn [response].
    by destruct (client_post _ _ _ w).
Qed.

End Requests.

(** The calls that [App.chat_completions] records are the requests made
    through the client, in order. *)
Lemma upstream_calls_are_client_uses
      (MODELS : gmap string (gmap string json)) (get_entra_token : string + string)
      (client_post : string → gmap string string → gmap string json → PostReply)
      (client_stream : string → gmap string string → gmap string json → StreamReply)
      (json_loads : string → option json) (json_dumps : json → string)
      (time_time : Z) (format_value : json → string)
      (format_keys : list string → string)
      (request : Request) (log : list UpstreamCall) :
  snd (AppIO.chat_completions (list UpstreamCall) MODELS get_entra_token
         (logged client_post) (logged client_stream)
         json_loads json_dumps time_time format_value format_keys request log)
  = log ++ upstream_calls
             (App.chat_completions MODELS get_entra_token client_post client_stream
                json_loads json_dumps time_time format_value format_keys request).
Proof.
  unfold AppIO.chat_completions, App.chat_completions.
  repeat (case_match; try (by rewrite app_nil_r)).
  - by rewrite handle_streaming_world.
  - by rewrite handle_non_streaming_world.
Qed.

Section RequestsMain.

Variable World : Type.
Variable FOUNDRY_CHAT_URL DEFAULT_MODEL EXPECTED_API_KEY : string.
Variable get_aad_token : result string.
Variable requests_post :
  string → gmap string string → string → IO World (result (Z * string)).
Variable json_loads : string → option json.
Variable json_dumps : json → string.

Lemma main_chat_completions_world request w :
  let after :=
    snd (MainIO.chat_completions World FOUNDRY_CHAT_URL DEFAULT_MODEL EXPECTED_API_KEY
           get_aad_token requests_post json_loads json_dumps request w) in
  after = w
  ∨ ∃ url headers data, after = snd (requests_post url headers data w).
Proof.
  cbv zeta. unfold MainIO.chat_completions.
  repeat (case_match; try (by left)).
  all: right; unfold io_bind, io_return.
  all: match goal with
  | |- context [requests_post ?url ?headers ?data ?w0] =>
      exists url, headers, data; by destruct (requests_post url headers data w0)
  end.
Qed.

Lemma main_chat_completions_io_response request w :
  fst (MainIO.chat_completions World FOUNDRY_CHAT_URL DEFAULT_MODEL EXPECTED_API_KEY
         get_aad_token requests_post json_loads json_dumps request w)
  = response
      (Main.chat_completions FOUNDRY_CHAT_URL DEFAULT_MODEL EXPECTED_API_KEY
         get_aad_token (λ url headers data, fst (requests_post url headers data w))
         json_loads json_dumps request).
Proof.
  unfold MainIO.chat_completions, Main.chat_completions.
  repeat (case_match; try done).
  all: unfold io_bind, io_return; cbn [response].
  all: by destruct (requests_post _ _ _ w).
Qed.

End RequestsMain.

(** X9. No retries: handling one chat request uses the HTTP client at most
    once, in [app.py] and in [main.py] alike. Whatever the client does to the
    world, the world a request leaves is the one it found or the one a single
    request to the backend leaves from there; a client that counts its
    requests counts at most one more; and [app.py] makes no request when the
    Entra token cannot be acquired. *)
Theorem at_most_one_upstream_call
        (World : Type)
        (MODELS : gmap string (gmap string json)) (get_entra_token : string + string)
        (client_post :
           string → gmap string string → gmap string json → IO World PostReply)
        (client_stream :
           string → gmap string string → gmap string json → IO World StreamReply)
        (json_loads : string → option json) (json_dumps : json → string)
        (time_time : Z) (format_value : json → string)
        (format_keys : list string → string)
        (FOUNDRY_CHAT_URL DEFAULT_MODEL EXPECTED_API_KEY : string)
        (get_aad_token : result string)
        (requests_post :
           string → gmap string string → string → IO World (result (Z * string)))
        (request : Request) (w : World) :
  let after :=
    snd (AppIO.chat_completions World MODELS get_entra_token client_post client_stream
           json_loads json_dumps time_time format_value format_keys request w) in
  let after_main :=
    snd (MainIO.chat_completions World FOUNDRY_CHAT_URL DEFAULT_MODEL EXPECTED_API_KEY
           get_aad_token requests_post json_loads json_dumps request w) in
  (after = w
   ∨ (∃ url headers body, after = snd (client_post url headers body w))
   ∨ (∃ url headers body, after = snd (client_stream url headers body w)))
  ∧ (after_main = w
     ∨ ∃ url headers data, after_main = snd (requests_post url headers data w))
  ∧ (∀ e,
       snd (AppIO.chat_completions World MODELS (inl e) client_post client_stream
              json_loads json_dumps time_time format_value format_keys request w)
       = w)
  ∧ (∀ reply_post reply_stream (n : nat),
       snd (AppIO.chat_completions nat MODELS get_entra_token
              (counted reply_post) (counted reply_stream)
              json_loads json_dumps time_time format_value format_keys request n)
       ≤ S n)
  ∧ (∀ reply (n : nat),
       snd (MainIO.chat_completions nat FOUNDRY_CHAT_URL DEFAULT_MODEL EXPECTED_API_KEY
              get_aad_token (counted reply) json_loads json_dumps request n)
       ≤ S n).
Proof.
  cbv zeta. split; [apply chat_completions_world|].
  split; [apply main_chat_completions_world|].
  split; [intros e; apply chat_completions_world_no_token|].
  split.
  - intros reply_post reply_stream n.
    destruct (chat_completions_world nat MODELS get_entra_token
                (counted reply_post) (counted reply_stream)
                json_loads json_dumps time_time format_value format_keys request n)
      as [->|[(url & headers & body & ->)|(url & headers & body & ->)]];
      cbn [counted snd]; lia.
  - intros reply n.
    destruct (main_chat_completions_world nat FOUNDRY_CHAT_URL DEFAULT_MODEL
                EXPECTED_API_KEY get_aad_token (counted reply)
                json_loads json_dumps request n)
      as [->|(url & headers & data & ->)]; cbn [counted snd]; lia.
Qed.

(** ** The non-streaming relay *)

Section NonStreaming.

Lemma take_length n s : String.length (take n s) ≤ n.
Proof.
  revert s. induction n as [|n IH]; intros [|c s]; simpl; try lia.
  specialize (IH s). lia.
Qed.

Lemma take_prefix n s : ∃ w, s = take n s +:+ w.
Proof.
  revert s. induction n as [|n IH]; intros [|c s]; try (by eexists).
  destruct (IH s) as [w Hw]. exists w. simpl. by rewrite sapp_cons, <- Hw.
Qed.

End NonStreaming.

(** X10. In the non-streaming relay a backend status other than 200 is
    raised as an HTTP error with that same status, whose detail is
    [Foundry error: ] followed by the beginning of the backend's body, 515
    characters at most; a timeout is raised as 504 and any other request
    failure as 502. *)
Theorem non_streaming_relays_upstream_errors
        (client_post : string → gmap string string → gmap string json → PostReply)
        (json_loads : string → option json)
        (url : string) (headers : gmap string string) (body : gmap string json)
        (model_id should_filter : json) :
  let handled :=
    App._handle_non_streaming client_post json_loads url headers body
      model_id should_filter in
  (client_post url headers body = PostTimeout →
   response handled = Raise (HTTPException 504 "Foundry request timed out"))
  ∧ (∀ e, client_post url headers body = PostRequestError e →
          response handled = Raise (HTTPException 502 ("Foundry request failed: " +:+ e)))
  ∧ (∀ status_code text,
       client_post url headers body = PostResponse status_code text →
       status_code ≠ 200%Z →
       ∃ excerpt rest,
         response handled
         = Raise (HTTPException status_code ("Foundry error: " +:+ excerpt))
         ∧ text = excerpt +:+ rest
         ∧ String.length excerpt ≤ 500
         ∧ String.length ("Foundry error: " +:+ excerpt) ≤ 515).
Proof.
  intros handled. subst handled. unfold App._handle_non_streaming. cbn [response].
  repeat split.
  - by intros ->.
  - by intros e ->.
  - intros status_code text -> Hstatus.
    apply Z.eqb_neq in Hstatus. rewrite Hstatus. cbn [negb].
    destruct (take_prefix 500 text) as [rest Hrest].
    exists (take 500 text), rest. pose proof (take_length 500 text) as Hlen.
    split; [done|]. split; [done|]. split; [done|].
    rewrite slength_app. change (String.length "Foundry error: ") with 15. lia.
Qed.

Lemma non_streaming_relays_upstream_errors_witness :
  let client_post : string → gmap string string → gmap string json → PostReply :=
    λ _ _ _, PostResponse 429 "rate limit" in
  response (App._handle_non_streaming client_post (λ _, None)
              "https://foundry/chat/completions" ∅ ∅ (JStr "chat") (JBool true))
  = Raise (HTTPException 429 "Foundry error: rate limit").
Proof.
  intros client_post.
  destruct (non_streaming_relays_upstream_errors client_post (λ _, None)
              "https://foundry/chat/completions" ∅ ∅ (JStr "chat") (JBool true))
    as (_ & _ & H).
  destruct (H 429%Z "rate limit" eq_refl ltac:(done)) as (excerpt & rest & Hr & _).
  reflexivity.
Defined.

(** ** The end of the event stream, where it is written *)

(** X11. The generator ends its events with the terminator in each of these
    cases: the request fails before any response (timeout or connection
    error), the backend answers with a status other than 200, the loop over
    the lines returns on the backend's own terminator line, and reading the
    lines fails after the loop has consumed them. *)
Theorem generate_writes_terminator
        (client_stream : string → gmap string string → gmap string json → StreamReply)
        (json_loads : string → option json) (json_dumps : json → string)
        (time_time : Z) (url : string) (headers : gmap string string)
        (body : gmap string json) (model_id should_filter : json) :
  let think_filter :=
    if Json.truthy should_filter then Some StreamingThinkFilter.init else None in
  let generated :=
    App.generate client_stream json_loads json_dumps time_time
      url headers body model_id should_filter in
  (client_stream url headers body = ConnectTimeout →
   last (events generated) = Some DONE_EVENT)
  ∧ (∀ e, client_stream url headers body = ConnectError e →
          last (events generated) = Some DONE_EVENT)
  ∧ (∀ status_code lines ending,
       client_stream url headers body = StreamResponse status_code lines ending →
       status_code ≠ 200%Z →
       last (events generated) = Some DONE_EVENT ∧ length (events generated) = 2)
  ∧ (∀ lines ending,
       client_stream url headers body = StreamResponse 200 lines ending →
       snd (App.lines_loop json_loads json_dumps time_time think_filter model_id lines)
       = App.Returned →
       last (events generated) = Some DONE_EVENT)
  ∧ (∀ lines ending,
       client_stream url headers body = StreamResponse 200 lines ending →
       snd (App.lines_loop json_loads json_dumps time_time think_filter model_id lines)
       = App.Exhausted →
       ending ≠ EndOfLines →
       last (events generated) = Some DONE_EVENT).
Proof.
  intros think_filter generated. subst think_filter generated.
  pose proof (generate_terminated client_stream json_loads json_dumps time_time
                url headers body model_id should_filter) as Hterm.
  split; [|split; [|split; [|split]]].
  - intros Hreply. rewrite Hreply in Hterm. by apply Hterm.
  - intros e Hreply. rewrite Hreply in Hterm. by apply Hterm.
  - intros status_code lines ending Hreply Hstatus. split.
    + rewrite Hreply in Hterm. apply Hterm. by left.
    + unfold App.generate. rewrite Hreply.
      apply Z.eqb_neq in Hstatus. rewrite Hstatus. cbn [negb]. by destruct ending.
  - intros lines ending Hreply Hexit. rewrite Hreply in Hterm. apply Hterm. right.
    cbv zeta. by rewrite Hexit.
  - intros lines ending Hreply Hexit Hending. rewrite Hreply in Hterm. apply Hterm. right.
    cbv zeta. by rewrite Hexit.
Qed.

Lemma generate_writes_terminator_witness :
  let client_stream : string → gmap string string → gmap string json → StreamReply :=
    λ _ _ _, StreamResponse 200 ["data: {}"; "data: [DONE]"] EndOfLines in
  let chunk : json :=
    JObj {["choices" := JArr [JObj {["delta" := JObj {["content" := JStr "<thi"]}]}]]} in
  let generated :=
    App.generate client_stream (λ _, Some chunk) (λ _, "{}") 0
      "https://foundry/chat/completions" ∅ ∅ (JStr "chat") (JBool true) in
  events generated = ["data: {}" +:+ two_newlines; DONE_EVENT]
  ∧ last (events generated) = Some DONE_EVENT.
Proof.
  intros client_stream chunk generated. split; [reflexivity|].
  destruct (generate_writes_terminator client_stream (λ _, Some chunk) (λ _, "{}") 0
              "https://foundry/chat/completions" ∅ ∅ (JStr "chat") (JBool true))
    as (_ & _ & _ & H & _).
  apply (H ["data: {}"; "data: [DONE]"] EndOfLines eq_refl eq_refl).
Defined.

(** ** Content written into a chunk *)

Section ChunkContent.

Variable json_loads : string → option json.
Variable json_dumps : json → string.
Variable time_time : Z.

(** Where a chunk yields a non-empty content string, the content sits under
    [choices[0].delta.content] of the chunk itself, not in a default. *)
Lemma delta_content_shape chunk text :
  App.delta_content chunk = Return (JStr text) → PyStr.nonempty text = true →
  ∃ c first rest delta,
    chunk = JObj c
    ∧ c !! "choices" = Some (JArr (JObj first :: rest))
    ∧ first !! "delta" = Some (JObj delta)
    ∧ delta !! "content" = Some (JStr text).
Proof.
  unfold App.delta_content. intros H Htext.
  destruct chunk as [| | | | | |c]; try done. cbn [Json.get_attr bind Return] in H.
  unfold Json.get in H.
  destruct (c !! "choices") as [choices|] eqn:Hchoices; cbn [default from_option id] in H;
    [|cbn in H; injection H as <-; done].
  destruct choices as [| | | |[|? ?]|[|first rest]|]; try done.
  cbn [Json.item0 bind Return] in H.
  destruct first as [| | | | | |first]; try done. cbn [Json.get_attr bind Return] in H.
  unfold Json.get in H.
  destruct (first !! "delta") as [delta|] eqn:Hdelta; cbn [default from_option id] in H;
    [|cbn in H; injection H as <-; done].
  destruct delta as [| | | | | |delta]; try done. cbn [Json.get_attr Return] in H.
  unfold Json.get in H.
  destruct (delta !! "content") as [content|] eqn:Hcontent;
    cbn [default from_option id] in H; [|injection H as <-; done].
  injection H as ->. by exists c, first, rest, delta.
Qed.

End ChunkContent.

(** X12. What the proxy writes into a chunk is what the extraction reads
    back. Where a chunk carries a non-empty content string, replacing it with
    the filtered text succeeds, the new chunk carries the filtered text where
    the content is read, and every other top-level field of the chunk is
    unchanged; and the chunk built for flushed text carries that text. *)
Theorem chunk_content_round_trip (time_time : Z) (chunk : json) (text filtered : string) :
  App.delta_content chunk = Return (JStr text) →
  PyStr.nonempty text = true →
  (∃ c c',
     chunk = JObj c
     ∧ App.set_delta_content chunk filtered = Return (JObj c')
     ∧ App.delta_content (JObj c') = Return (JStr filtered)
     ∧ ∀ key, key ≠ "choices" → c' !! key = c !! key)
  ∧ ∀ model_id,
      App.delta_content (App._make_sse_chunk time_time filtered model_id)
      = Return (JStr filtered).
Proof.
  intros Hdelta Htext. split.
  - destruct (delta_content_shape chunk text Hdelta Htext)
      as (c & first & rest & delta & -> & Hchoices & Hfirst & Hcontent).
    eexists c, _. split; [done|].
    unfold App.set_delta_content. rewrite Hchoices, Hfirst.
    split; [reflexivity|]. split.
    + unfold App.delta_content. cbn [Json.get_attr bind Return].
      unfold Json.get. rewrite lookup_insert_eq. cbn [default from_option id Json.item0 bind Return Json.get_attr].
      unfold Json.get. rewrite lookup_insert_eq. cbn [default from_option id Json.get_attr bind Return].
      unfold Json.get. by rewrite lookup_insert_eq.
    + intros key Hkey. by rewrite lookup_insert_ne.
  - intros model_id. unfold App._make_sse_chunk, App.delta_content.
    cbn [Json.get_attr bind Return]. unfold Json.get.
    rewrite !lookup_insert_ne, lookup_insert_eq by done.
    cbn [default from_option id Json.item0 bind Return Json.get_attr]. unfold Json.get.
    rewrite lookup_insert_ne, lookup_insert_eq by done.
    cbn [default from_option id Json.get_attr bind Return]. unfold Json.get.
    by rewrite lookup_singleton_eq.
Qed.

Lemma chunk_content_round_trip_witness :
  let chunk : json :=
    JObj (<["id" := JStr "c1"]>
          {["choices" := JArr [JObj {["delta" := JObj {["content" := JStr "a<think>b"]}]}]]}) in
  App.delta_content chunk = Return (JStr "a<think>b")
  ∧ PyStr.nonempty "a<think>b" = true
  ∧ ∃ c', App.set_delta_content chunk "a" = Return (JObj c')
          ∧ App.delta_content (JObj c') = Return (JStr "a")
          ∧ c' !! "id" = Some (JStr "c1").
Proof.
  intros chunk. split; [reflexivity|]. split; [reflexivity|].
  destruct (chunk_content_round_trip 0 chunk "a<think>b" "a" eq_refl eq_refl)
    as [(c & c' & Hc & Hset & Hget & Hother) _].
  exists c'. split; [done|]. split; [done|].
  injection Hc as <-. by rewrite Hother.
Defined.

(** ** Filtering a completion in place *)

Section FilterData.

Lemma strip_think_tags_empty : strip_think_tags "" = "".
Proof. reflexivity. Qed.

Lemma filter_choice_filtered choice choice' :
  App.filter_choice choice = Return choice' → choice_filtered choice choice'.
Proof.
  unfold App.filter_choice, choice_filtered.
  destruct choice as [| | | | | |c]; try done.
  unfold Json.get, message_content.
  destruct (c !! "message") as [message|] eqn:Hmessage; cbn [default from_option id].
  - destruct message as [| | | |s|xs|msg]; try done.
    + destruct (contains s "content"); [done|]. intros [= <-].
      split; [by left|]. by rewrite Hmessage.
    + destruct (existsb _ xs); [done|]. intros [= <-].
      split; [by left|]. by rewrite Hmessage.
    + destruct (msg !! "content") as [content|] eqn:Hcontent.
      * destruct content as [| | | |text| |];
          try (destruct (Json.truthy _); [done|]; intros [= <-];
               split; [by left|]; by rewrite Hmessage, Hcontent).
        destruct text as [|ch text].
        -- intros [= <-]. split; [by left|]. by rewrite Hmessage, Hcontent.
        -- cbn [PyStr.nonempty]. intros [= <-]. split.
           ++ right. by exists c, msg, (String ch text).
           ++ rewrite lookup_insert_eq. cbv beta iota. by rewrite lookup_insert_eq.
      * intros [= <-]. split; [by left|]. by rewrite Hmessage, Hcontent.
  - rewrite lookup_empty. intros [= <-]. split; [by left|]. by rewrite Hmessage.
Qed.

Lemma filter_choices_filtered choices : ∀ choices',
  App.filter_choices choices = Return choices' →
  Forall2 choice_filtered choices choices'.
Proof.
  induction choices as [|choice choices IH]; intros choices'.
  - intros [= <-]. constructor.
  - cbn [App.filter_choices].
    destruct (App.filter_choice choice) as [e|choice'] eqn:Hchoice; [done|].
    cbn [bind].
    destruct (App.filter_choices choices) as [e|rest'] eqn:Hrest; [done|].
    cbn [bind]. intros [= <-].
    constructor; [by apply filter_choice_filtered|by apply IH].
Qed.

End FilterData.

(** X13. When the filtering of a completion succeeds, the result is the
    same document with the content of every choice's message passed through
    [strip_think_tags]: the choices keep their number and order, every other
    field of the document, of the choices and of the messages is unchanged,
    and a document without a list of choices is returned as it is. *)
Theorem filter_data_changes_only_contents (data data' : json) :
  App.filter_data data = Return data' →
  ∃ d,
    data = JObj d
    ∧ match d !! "choices" with
      | Some (JArr choices) =>
          ∃ choices',
            data' = JObj (<["choices" := JArr choices']> d)
            ∧ Forall2 choice_filtered choices choices'
      | _ => data' = data
      end.
Proof.
  unfold App.filter_data. destruct data as [| | | | | |d]; try done.
  intros H. exists d. split; [done|].
  destruct (d !! "choices") as [choices|]; [|by injection H as <-].
  destruct choices as [| | | |s|choices|kv]; try done.
  - destruct (PyStr.nonempty s); [done|]. by injection H as <-.
  - destruct (App.filter_choices choices) as [e|choices'] eqn:Hchoices; [done|].
    cbn [bind] in H. injection H as <-. exists choices'.
    split; [done|]. by apply filter_choices_filtered.
  - destruct (Json.truthy (JObj kv)); [done|]. by injection H as <-.
Qed.

Lemma filter_data_changes_only_contents_witness :
  let message : gmap string json :=
    <["role" := JStr "assistant"]> {["content" := JStr "<think>plan</think>Hi"]} in
  let data : json :=
    JObj (<["id" := JStr "cmpl-1"]>
          {["choices" := JArr [JObj {["message" := JObj message]}]]}) in
  ∃ data' choice',
    App.filter_data data = Return data'
    ∧ data' = JObj (<["choices" := JArr [choice']]>
                    (<["id" := JStr "cmpl-1"]>
                     {["choices" := JArr [JObj {["message" := JObj message]}]]}))
    ∧ message_content choice' = Some (JStr "Hi").
Proof.
  intros message data.
  assert (Hex : ∃ data', App.filter_data data = Return data')
    by (eexists; reflexivity).
  destruct Hex as [data' Hdata].
  destruct (filter_data_changes_only_contents data data' Hdata) as (d & Hd & Hchoices).
  injection Hd as <-.
  rewrite lookup_insert_ne, lookup_singleton_eq in Hchoices by done.
  destruct Hchoices as (choices' & -> & Hall).
  apply Forall2_cons_inv_l in Hall as (choice' & rest' & [_ Hcontent] & Hrest & ->).
  apply Forall2_nil_inv_l in Hrest as ->.
  eexists. exists choice'. split; [exact Hdata|]. split; [reflexivity|].
  by rewrite Hcontent.
Defined.

(** ** The relay of [main.py] *)

Section MainRelay.

Variable FOUNDRY_CHAT_URL : string.
Variable DEFAULT_MODEL : string.
Variable EXPECTED_API_KEY : string.
Variable get_aad_token : result string.
Variable requests_post : string → gmap string string → string → result (Z * string).
Variable json_loads : string → option json.
Variable json_dumps : json → string.

Abbreviation main_chat_completions :=
  (Main.chat_completions FOUNDRY_CHAT_URL DEFAULT_MODEL EXPECTED_API_KEY
     get_aad_token requests_post json_loads json_dumps).

(** The one call [main.py] makes, when it makes one. *)
Lemma main_chat_completions_call request call :
  call ∈ upstream_calls (main_chat_completions request) →
  ∃ body aad_token,
    req_json request = Some (JObj body)
    ∧ get_aad_token = Return aad_token
    ∧ call = {| call_url := FOUNDRY_CHAT_URL;
                call_headers := <["Authorization" := "Bearer " +:+ aad_token]>
                                {["Content-Type" := "application/json"]};
                call_json :=
                  <["stream" := JBool false]>
                  (<["model" := if Json.truthy (default JNull (body !! "model"))
                                then default JNull (body !! "model")
                                else JStr DEFAULT_MODEL]> body) |}
    ∧ response (main_chat_completions request)
      = bind (requests_post (call_url call) (call_headers call)
                (json_dumps (JObj (call_json call))))
          (λ r, if (400 <=? fst r)%Z
                then Return (JSONResponse (fst r) (JObj {["error" := JStr (snd r)]}))
                else match json_loads (snd r) with
                     | None => Raise JSONDecodeError
                     | Some content => Return (JSONResponse (fst r) content)
                     end).
Proof.
  unfold Main.chat_completions.
  destruct (Main.check_openwebui_key _ _) as [e|_]; [by intros ?%elem_of_nil|].
  destruct (req_json request) as [[| | | | | |body]|]; try (by intros ?%elem_of_nil).
  destruct get_aad_token as [e|aad_token]; [by intros ?%elem_of_nil|].
  cbn [upstream_calls response]. intros ->%list_elem_of_singleton.
  exists body, aad_token. repeat split.
  cbn [call_url call_headers call_json].
  destruct (requests_post _ _ _) as [e|[status_code text]]; done.
Qed.

End MainRelay.

(** X14. [main.py] forwards the request body as it came except for two
    keys: [stream] is set to [False], and [model] is the body's own model
    when that is truthy and the default model otherwise. Every other key
    goes to the configured URL with the value it had, under the bearer
    token that was acquired. *)
Theorem main_forwards_request_body
        (FOUNDRY_CHAT_URL DEFAULT_MODEL EXPECTED_API_KEY : string)
        (get_aad_token : result string)
        (requests_post : string → gmap string string → string → result (Z * string))
        (json_loads : string → option json) (json_dumps : json → string)
        (request : Request) (call : UpstreamCall) :
  call ∈ upstream_calls
           (Main.chat_completions FOUNDRY_CHAT_URL DEFAULT_MODEL EXPECTED_API_KEY
              get_aad_token requests_post json_loads json_dumps request) →
  ∃ body aad_token,
    req_json request = Some (JObj body)
    ∧ get_aad_token = Return aad_token
    ∧ call_url call = FOUNDRY_CHAT_URL
    ∧ call_headers call !! "Authorization" = Some ("Bearer " +:+ aad_token)
    ∧ call_json call !! "stream" = Some (JBool false)
    ∧ call_json call !! "model"
      = Some (match body !! "model" with
              | Some model => if Json.truthy model then model else JStr DEFAULT_MODEL
              | None => JStr DEFAULT_MODEL
              end)
    ∧ ∀ key, key ≠ "model" → key ≠ "stream" → call_json call !! key = body !! key.
Proof.
  intros Hcall.
  destruct (main_chat_completions_call _ _ _ _ _ _ _ _ _ Hcall)
    as (body & aad_token & Hbody & Htoken & -> & _).
  exists body, aad_token. cbn [call_url call_headers call_json].
  split; [done|]. split; [done|]. split; [done|].
  split; [apply lookup_insert_eq|]. split; [apply lookup_insert_eq|]. split.
  - rewrite lookup_insert_ne, lookup_insert_eq by done.
    by destruct (body !! "model").
  - intros key Hmodel Hstream. by rewrite !lookup_insert_ne.
Qed.

Lemma main_forwards_request_body_witness :
  let body : gmap string json :=
    <["messages" := JArr []]> (<["stream" := JBool true]> {["model" := JStr ""]}) in
  let request := {| req_headers := []; req_json := Some (JObj body) |} in
  let handled :=
    Main.chat_completions "https://foundry/chat/completions" "DeepSeek-V3.2-Speciale" ""
      (Return "token") (λ _ _ _, Return (200%Z, "{}")) (λ _, Some (JObj ∅)) (λ _, "")
      request in
  ∃ call,
    upstream_calls handled = [call]
    ∧ call_json call !! "model" = Some (JStr "DeepSeek-V3.2-Speciale")
    ∧ call_json call !! "messages" = Some (JArr []).
Proof.
  intros body request handled.
  assert (Hcalls : ∃ call, upstream_calls handled = [call]) by (eexists; reflexivity).
  destruct Hcalls as [call Hcalls]. exists call. split; [done|].
  assert (Hin : call ∈ upstream_calls handled) by (rewrite Hcalls; apply list_elem_of_here).
  destruct (main_forwards_request_body _ _ _ _ _ _ _ _ _ Hin)
    as (body' & aad_token & Hbody & _ & _ & _ & _ & Hmodel & Hother).
  injection Hbody as <-.
  rewrite Hmodel, Hother by done. clear. split; reflexivity.
Defined.

(** X15. [main.py] answers with the backend's own status: a status of 400
    or more comes back with the backend's text under [error], a lower one
    with the backend's decoded body. *)
Theorem main_relays_backend_status
        (FOUNDRY_CHAT_URL DEFAULT_MODEL EXPECTED_API_KEY : string)
        (get_aad_token : result string)
        (requests_post : string → gmap string string → string → result (Z * string))
        (json_loads : string → option json) (json_dumps : json → string)
        (request : Request) (status_code : Z) (content : json) :
  response (Main.chat_completions FOUNDRY_CHAT_URL DEFAULT_MODEL EXPECTED_API_KEY
              get_aad_token requests_post json_loads json_dumps request)
  = Return (JSONResponse status_code content) →
  ∃ call text,
    upstream_calls (Main.chat_completions FOUNDRY_CHAT_URL DEFAULT_MODEL EXPECTED_API_KEY
                      get_aad_token requests_post json_loads json_dumps request)
    = [call]
    ∧ requests_post (call_url call) (call_headers call) (json_dumps (JObj (call_json call)))
      = Return (status_code, text)
    ∧ if (400 <=? status_code)%Z
      then content = JObj {["error" := JStr text]}
      else json_loads text = Some content.
Proof.
  unfold Main.chat_completions.
  destruct (Main.check_openwebui_key _ _) as [e|_]; [done|].
  destruct (req_json request) as [[| | | | | |body]|]; try done.
  destruct get_aad_token as [e|aad_token]; [done|].
  cbn [upstream_calls response call_url call_headers call_json].
  destruct (requests_post _ _ _) as [e|[status text]] eqn:Hpost; [done|].
  cbn [bind]. intros H. eexists _, text. split; [reflexivity|].
  cbn [call_url call_headers call_json]. rewrite Hpost.
  destruct (400 <=? status)%Z eqn:Hs.
  - injection H as -> <-. by rewrite Hs.
  - destruct (json_loads text) as [content'|] eqn:Hloads; [|done].
    injection H as -> <-. by rewrite Hs.
Qed.

Lemma main_relays_backend_status_witness :
  let request := {| req_headers := []; req_json := Some (JObj ∅) |} in
  let requests_post : string → gmap string string → string → result (Z * string) :=
    λ _ _ _, Return (503%Z, "overloaded") in
  let handled :=
    Main.chat_completions "https://foundry/chat/completions" "DeepSeek-V3.2-Speciale" ""
      (Return "token") requests_post (λ _, None) (λ _, "") request in
  response handled = Return (JSONResponse 503 (JObj {["error" := JStr "overloaded"]}))
  ∧ ∃ call text, upstream_calls handled = [call]
                 ∧ requests_post (call_url call) (call_headers call) "" = Return (503%Z, text).
Proof.
  intros request requests_post handled. split; [reflexivity|].
  destruct (main_relays_backend_status
              "https://foundry/chat/completions" "DeepSeek-V3.2-Speciale" ""
              (Return "token") requests_post (λ _, None) (λ _, "") request
              503 (JObj {["error" := JStr "overloaded"]}) eq_refl)
    as (call & text & Hcalls & Hpost & _).
  by exists call, text.
Defined.

(** ** The streaming filter only leaves characters out *)

Section Subsequence.

Import StreamingThinkFilter.

Lemma subseq_empty b : subseq "" b.
Proof. induction b; [apply subseq_nil|by apply subseq_skip]. Qed.

Lemma subseq_refl a : subseq a a.
Proof. induction a; [apply subseq_nil|by apply subseq_keep]. Qed.

Lemma subseq_app a1 b1 a2 b2 :
  subseq a1 b1 → subseq a2 b2 → subseq (a1 +:+ a2) (b1 +:+ b2).
Proof.
  intros H1 H2. induction H1; rewrite ?sapp_cons;
    [done|by apply subseq_skip|by apply subseq_keep].
Qed.

Lemma subseq_app_skip p a b : subseq a b → subseq a (p +:+ b).
Proof. intros H. apply (subseq_app "" p a b); [apply subseq_empty|done]. Qed.

Lemma subseq_trans b c : subseq b c → ∀ a, subseq a b → subseq a c.
Proof.
  induction 1 as [|x b c Hbc IH|x b c Hbc IH]; intros a Hab; [done| |].
  - apply subseq_skip. by apply IH.
  - inversion Hab as [|y a' b' Hab'|y a' b' Hab']; subst.
    + apply subseq_skip. by apply IH.
    + apply subseq_keep. by apply IH.
Qed.

(** One turn of the loop: what it emits and what is owed afterwards come,
    in order, from what was owed before and the character read. *)
Lemma step_owed self c :
  subseq (default "" (snd (step self c)) +:+ owed (fst (step self c)))
         (owed self +:+ String c "").
Proof.
  unfold step, owed. destruct (inside_think self) eqn:Hin; cbn [negb].
  - destruct (Ascii.eqb c "<");
      cbn [fst snd default from_option id inside_think tag_buffer set_tag_buffer].
    { rewrite Hin. apply subseq_empty. }
    destruct (PyStr.nonempty (tag_buffer self));
      cbn [fst snd default from_option id]; [|rewrite Hin; apply subseq_empty].
    cbv zeta.
    destruct (String.eqb (tag_buffer self +:+ String c "") CLOSE);
      cbn [fst snd default from_option id inside_think tag_buffer set_inside].
    { apply subseq_empty. }
    destruct (negb (PyStr.startswith CLOSE (tag_buffer self +:+ String c "")));
      cbn [fst snd default from_option id inside_think tag_buffer set_tag_buffer];
      rewrite Hin; apply subseq_empty.
  - destruct (Ascii.eqb c "<");
      cbn [fst snd default from_option id inside_think tag_buffer set_tag_buffer].
    { rewrite Hin. apply subseq_refl. }
    destruct (PyStr.nonempty (tag_buffer self)) eqn:Hne;
      cbn [fst snd default from_option id].
    + cbv zeta.
      destruct (String.eqb (tag_buffer self +:+ String c "") OPEN);
        cbn [fst snd default from_option id inside_think tag_buffer set_inside].
      { apply subseq_empty. }
      destruct (negb (PyStr.startswith OPEN (tag_buffer self +:+ String c "")));
        cbn [fst snd default from_option id inside_think tag_buffer set_tag_buffer];
        rewrite Hin.
      * rewrite sapp_nil_r. apply subseq_refl.
      * apply subseq_refl.
    + destruct (tag_buffer self) eqn:Htb; [|done].
      rewrite Hin. apply subseq_refl.
Qed.

Lemma emit_subseq (text : string) : ∀ self,
  subseq (emit self text) (owed self +:+ text).
Proof.
  induction text as [|c text IH]; intros self.
  - change (emit self "") with (snd (flush self)). unfold flush, owed.
    rewrite sapp_nil_r.
    destruct (inside_think self), (tag_buffer self);
      cbn [PyStr.nonempty andb negb snd]; apply subseq_refl || apply subseq_empty.
  - rewrite emit_cons.
    apply (subseq_trans ((default "" (snd (step self c)) +:+ owed (fst (step self c)))
                         +:+ text)).
    + change (String c text) with (String c "" +:+ text).
      rewrite <- sapp_assoc. apply subseq_app; [apply step_owed|apply subseq_refl].
    + rewrite sapp_assoc. apply subseq_app; [apply subseq_refl|apply IH].
Qed.

End Subsequence.

(** X16. The streaming filter only leaves characters out: what it emits for
    a stream, flush included, is a subsequence of the stream's text. It
    never reorders, repeats or makes up a character. *)
Theorem stream_output_is_subsequence (fragments : list string) :
  subseq (StreamingThinkFilter.run fragments) (PyStr.join fragments).
Proof.
  rewrite run_emit.
  apply (emit_subseq (PyStr.join fragments) StreamingThinkFilter.init).
Qed.

(** ** The address of the backend *)

Section BackendUrl.

Lemma rstrip_slash_slashes n : rstrip_slash (slashes n) = "".
Proof. induction n as [|n IH]; [done|]. simpl. by rewrite IH. Qed.

Lemma rstrip_slash_app_slashes e n :
  rstrip_slash (e +:+ slashes n) = rstrip_slash e.
Proof.
  induction e as [|c e IH]; [apply rstrip_slash_slashes|].
  rewrite sapp_cons. cbn [rstrip_slash]. by rewrite IH.
Qed.

Lemma rstrip_slash_no_trailing e : ∀ s, rstrip_slash e ≠ s +:+ "/".
Proof.
  induction e as [|c e IH]; intros s.
  - by destruct s.
  - cbn [rstrip_slash].
    destruct (Ascii.eqb c "/") eqn:Hc, (PyStr.nonempty (rstrip_slash e)) eqn:Hne;
      cbn [andb negb]; try (by destruct s).
    + destruct s as [|x s]; [|rewrite sapp_cons; intros [= _ H]; by apply IH in H].
      rewrite sapp_nil_l. intros [= _ H]. by rewrite H in Hne.
    + destruct s as [|x s]; [|rewrite sapp_cons; intros [= _ H]; by apply IH in H].
      rewrite sapp_nil_l. intros [= -> H]. done.
    + destruct s as [|x s]; [|rewrite sapp_cons; intros [= _ H]; by apply IH in H].
      rewrite sapp_nil_l. intros [= -> H]. done.
Qed.

End BackendUrl.

(** X17. Every request [chat_completions] makes goes to the configured
    endpoint of the resolved model, without its trailing slashes, followed by
    [/chat/completions], with the Entra token as bearer; slashes at the end
    of the configured endpoint make no difference to that address, and the
    address never has two slashes before [chat]. *)
Theorem backend_address
        (MODELS : gmap string (gmap string json)) (get_entra_token : string + string)
        (client_post : string → gmap string string → gmap string json → PostReply)
        (client_stream : string → gmap string string → gmap string json → StreamReply)
        (json_loads : string → option json) (json_dumps : json → string)
        (time_time : Z) (format_value : json → string)
        (format_keys : list string → string)
        (request : Request) (call : UpstreamCall) :
  call ∈ upstream_calls
           (App.chat_completions MODELS get_entra_token client_post client_stream
              json_loads json_dumps time_time format_value format_keys request) →
  ∃ body model model_cfg endpoint token,
    req_json request = Some (JObj body)
    ∧ Json.get body "model" (JStr "") = JStr model
    ∧ MODELS !! model = Some model_cfg
    ∧ model_cfg !! "endpoint" = Some (JStr endpoint)
    ∧ get_entra_token = inr token
    ∧ call_url call = rstrip_slash endpoint +:+ "/chat/completions"
    ∧ call_headers call !! "Authorization" = Some ("Bearer " +:+ token)
    ∧ call_headers call !! "Content-Type" = Some "application/json"
    ∧ (∀ n, rstrip_slash (endpoint +:+ slashes n) = rstrip_slash endpoint)
    ∧ (∀ s, call_url call ≠ s +:+ "//chat/completions").
Proof.
  unfold App.chat_completions.
  destruct (req_json request) as [[| | | | | |body]|]; try (by intros ?%elem_of_nil).
  destruct (Json.get body "model" (JStr "")) as [| | | |model| |] eqn:Hmodel;
    cbn [App.models_get Return Raise raises upstream_calls];
    try (by intros ?%elem_of_nil).
  destruct (MODELS !! model) as [model_cfg|] eqn:Hcfg;
    cbn [raises upstream_calls]; [|by intros ?%elem_of_nil].
  destruct (negb (Json.truthy (JObj model_cfg))); [by intros ?%elem_of_nil|].
  destruct (model_cfg !! "endpoint") as [endpoint|] eqn:Hend;
    [|by intros ?%elem_of_nil].
  destruct get_entra_token as [e|token]; [by intros ?%elem_of_nil|].
  destruct endpoint as [| | | |endpoint| |]; try (by intros ?%elem_of_nil).
  intros Hcall.
  assert (Hcall' : call = {| call_url := rstrip_slash endpoint +:+ "/chat/completions";
                             call_headers := <["Authorization" := "Bearer " +:+ token]>
                                             {["Content-Type" := "application/json"]};
                             call_json :=
                               App.foundry_body body
                                 (Json.get model_cfg "deployment" (JStr model))
                                 (Json.get model_cfg "max_tokens_default" (JInt 4096))
                                 (Json.get body "stream" (JBool false)) |}).
  { destruct (Json.truthy (Json.get body "stream" (JBool false)));
      cbn [App._handle_streaming App._handle_non_streaming upstream_calls] in Hcall;
      by apply list_elem_of_singleton in Hcall. }
  subst call. exists body, model, model_cfg, endpoint, token.
  cbn [call_url call_headers].
  split; [done|]. split; [done|]. split; [done|]. split; [done|]. split; [done|].
  split; [done|]. split; [apply lookup_insert_eq|].
  split; [by rewrite lookup_insert_ne, lookup_singleton_eq|].
  split; [intros n; apply rstrip_slash_app_slashes|].
  intros s H.
  change (s +:+ "//chat/completions") with (s +:+ "/" +:+ "/chat/completions") in H.
  rewrite <- sapp_assoc in H. apply sapp_inj_r in H.
  by apply rstrip_slash_no_trailing in H.
Qed.

Lemma backend_address_witness :
  let MODELS : gmap string (gmap string json) :=
    {["chat" := {["endpoint" := JStr "https://foundry.example/models//"]}]} in
  let body : gmap string json := {["model" := JStr "chat"]} in
  let request := {| req_headers := []; req_json := Some (JObj body) |} in
  let handled :=
    App.chat_completions MODELS (inr "token") (λ _ _ _, PostTimeout)
      (λ _ _ _, ConnectTimeout) (λ _, None) (λ _, "") 0 (λ _, "") (λ _, "") request in
  ∃ call,
    upstream_calls handled = [call]
    ∧ call_url call = "https://foundry.example/models/chat/completions".
Proof.
  intros MODELS body request handled.
  assert (Hcalls : ∃ call, upstream_calls handled = [call]) by (eexists; reflexivity).
  destruct Hcalls as [call Hcalls]. exists call. split; [done|].
  assert (Hin : call ∈ upstream_calls handled) by (rewrite Hcalls; apply list_elem_of_here).
  destruct (backend_address MODELS (inr "token") (λ _ _ _, PostTimeout)
              (λ _ _ _, ConnectTimeout) (λ _, None) (λ _, "") 0 (λ _, "") (λ _, "")
              request call Hin)
    as (body' & model & model_cfg & endpoint & token & Hbody & Hmodel & Hcfg & Hend
        & _ & Hurl & _).
  injection Hbody as <-. injection Hmodel as <-.
  apply (lookup_singleton_Some (M := gmap string)) in Hcfg as [_ <-].
  rewrite lookup_singleton_eq in Hend. injection Hend as <-.
  rewrite Hurl. reflexivity.
Defined.

(** ** After the backend's terminator line *)

Section AfterTerminator.

Variable json_loads : string → option json.
Variable json_dumps : json → string.
Variable time_time : Z.

(** On the terminator line the loop returns, whatever the filter holds. *)
Lemma on_line_done think_filter model_id line :
  done_line line = true →
  ∃ yielded,
    App.on_line json_loads json_dumps time_time think_filter model_id line
    = App.Returns yielded
    ∧ last yielded = Some DONE_EVENT.
Proof.
  unfold done_line, App.on_line. intros [-> ->]%andb_prop. cbn [negb].
  destruct think_filter as [f|]; [|by eexists].
  destruct (StreamingThinkFilter.flush f) as [f' remaining].
  destruct (PyStr.nonempty remaining); by eexists.
Qed.

Lemma lines_loop_stops (pre : list string) line rest : ∀ think_filter model_id,
  done_line line = true →
  App.lines_loop json_loads json_dumps time_time think_filter model_id
    (pre ++ line :: rest)
  = App.lines_loop json_loads json_dumps time_time think_filter model_id
      (pre ++ [line]).
Proof.
  induction pre as [|first pre IH]; intros think_filter model_id Hline.
  - cbn [app App.lines_loop].
    by destruct (on_line_done think_filter model_id line Hline) as (yielded & -> & _).
  - cbn [app App.lines_loop].
    destruct (App.on_line _ _ _ think_filter model_id first); [|done|done].
    by rewrite IH.
Qed.

Lemma lines_loop_reaches_terminator (pre : list string) line :
  ∀ think_filter model_id,
  done_line line = true →
  snd (App.lines_loop json_loads json_dumps time_time think_filter model_id
         (pre ++ [line])) ≠ App.Exhausted.
Proof.
  induction pre as [|first pre IH]; intros think_filter model_id Hline;
    cbn [app App.lines_loop].
  - by destruct (on_line_done think_filter model_id line Hline) as (yielded & -> & _).
  - destruct (App.on_line _ _ _ think_filter model_id first) as [f' ys| |];
      [|done|done].
    specialize (IH f' model_id Hline).
    by destruct (App.lines_loop _ _ _ f' model_id (pre ++ [line])).
Qed.

End AfterTerminator.

(** X18. The generator stops at the backend's terminator line: the lines
    that follow it, and the way the body ends after it, change nothing in
    what is written to the client. *)
Theorem nothing_after_upstream_terminator
        (client_stream client_stream' :
           string → gmap string string → gmap string json → StreamReply)
        (json_loads : string → option json) (json_dumps : json → string)
        (time_time : Z) (url : string) (headers : gmap string string)
        (body : gmap string json) (model_id should_filter : json)
        (pre : list string) (line : string) (rest : list string) (ending : LinesEnd) :
  done_line line = true →
  client_stream url headers body = StreamResponse 200 (pre ++ line :: rest) ending →
  client_stream' url headers body = StreamResponse 200 (pre ++ [line]) EndOfLines →
  App.generate client_stream json_loads json_dumps time_time
    url headers body model_id should_filter
  = App.generate client_stream' json_loads json_dumps time_time
      url headers body model_id should_filter.
Proof.
  intros Hline Hreply Hreply'. unfold App.generate. rewrite Hreply, Hreply'.
  cbn [Z.eqb Pos.eqb negb]. rewrite (lines_loop_stops _ _ _ pre line rest) by done.
  pose proof (lines_loop_reaches_terminator json_loads json_dumps time_time pre line
                (if Json.truthy should_filter then Some StreamingThinkFilter.init else None)
                model_id Hline) as Hexit.
  destruct (App.lines_loop _ _ _ _ model_id (pre ++ [line])) as [yielded exit].
  by destruct exit.
Qed.

Lemma nothing_after_upstream_terminator_witness :
  let client_stream : string → gmap string string → gmap string json → StreamReply :=
    λ _ _ _, StreamResponse 200 ["data: [DONE]"; "data: {}"] ReadTimeout in
  let client_stream' : string → gmap string string → gmap string json → StreamReply :=
    λ _ _ _, StreamResponse 200 ["data: [DONE]"] EndOfLines in
  done_line "data: [DONE]" = true
  ∧ App.generate client_stream (λ _, None) (λ _, "") 0 "u" ∅ ∅ (JStr "chat") (JBool true)
    = App.generate client_stream' (λ _, None) (λ _, "") 0 "u" ∅ ∅ (JStr "chat") (JBool true).
Proof.
  intros client_stream client_stream'. split; [reflexivity|].
  apply (nothing_after_upstream_terminator client_stream client_stream'
           (λ _, None) (λ _, "") 0 "u" ∅ ∅ (JStr "chat") (JBool true)
           [] "data: [DONE]" ["data: {}"] ReadTimeout eq_refl eq_refl eq_refl).
Defined.

(** ** A chunk without choices *)

Section EmptyChoices.

Variable json_loads : string → option json.
Variable json_dumps : json → string.
Variable time_time : Z.

(** On a data line whose payload decodes to an object with an empty
    [choices] list, [chunk.get("choices", [{}])[0]] raises, whatever the
    filter holds. *)
Lemma on_line_empty_choices think_filter model_id line chunk :
  PyStr.startswith line "data: " = true →
  done_line line = false →
  json_loads (PyStr.drop 6 line) = Some (JObj chunk) →
  chunk !! "choices" = Some (JArr []) →
  App.on_line json_loads json_dumps time_time think_filter model_id line
  = App.Raises IndexError.
Proof.
  intros Hdata Hdone Hloads Hchoices. unfold App.on_line.
  unfold done_line in Hdone. rewrite Hdata in Hdone |- *. cbn [andb negb] in *.
  rewrite Hdone, Hloads. unfold App.delta_content.
  cbn [Json.get_attr bind Return]. unfold Json.get. by rewrite Hchoices.
Qed.

(** When the loop gets through the lines [pre], an exception on the next
    line ends it with what [pre] yielded. *)
Lemma lines_loop_raises (pre : list string) line rest e : ∀ think_filter model_id,
  snd (App.lines_loop json_loads json_dumps time_time think_filter model_id pre)
  = App.Exhausted →
  (∀ think_filter',
     App.on_line json_loads json_dumps time_time think_filter' model_id line
     = App.Raises e) →
  App.lines_loop json_loads json_dumps time_time think_filter model_id
    (pre ++ line :: rest)
  = (fst (App.lines_loop json_loads json_dumps time_time think_filter model_id pre),
     App.Raised e).
Proof.
  induction pre as [|first pre IH]; intros think_filter model_id Hpre Hline;
    cbn [app App.lines_loop] in *.
  - by rewrite Hline.
  - destruct (App.on_line _ _ _ think_filter model_id first) as [f' ys| |];
      [|done|done].
    specialize (IH f' model_id).
    destruct (App.lines_loop _ _ _ f' model_id pre) as [more exit].
    cbn [fst snd] in *. by rewrite (IH Hpre Hline).
Qed.

(** The lines the loop gets through yield no terminator. *)
Lemma lines_loop_exhausted_not_done (pre : list string) : ∀ think_filter model_id,
  (∀ x, json_dumps x ≠ "[DONE]") →
  snd (App.lines_loop json_loads json_dumps time_time think_filter model_id pre)
  = App.Exhausted →
  Forall (λ y, y ≠ DONE_EVENT)
    (fst (App.lines_loop json_loads json_dumps time_time think_filter model_id pre)).
Proof.
  induction pre as [|first pre IH]; intros think_filter model_id Hdumps Hpre;
    cbn [App.lines_loop] in *; [done|].
  destruct (done_line first) eqn:Hfirst.
  { destruct (on_line_done json_loads json_dumps time_time think_filter model_id
                first Hfirst) as (ys & Hturn & _).
    by rewrite Hturn in Hpre. }
  pose proof (on_line_not_done json_loads json_dumps time_time Hdumps
                think_filter model_id first Hfirst) as Hturn.
  destruct (App.on_line _ _ _ think_filter model_id first) as [f' ys| |];
    [|done|done].
  specialize (IH f' model_id Hdumps).
  destruct (App.lines_loop _ _ _ f' model_id pre) as [more exit].
  cbn [fst snd] in *. apply Forall_app. split; [done|by apply IH].
Qed.

End EmptyChoices.

(** X19. A data line whose payload decodes to an object with an empty
    [choices] list makes the content extraction index an empty list.
    Wherever the line stands in the body, once the loop has got through the
    lines before it, the generator ends there with [IndexError], with or
    without filtering: what the earlier lines yielded has been written and
    stays, nothing is written for that line or for the rest of the stream,
    and no terminator is written. *)
Theorem empty_choices_chunk_aborts_stream
        (client_stream : string → gmap string string → gmap string json → StreamReply)
        (json_loads : string → option json) (json_dumps : json → string)
        (time_time : Z) (url : string) (headers : gmap string string)
        (body : gmap string json) (model_id should_filter : json)
        (pre : list string) (line : string) (chunk : gmap string json)
        (rest : list string) (ending : LinesEnd) :
  let think_filter :=
    if Json.truthy should_filter then Some StreamingThinkFilter.init else None in
  let written :=
    fst (App.lines_loop json_loads json_dumps time_time think_filter model_id pre) in
  (∀ x, json_dumps x ≠ "[DONE]") →
  snd (App.lines_loop json_loads json_dumps time_time think_filter model_id pre)
  = App.Exhausted →
  PyStr.startswith line "data: " = true →
  done_line line = false →
  json_loads (PyStr.drop 6 line) = Some (JObj chunk) →
  chunk !! "choices" = Some (JArr []) →
  client_stream url headers body = StreamResponse 200 (pre ++ line :: rest) ending →
  App.generate client_stream json_loads json_dumps time_time
    url headers body model_id should_filter
  = {| events := written; raised := Some IndexError |}
  ∧ last written ≠ Some DONE_EVENT.
Proof.
  intros think_filter written Hdumps Hpre Hdata Hdone Hloads Hchoices Hreply.
  split.
  - unfold App.generate. rewrite Hreply. cbn [Z.eqb Pos.eqb negb].
    fold think_filter.
    rewrite (lines_loop_raises json_loads json_dumps time_time pre line rest
               IndexError think_filter model_id Hpre); [done|].
    intros think_filter'. by apply on_line_empty_choices with chunk.
  - apply last_not_done.
    by apply lines_loop_exhausted_not_done.
Qed.

Lemma empty_choices_chunk_aborts_stream_witness :
  let quote := String "034"%char "" in
  let payload := "{" +:+ quote +:+ "choices" +:+ quote +:+ ": []}" in
  let json_loads : string → option json :=
    λ text, if String.eqb text payload
            then Some (JObj {["choices" := JArr []]}) else Some (JObj ∅) in
  let json_dumps : json → string := λ _, "{}" in
  let lines := ["data: {}"; ": keep-alive"; "data: " +:+ payload; "data: [DONE]"] in
  let client_stream : string → gmap string string → gmap string json → StreamReply :=
    λ _ _ _, StreamResponse 200 lines EndOfLines in
  snd (App.lines_loop json_loads json_dumps 0 (Some StreamingThinkFilter.init)
         (JStr "chat") ["data: {}"; ": keep-alive"]) = App.Exhausted
  ∧ App.generate client_stream json_loads json_dumps 0 "u" ∅ ∅ (JStr "chat") (JBool true)
    = {| events := ["data: {}" +:+ two_newlines]; raised := Some IndexError |}.
Proof.
  intros quote payload json_loads json_dumps lines client_stream.
  split; [reflexivity|].
  assert (Hdumps : ∀ x, json_dumps x ≠ "[DONE]") by done.
  destruct (empty_choices_chunk_aborts_stream client_stream json_loads json_dumps 0
              "u" ∅ ∅ (JStr "chat") (JBool true)
              ["data: {}"; ": keep-alive"] ("data: " +:+ payload)
              {["choices" := JArr []]} ["data: [DONE]"] EndOfLines
              Hdumps eq_refl eq_refl eq_refl eq_refl eq_refl eq_refl) as [-> _].
  reflexivity.
Defined.

(** ** The model listings *)

(** X20. [GET /v1/models] and [GET /health] list exactly the configured
    model ids, each once: the [id] fields of the entries of the listing and
    the names the health check reports are the same list, without repeats,
    holding an id exactly when the registry has a configuration for it. *)
Theorem model_listings_match_registry (MODELS : gmap string (gmap string json)) :
  let ids := App.model_ids MODELS in
  NoDup ids
  ∧ (∀ id, id ∈ ids ↔ is_Some (MODELS !! id))
  ∧ length ids = size MODELS
  ∧ App.health MODELS
    = JObj (<["status" := JStr "ok"]> {["models" := JArr (JStr <$> ids)]})
  ∧ ∃ entries,
      App.list_models MODELS
      = JObj (<["object" := JStr "list"]> {["data" := JArr entries]})
      ∧ (λ entry, match entry with JObj o => o !! "id" | _ => None end) <$> entries
        = (λ id, Some (JStr id)) <$> ids
      ∧ Forall (λ entry, match entry with
                         | JObj o => o !! "object" = Some (JStr "model")
                         | _ => False
                         end) entries.
Proof.
  intros ids. subst ids. unfold App.model_ids.
  split; [apply NoDup_fst_map_to_list|]. split; [|split; [|split; [done|]]].
  - intros id. rewrite list_elem_of_fmap. split.
    + intros ([id' cfg] & -> & Hin). apply elem_of_map_to_list in Hin. by exists cfg.
    + intros [cfg Hcfg]. exists (id, cfg). split; [done|]. by apply elem_of_map_to_list.
  - by rewrite length_map, length_map_to_list.
  - eexists. split; [reflexivity|]. unfold App.model_ids. split.
    + rewrite <- list_fmap_compose. apply list_fmap_ext. intros i id _. cbn.
      by rewrite lookup_insert_eq.
    + apply Forall_fmap, Forall_true. intros id. cbn.
      by rewrite lookup_insert_ne, lookup_insert_eq.
Qed.

(** ** Without a configuration file *)

(** X21. Without a configuration file the registry is the environment
    fallback: one model, named by [MODEL_ID] (or [DeepSeek-V3.2-Speciale]).
    A chat request for any other id is answered 404 without a call to the
    backend; a request for that id, once a token is there, makes one call,
    to [FOUNDRY_ENDPOINT] (the empty string when unset) without trailing
    slashes followed by [/chat/completions], with the id as [model] and 4096
    as the default [max_tokens]. *)
Theorem env_fallback_serves_one_model
        (environ : gmap string string) (get_entra_token : string + string)
        (client_post : string → gmap string string → gmap string json → PostReply)
        (client_stream : string → gmap string string → gmap string json → StreamReply)
        (json_loads : string → option json) (json_dumps : json → string)
        (time_time : Z) (format_value : json → string)
        (format_keys : list string → string)
        (request : Request) (body : gmap string json) (model : string) :
  let MODELS := Config.MODELS environ None in
  let id := Config.getenv environ "MODEL_ID" "DeepSeek-V3.2-Speciale" in
  let handled :=
    App.chat_completions MODELS get_entra_token client_post client_stream
      json_loads json_dumps time_time format_value format_keys request in
  req_json request = Some (JObj body) →
  Json.get body "model" (JStr "") = JStr model →
  dom MODELS = {[id]}
  ∧ (model ≠ id →
     upstream_calls handled = []
     ∧ ∃ detail, response handled = Raise (HTTPException 404 detail))
  ∧ (model = id → ∀ token, get_entra_token = inr token →
     ∃ call,
       upstream_calls handled = [call]
       ∧ call_url call
         = rstrip_slash (Config.getenv environ "FOUNDRY_ENDPOINT" "")
           +:+ "/chat/completions"
       ∧ call_json call !! "model" = Some (JStr id)
       ∧ call_json call !! "max_tokens"
         = Some (default (JInt 4096) (body !! "max_tokens"))).
Proof.
  intros MODELS id handled Hbody Hmodel.
  subst MODELS id handled. unfold Config.MODELS, Config.load_config.
  rewrite lookup_singleton_eq. cbn [default from_option id].
  set (id := Config.getenv environ "MODEL_ID" "DeepSeek-V3.2-Speciale").
  split; [by rewrite dom_singleton_L|]. split.
  - intros Hne. unfold App.chat_completions.
    rewrite Hbody, Hmodel. cbn [App.models_get Return].
    rewrite lookup_singleton_ne by done. cbn [raises upstream_calls response]. eauto.
  - intros -> token Htoken. unfold App.chat_completions.
    rewrite Hbody, Hmodel. cbn [App.models_get Return].
    rewrite lookup_singleton_eq.
    set (model_cfg := <["endpoint" := _]> _).
    assert (Hend : model_cfg !! "endpoint"
                   = Some (JStr (Config.getenv environ "FOUNDRY_ENDPOINT" "")))
      by apply lookup_insert_eq.
    rewrite (lookup_Some_truthy _ _ _ Hend), Hend, Htoken. cbn [negb].
    assert (Hdep : Json.get model_cfg "deployment" (JStr id) = JStr id).
    { unfold Json.get, model_cfg. by rewrite lookup_insert_ne, lookup_insert_eq. }
    assert (Hmax : Json.get model_cfg "max_tokens_default" (JInt 4096) = JInt 4096).
    { unfold Json.get, model_cfg.
      by rewrite !lookup_insert_ne, lookup_singleton_eq. }
    rewrite Hdep, Hmax.
    pose proof (foundry_body_fixed_keys body (JStr id) (JInt 4096)
                  (Json.get body "stream" (JBool false)))
      as (_ & Hm & Hmt & _).
    destruct (Json.truthy (Json.get body "stream" (JBool false)));
      cbn [App._handle_streaming App._handle_non_streaming upstream_calls];
      eexists; (split; [reflexivity|]); cbn [call_url call_json];
      (split; [done|]); by split.
Qed.

Lemma env_fallback_serves_one_model_witness :
  let environ : gmap string string := {["MODEL_ID" := "chat"]} in
  let body : gmap string json := {["model" := JStr "chat"]} in
  let request := {| req_headers := []; req_json := Some (JObj body) |} in
  let handled :=
    App.chat_completions (Config.MODELS environ None) (inr "token")
      (λ _ _ _, PostTimeout) (λ _ _ _, ConnectTimeout) (λ _, None) (λ _, "") 0
      (λ _, "") (λ _, "") request in
  ∃ call,
    upstream_calls handled = [call]
    ∧ call_url call = "/chat/completions"
    ∧ call_json call !! "max_tokens" = Some (JInt 4096).
Proof.
  intros environ body request handled.
  destruct (env_fallback_serves_one_model environ (inr "token")
              (λ _ _ _, PostTimeout) (λ _ _ _, ConnectTimeout) (λ _, None) (λ _, "") 0
              (λ _, "") (λ _, "") request body "chat" eq_refl eq_refl)
    as (_ & _ & Hserved).
  destruct (Hserved eq_refl "token" eq_refl) as (call & Hcalls & Hurl & _ & Hmax).
  exists call. split; [done|]. split; [done|]. exact Hmax.
Defined.
